(** * Azure DevOps MCP server (Python): a shallow embedding

    The development follows the layout of the package [azure_devops_mcp]:
    one module per source file.  Python values that the code inspects are
    modelled as the code sees them; every effect (printing, reading the
    clock, the network, the SDK clients) is explicit in a trace or in an
    oracle that the function receives. *)

From Stdlib Require Import ZArith QArith Ascii String List Bool Lia DecimalString.
From Stdlib Require PrimFloat FloatOps SpecFloat.
From stdpp Require Import base option list gmap strings.

Local Open Scope string_scope.
Local Open Scope nat_scope.
Local Open Scope list_scope.
Local Open Scope stdpp_scope.

(** A closed decidable proposition, settled by evaluation. *)
Ltac decide_closed :=
  match goal with
  | |- ?P => apply (bool_decide_unpack P); vm_compute; exact I
  end.

(** ** Python strings

    A Python [str] is modelled as a [string] of code points 0..255
    (Latin-1); on that range [str.isspace], [str.lower], [str.strip] and
    [str.split] are as below. *)

Module PyStr.

Definition code (c : ascii) : N := N_of_ascii c.

(** [str.isspace] on one code point: TAB..CR, FS..US, SPACE, NEL, NBSP. *)
Definition isspace (c : ascii) : bool :=
  let n := code c in
  (((9 <=? n) && (n <=? 13)) || ((28 <=? n) && (n <=? 32))
   || (n =? 133) || (n =? 160))%N.

(** [str.lower] on one code point: A..Z and the Latin-1 capitals
    (0xC0..0xDE without the multiplication sign 0xD7) move up by 32. *)
Definition lower_char (c : ascii) : ascii :=
  let n := code c in
  if (((65 <=? n) && (n <=? 90))
      || ((192 <=? n) && (n <=? 222) && negb (n =? 215)))%N
  then ascii_of_N (n + 32) else c.

Fixpoint lower (s : string) : string :=
  match s with
  | EmptyString => EmptyString
  | String c s' => String (lower_char c) (lower s')
  end.

Fixpoint lstrip (s : string) : string :=
  match s with
  | EmptyString => EmptyString
  | String c s' => if isspace c then lstrip s' else s
  end.

(** [rstrip]: a character stays when something that stays follows it, or
    when it is not white space itself. *)
Fixpoint rstrip (s : string) : string :=
  match s with
  | EmptyString => EmptyString
  | String c s' =>
      match rstrip s' with
      | EmptyString => if isspace c then EmptyString else String c EmptyString
      | r => String c r
      end
  end.

Definition strip (s : string) : string := rstrip (lstrip s).

(** [s.split(sep)] for a one-character separator: never the empty list. *)
Fixpoint split (sep : ascii) (s : string) : list string :=
  match s with
  | EmptyString => [EmptyString]
  | String c s' =>
      if Ascii.eqb c sep then EmptyString :: split sep s'
      else match split sep s' with
           | h :: t => String c h :: t
           | [] => [String c EmptyString]
           end
  end.

(** [sep.join(l)] *)
Fixpoint join (sep : string) (l : list string) : string :=
  match l with
  | [] => EmptyString
  | [x] => x
  | x :: rest => x +:+ sep +:+ join sep rest
  end.

(** [s.startswith(p)] *)
Definition startswith (p s : string) : bool := String.prefix p s.

(** Truth value of a [str]: the empty string is falsy. *)
Definition truthy (s : string) : bool :=
  match s with EmptyString => false | _ => true end.

(** [str(z)] for an [int]. *)
Definition of_int (z : Z) : string := NilEmpty.string_of_int (Z.to_int z).

Example strip_ex : strip "  Core " = "Core".
Proof. reflexivity. Qed.

Example lower_ex : lower "Work-Items" = "work-items".
Proof. reflexivity. Qed.

Example split_ex : split "," "core, wiki,," = ["core"; " wiki"; ""; ""].
Proof. reflexivity. Qed.

Example split_empty : split "," "" = [""].
Proof. reflexivity. Qed.

Example join_ex : join ", " ["a"; "b"; "c"] = "a, b, c".
Proof. reflexivity. Qed.

Example of_int_ex : map of_int [404; 0; -3]%Z = ["404"; "0"; "-3"].
Proof. reflexivity. Qed.

(** The white-space code points below 256, and the number of code points
    that [lower_char] moves. *)
Example isspace_table :
  filter (λ n, isspace (ascii_of_nat n) = true) (seq 0 256)
  = [9; 10; 11; 12; 13; 28; 29; 30; 31; 32; 133; 160].
Proof. vm_compute. reflexivity. Qed.

Example lower_char_moves :
  length (filter (λ n, lower_char (ascii_of_nat n) ≠ ascii_of_nat n)
                 (seq 0 256)) = 56.
Proof. vm_compute. reflexivity. Qed.

Example strip_inner : strip (String "009" " x y ") = "x y".
Proof. reflexivity. Qed.

(** *** Laws of [lower] and [strip] *)

Lemma isspace_lower_char c : isspace (lower_char c) = isspace c.
Proof. destruct c as [[] [] [] [] [] [] [] []]; reflexivity. Qed.

Lemma lower_char_idemp c : lower_char (lower_char c) = lower_char c.
Proof. destruct c as [[] [] [] [] [] [] [] []]; reflexivity. Qed.

Lemma lower_idemp s : lower (lower s) = lower s.
Proof.
  induction s as [|c s IH]; [done|]. cbn. by rewrite lower_char_idemp, IH.
Qed.

Lemma lstrip_lower s : lstrip (lower s) = lower (lstrip s).
Proof.
  induction s as [|c s IH]; [done|]. cbn. rewrite isspace_lower_char.
  by destruct (isspace c).
Qed.

Lemma lower_empty s : lower s = EmptyString → s = EmptyString.
Proof. by destruct s. Qed.

Lemma rstrip_lower s : rstrip (lower s) = lower (rstrip s).
Proof.
  induction s as [|c s IH]; [done|]. cbn. rewrite IH, isspace_lower_char.
  destruct (rstrip s) as [|c' r]; cbn; [by destruct (isspace c)|done].
Qed.

Lemma strip_lower s : strip (lower s) = lower (strip s).
Proof. unfold strip. by rewrite lstrip_lower, rstrip_lower. Qed.

(** What [lstrip] leaves does not start with white space. *)
Lemma lstrip_head s c r : lstrip s = String c r → isspace c = false.
Proof.
  induction s as [|c' s IH]; [done|]. cbn.
  destruct (isspace c') eqn:Hc'; [exact IH|]. by intros [= <- _].
Qed.

Lemma rstrip_idemp s : rstrip (rstrip s) = rstrip s.
Proof.
  induction s as [|c s IH]; [done|]. cbn.
  destruct (rstrip s) as [|c' r] eqn:Hr.
  - destruct (isspace c) eqn:Hc; [done|]. cbn. by rewrite Hc.
  - cbn. cbn in IH. by rewrite IH.
Qed.

(** [rstrip] keeps a first character that is no white space. *)
Lemma rstrip_head c s :
  isspace c = false → ∃ r, rstrip (String c s) = String c r.
Proof.
  intros Hc. cbn. destruct (rstrip s); [rewrite Hc|]; by eexists.
Qed.

Lemma strip_idemp s : strip (strip s) = strip s.
Proof.
  unfold strip. destruct (lstrip s) as [|c r] eqn:Hl; [done|].
  pose proof (lstrip_head _ _ _ Hl) as Hc.
  destruct (rstrip_head c r Hc) as [r' Hr]. rewrite Hr.
  assert (Hls : lstrip (String c r') = String c r') by (cbn; by rewrite Hc).
  rewrite Hls, <- Hr. apply rstrip_idemp.
Qed.

(** A string that [strip] empties has only white space in it, and so no
    separator that is not white space. *)
Lemma strip_empty_lstrip s : strip s = EmptyString → lstrip s = EmptyString.
Proof.
  unfold strip. destruct (lstrip s) as [|c r] eqn:Hl; [done|].
  pose proof (lstrip_head _ _ _ Hl) as Hc.
  destruct (rstrip_head c r Hc) as [r' Hr]. by rewrite Hr.
Qed.

Lemma split_all_space sep s :
  isspace sep = false → lstrip s = EmptyString → split sep s = [s].
Proof.
  intros Hsep. induction s as [|c s IH]; [done|]. cbn.
  destruct (isspace c) eqn:Hc; [|done]. intros Hl.
  destruct (Ascii.eqb_spec c sep) as [->|_]; [congruence|].
  by rewrite (IH Hl).
Qed.

End PyStr.

(** ** Python values, truthiness and exceptions *)

Module Py.
Import PrimFloat.

(** The values a JSON argument mapping, a cache file or an SDK reply can
    hold.  A Python [float] is a binary64 number. *)
Inductive pyval : Type :=
  | PNone
  | PBool (b : bool)
  | PInt (z : Z)
  | PFloat (f : float)
  | PStr (s : string)
  | PList (l : list pyval)
  | PDict (d : list (string * pyval)).

(** [bool(v)], as [not v] and [if v] use it. *)
Definition truthy (v : pyval) : bool :=
  match v with
  | PNone => false
  | PBool b => b
  | PInt z => negb (z =? 0)%Z
  | PFloat f => negb (f =? 0)%float
  | PStr s => PyStr.truthy s
  | PList l => match l with [] => false | _ => true end
  | PDict d => match d with [] => false | _ => true end
  end.

Definition is_none (v : pyval) : bool :=
  match v with PNone => true | _ => false end.

(** [type(v).__name__] *)
Definition type_name (v : pyval) : string :=
  match v with
  | PNone => "NoneType"
  | PBool _ => "bool"
  | PInt _ => "int"
  | PFloat _ => "float"
  | PStr _ => "str"
  | PList _ => "list"
  | PDict _ => "dict"
  end.

(** Exceptions: the class decides which [except] clause catches it, the
    message is [str(e)]. *)
Inductive exn_class : Type :=
  | ExceptionC | AttributeErrorC | TypeErrorC | OverflowErrorC.

Record exn : Type := mkExn { exn_cls : exn_class; exn_msg : string }.

Definition Exception (msg : string) : exn := mkExn ExceptionC msg.

(** What the interpreter raises for [v.attr] when [v] has no such
    attribute. *)
Definition no_attribute (v : pyval) (attr : string) : exn :=
  mkExn AttributeErrorC
    ("'" +:+ type_name v +:+ "' object has no attribute '" +:+ attr +:+ "'").

(** The outcome of a call: a value or a raised exception. *)
Inductive result (A : Type) : Type :=
  | Return (a : A)
  | Raise (e : exn).
Arguments Return {A} a.
Arguments Raise {A} e.

Definition bind {A B} (r : result A) (k : A → result B) : result B :=
  match r with
  | Return a => k a
  | Raise e => Raise e
  end.

(** [try: r except Exception as e: h e] *)
Definition try_except {A} (r : result A) (h : exn → result A) : result A :=
  match r with
  | Return a => Return a
  | Raise e => h e
  end.

Definition raises {A} (r : result A) : bool :=
  match r with Return _ => false | Raise _ => true end.

(** [arguments.get(key)] and [arguments.get(key, default)] *)
Definition get (arguments : gmap string pyval) (key : string) : pyval :=
  default PNone (arguments !! key).

Definition get_default (arguments : gmap string pyval) (key : string)
  (dflt : pyval) : pyval :=
  default dflt (arguments !! key).

End Py.

(** ** shared/domains.py *)

Module Domains.

(** [class Domain(str, Enum)], in declaration order. *)
Inductive Domain : Type :=
  | ADVANCED_SECURITY
  | PIPELINES
  | CORE
  | REPOSITORIES
  | SEARCH
  | TEST_PLANS
  | WIKI
  | WORK
  | WORK_ITEMS.

Definition value (d : Domain) : string :=
  match d with
  | ADVANCED_SECURITY => "advanced-security"
  | PIPELINES => "pipelines"
  | CORE => "core"
  | REPOSITORIES => "repositories"
  | SEARCH => "search"
  | TEST_PLANS => "test-plans"
  | WIKI => "wiki"
  | WORK => "work"
  | WORK_ITEMS => "work-items"
  end.

(** Iterating [for d in Domain]. *)
Definition all_Domain : list Domain :=
  [ADVANCED_SECURITY; PIPELINES; CORE; REPOSITORIES; SEARCH;
   TEST_PLANS; WIKI; WORK; WORK_ITEMS].

Definition ALL_DOMAINS : string := "all".

(** [Optional[Union[str, List[str]]]] *)
Inductive domains_input : Type :=
  | InNone
  | InStr (s : string)
  | InList (l : list string).

(** A manager under construction: the attribute [enabled_domains] and the
    lines the constructor has printed so far. *)
Record DomainsManager : Type := mkManager {
  enabled_domains : gset string;
  printed : list string
}.

(** [get_available_domains] / [[d.value for d in Domain]] *)
Definition get_available_domains : list string := map value all_Domain.

Definition add_domain (s : string) (m : DomainsManager) : DomainsManager :=
  mkManager ({[ s ]} ∪ enabled_domains m) (printed m).

Definition print (line : string) (m : DomainsManager) : DomainsManager :=
  mkManager (enabled_domains m) (printed m ++ [line]).

Definition _enable_all_domains (m : DomainsManager) : DomainsManager :=
  fold_left (fun acc d => add_domain (value d) acc) all_Domain m.

Definition invalid_domain_message (domain : string) : string :=
  "Error: Specified invalid domain '" +:+ domain +:+ "'. "
  +:+ "Please specify exactly as available domains: "
  +:+ PyStr.join ", " get_available_domains.

(** One iteration of the loop of [_validate_and_add_domains]. *)
Definition validate_step (m : DomainsManager) (domain : string) : DomainsManager :=
  if bool_decide (domain ∈ get_available_domains) then add_domain domain m
  else if String.eqb domain ALL_DOMAINS then _enable_all_domains m
  else print (invalid_domain_message domain) m.

Definition _validate_and_add_domains (domains : list string) (m : DomainsManager)
  : DomainsManager :=
  let m' := fold_left validate_step domains m in
  if bool_decide (size (enabled_domains m') = 0) then _enable_all_domains m'
  else m'.

(** [d.strip().lower()] *)
Definition normalize (d : string) : string := PyStr.lower (PyStr.strip d).

Definition _handle_array_input (l : list string) (m : DomainsManager) : DomainsManager :=
  if bool_decide (length l = 0) || bool_decide (ALL_DOMAINS ∈ l)
  then _enable_all_domains m
  else _validate_and_add_domains (map normalize l) m.

Definition _handle_string_input (s : string) (m : DomainsManager) : DomainsManager :=
  if String.eqb s ALL_DOMAINS then _enable_all_domains m
  else _validate_and_add_domains (map normalize (PyStr.split "," s)) m.

(** [not domains_input]: [None], the empty string and the empty list. *)
Definition input_falsy (i : domains_input) : bool :=
  match i with
  | InNone => true
  | InStr s => negb (PyStr.truthy s)
  | InList l => match l with [] => true | _ => false end
  end.

Definition _parse_domains (i : domains_input) (m : DomainsManager) : DomainsManager :=
  if input_falsy i then _enable_all_domains m
  else match i with
       | InList l => _handle_array_input l m
       | InStr s => _handle_string_input s m
       | InNone => _enable_all_domains m
       end.

(** [DomainsManager.__init__] *)
Definition new (i : domains_input) : DomainsManager :=
  _parse_domains i (mkManager ∅ []).

Definition is_domain_enabled (m : DomainsManager) (domain : string) : bool :=
  bool_decide (domain ∈ enabled_domains m).

Definition get_enabled_domains (m : DomainsManager) : gset string :=
  enabled_domains m.

(** The full nine-domain set. *)
Definition all_domains_set : gset string := list_to_set get_available_domains.

(** The third branch of the validation loop: neither a domain nor ["all"]. *)
Definition unrecognized (d : string) : Prop :=
  (d ∉ get_available_domains) ∧ (d ≠ ALL_DOMAINS).

#[global] Instance unrecognized_dec d : Decision (unrecognized d).
Proof. unfold unrecognized. apply _. Defined.

Example test_basic_core_pipelines :
  let m := new (InList ["core"; "pipelines"]) in
  (is_domain_enabled m "core" = true ∧
   is_domain_enabled m "pipelines" = true ∧
   is_domain_enabled m "wiki" = false).
Proof. vm_compute. auto. Qed.

(** The cases of [tests/test_basic.py]. *)
Example test_all_domains :
  enabled_domains (new (InList ["all"])) = all_domains_set.
Proof. vm_compute. reflexivity. Qed.

Example test_core_repositories :
  is_domain_enabled (new (InList ["core"; "repositories"])) "pipelines"
  = false.
Proof. vm_compute. reflexivity. Qed.

Example test_default :
  enabled_domains (new InNone) = all_domains_set.
Proof. vm_compute. reflexivity. Qed.

Example mixed_case_all :
  printed (new (InList ["ALL"; "builds"])) = [invalid_domain_message "builds"]
  ∧ enabled_domains (new (InList ["ALL"; "builds"])) = all_domains_set.
Proof. vm_compute. split; reflexivity. Qed.

(** *** What the helpers do to the two components of the state *)

Lemma enable_all_enabled m :
  enabled_domains (_enable_all_domains m) = all_domains_set ∪ enabled_domains m.
Proof.
  destruct m as [e p]. unfold _enable_all_domains, all_domains_set.
  cbn [fold_left all_Domain get_available_domains map add_domain
       enabled_domains printed list_to_set].
  set_solver.
Qed.

Lemma enable_all_printed m : printed (_enable_all_domains m) = printed m.
Proof. destruct m; reflexivity. Qed.

Lemma elem_of_all_domains_set d :
  d ∈ all_domains_set ↔ d ∈ get_available_domains.
Proof. unfold all_domains_set. by rewrite elem_of_list_to_set. Qed.

Lemma all_not_available : ALL_DOMAINS ∉ get_available_domains.
Proof. decide_closed. Qed.

Lemma all_domains_set_nonempty : all_domains_set ≠ ∅.
Proof.
  intros H. assert (Hc : "core" ∈ all_domains_set).
  { apply elem_of_all_domains_set. decide_closed. }
  rewrite H in Hc. set_solver.
Qed.

(** The loop of [_validate_and_add_domains], characterised exactly. *)
Lemma fold_validate_enabled domains m :
  enabled_domains (fold_left validate_step domains m)
  = enabled_domains m
    ∪ list_to_set (filter (λ d, d ∈ get_available_domains) domains)
    ∪ (if bool_decide (ALL_DOMAINS ∈ domains) then all_domains_set else ∅).
Proof.
  revert m. induction domains as [|d ds IH]; intros m.
  - cbn. set_solver.
  - cbn [fold_left]. rewrite IH. unfold validate_step.
    destruct (decide (d ∈ get_available_domains)) as [Hd|Hd].
    + rewrite (bool_decide_eq_true_2 _ Hd).
      rewrite filter_cons_True by done.
      assert (d ≠ ALL_DOMAINS) by (intros ->; by apply all_not_available).
      assert (Hiff : ALL_DOMAINS ∈ d :: ds ↔ ALL_DOMAINS ∈ ds) by set_solver.
      rewrite (bool_decide_ext _ _ Hiff).
      cbn [add_domain enabled_domains list_to_set].
      generalize all_domains_set. intros A. case_bool_decide; set_solver.
    + rewrite (bool_decide_eq_false_2 _ Hd).
      rewrite filter_cons_False by done.
      destruct (String.eqb_spec d ALL_DOMAINS) as [->|Hne].
      * rewrite enable_all_enabled.
        rewrite (bool_decide_eq_true_2 (ALL_DOMAINS ∈ ALL_DOMAINS :: ds))
          by set_solver.
        generalize all_domains_set. intros A. case_bool_decide; set_solver.
      * assert (Hiff : ALL_DOMAINS ∈ d :: ds ↔ ALL_DOMAINS ∈ ds) by set_solver.
        rewrite (bool_decide_ext _ _ Hiff). done.
Qed.

Lemma fold_validate_printed domains m :
  printed (fold_left validate_step domains m)
  = (printed m ++ map invalid_domain_message (filter unrecognized domains))%list.
Proof.
  revert m. induction domains as [|d ds IH]; intros m.
  - cbn. by rewrite app_nil_r.
  - cbn [fold_left]. rewrite IH. unfold validate_step.
    destruct (decide (d ∈ get_available_domains)) as [Hd|Hd].
    + rewrite (bool_decide_eq_true_2 _ Hd).
      rewrite filter_cons_False by (unfold unrecognized; tauto). done.
    + rewrite (bool_decide_eq_false_2 _ Hd).
      destruct (String.eqb_spec d ALL_DOMAINS) as [->|Hne].
      * rewrite enable_all_printed.
        rewrite filter_cons_False by (unfold unrecognized; tauto). done.
      * rewrite filter_cons_True by done. cbn. by rewrite <- app_assoc.
Qed.

Lemma validate_enabled domains m :
  enabled_domains (_validate_and_add_domains domains m)
  = let e := enabled_domains (fold_left validate_step domains m) in
    if bool_decide (size e = 0) then all_domains_set else e.
Proof.
  unfold _validate_and_add_domains. cbn zeta.
  case_bool_decide as Hs; [|done].
  rewrite enable_all_enabled. apply size_empty_inv in Hs.
  apply leibniz_equiv in Hs. rewrite Hs. set_solver.
Qed.

Lemma validate_printed domains m :
  printed (_validate_and_add_domains domains m)
  = printed (fold_left validate_step domains m).
Proof.
  unfold _validate_and_add_domains.
  case_bool_decide; [apply enable_all_printed|done].
Qed.

(** The invariant of the constructor: a non-empty subset of the nine. *)
Definition well_formed (e : gset string) : Prop :=
  e ≠ ∅ ∧ e ⊆ all_domains_set.

Lemma enable_all_from_empty :
  enabled_domains (_enable_all_domains (mkManager ∅ [])) = all_domains_set.
Proof. rewrite enable_all_enabled. cbn. set_solver. Qed.

Lemma well_formed_all : well_formed all_domains_set.
Proof. split; [apply all_domains_set_nonempty|done]. Qed.

Lemma validate_well_formed domains :
  well_formed (enabled_domains (_validate_and_add_domains domains (mkManager ∅ []))).
Proof.
  rewrite validate_enabled. cbn zeta.
  case_bool_decide as Hs; [apply well_formed_all|].
  split.
  - intros He. apply Hs. rewrite He. apply size_empty.
  - rewrite fold_validate_enabled. cbn [enabled_domains].
    intros d. rewrite !elem_of_union, elem_of_list_to_set, list_elem_of_filter.
    rewrite elem_of_all_domains_set.
    intros [[Hd|[Hd _]]|Hd]; [set_solver|done|].
    case_bool_decide; [by apply elem_of_all_domains_set|set_solver].
Qed.

Lemma new_well_formed i : well_formed (enabled_domains (new i)).
Proof.
  unfold new, _parse_domains.
  destruct (input_falsy i) eqn:Hf.
  { rewrite enable_all_from_empty. apply well_formed_all. }
  destruct i as [|s|l].
  - rewrite enable_all_from_empty. apply well_formed_all.
  - unfold _handle_string_input. destruct (String.eqb s ALL_DOMAINS).
    + rewrite enable_all_from_empty. apply well_formed_all.
    + apply validate_well_formed.
  - unfold _handle_array_input.
    destruct (bool_decide (length l = 0) || bool_decide (ALL_DOMAINS ∈ l)).
    + rewrite enable_all_from_empty. apply well_formed_all.
    + apply validate_well_formed.
Qed.

Lemma new_list_validates (l : list string) :
  l ≠ [] → ALL_DOMAINS ∉ l →
  new (InList l) = _validate_and_add_domains (map normalize l) (mkManager ∅ []).
Proof.
  intros Hne Hall. unfold new, _parse_domains, _handle_array_input.
  destruct l as [|x l']; [done|]. cbn [input_falsy].
  rewrite (bool_decide_eq_false_2 (length (x :: l') = 0)) by done.
  by rewrite (bool_decide_eq_false_2 _ Hall).
Qed.

Lemma recognized_in_fold (domains : list string) d :
  d ∈ domains → d ∈ get_available_domains →
  d ∈ enabled_domains (fold_left validate_step domains (mkManager ∅ [])).
Proof.
  intros Hin Hav. rewrite fold_validate_enabled.
  apply elem_of_union_l, elem_of_union_r, elem_of_list_to_set.
  by apply list_elem_of_filter.
Qed.

Lemma nonempty_size (e : gset string) d : d ∈ e → size e ≠ 0.
Proof. intros Hd Hs. apply size_empty_inv in Hs. set_solver. Qed.

Lemma no_recognized_filter (domains : list string) :
  (∀ d, d ∈ domains → d ∉ get_available_domains) →
  filter (λ d, d ∈ get_available_domains) domains = [].
Proof.
  intros H. induction domains as [|d ds IH]; [done|].
  rewrite filter_cons_False by (apply H; set_solver).
  apply IH. intros d' Hd'. apply H. set_solver.
Qed.

(** C3. A list input with no ["all"] entry and at least one unrecognized
    name (an entry that, stripped and lower-cased, is neither a domain
    value nor ["all"]): every entry that is a known domain value once
    stripped and lower-cased is enabled; every unrecognized entry is left
    out of the enabled set and reported by one printed line, the
    constructor returning normally; and when no entry is recognized the
    enabled set is the full set of nine domains. *)
Theorem C3_unrecognized_entries_dropped (l : list string) :
  ALL_DOMAINS ∉ l →
  (∃ e, e ∈ l ∧ unrecognized (normalize e)) →
  let m := new (InList l) in
  (∀ e, e ∈ l → normalize e ∈ get_available_domains →
        is_domain_enabled m (normalize e) = true)
  ∧ (∀ e, e ∈ l → unrecognized (normalize e) →
          is_domain_enabled m (normalize e) = false
          ∧ invalid_domain_message (normalize e) ∈ printed m)
  ∧ printed m
    = map invalid_domain_message (filter unrecognized (map normalize l))
  ∧ ((∀ e, e ∈ l → normalize e ∉ get_available_domains) →
     enabled_domains m = all_domains_set).
Proof.
  intros Hall [e0 [He0 Hu0]] m.
  assert (Hne : l ≠ []) by (intros ->; set_solver).
  assert (Hm : m = _validate_and_add_domains (map normalize l) (mkManager ∅ []))
    by (by apply new_list_validates).
  assert (Hp : printed m
    = map invalid_domain_message (filter unrecognized (map normalize l))).
  { rewrite Hm, validate_printed, fold_validate_printed. done. }
  split; [|split; [|split]].
  - intros e He Hav. unfold is_domain_enabled. apply bool_decide_eq_true_2.
    rewrite Hm, validate_enabled. cbn zeta.
    assert (Hin : normalize e ∈ enabled_domains
              (fold_left validate_step (map normalize l) (mkManager ∅ []))).
    { apply recognized_in_fold; [|done]. apply list_elem_of_fmap. eauto. }
    rewrite bool_decide_eq_false_2; [done|]. by eapply nonempty_size.
  - intros e He Hu. split.
    + unfold is_domain_enabled. apply bool_decide_eq_false_2.
      intros Hin. destruct (new_well_formed (InList l)) as [_ Hsub].
      apply Hsub, elem_of_all_domains_set in Hin. by destruct Hu.
    + rewrite Hp. apply list_elem_of_fmap. exists (normalize e). split; [done|].
      apply list_elem_of_filter. split; [done|].
      apply list_elem_of_fmap. eauto.
  - exact Hp.
  - intros Hnone. rewrite Hm, validate_enabled. cbn zeta.
    case_bool_decide as Hs; [done|].
    rewrite fold_validate_enabled in *.
    rewrite no_recognized_filter in *.
    2,3: intros d [e [-> He]]%list_elem_of_fmap; by apply Hnone.
    cbn [enabled_domains list_to_set] in *.
    case_bool_decide.
    + set_solver.
    + exfalso. apply Hs. apply size_empty_iff. set_solver.
Qed.

(** A run of C3: [" Core "] is recognized, ["builds"] is reported. *)
Lemma C3_unrecognized_entries_dropped_witness :
  (ALL_DOMAINS ∉ [" Core "; "builds"])
  ∧ (∃ e, e ∈ [" Core "; "builds"] ∧ unrecognized (normalize e))
  ∧ is_domain_enabled (new (InList [" Core "; "builds"])) "core" = true
  ∧ is_domain_enabled (new (InList [" Core "; "builds"])) "builds" = false
  ∧ printed (new (InList [" Core "; "builds"]))
    = [invalid_domain_message "builds"].
Proof.
  assert (H1 : ALL_DOMAINS ∉ [" Core "; "builds"]) by decide_closed.
  assert (H2 : ∃ e, e ∈ [" Core "; "builds"] ∧ unrecognized (normalize e)).
  { exists "builds". split; decide_closed. }
  pose proof (C3_unrecognized_entries_dropped [" Core "; "builds"] H1 H2)
    as (Ha & Hb & Hc & _).
  split; [exact H1|]. split; [exact H2|].
  split; [|split].
  - apply (Ha " Core "); decide_closed.
  - apply (Hb "builds"); decide_closed.
  - exact Hc.
Defined.

(** C10. Whatever the constructor receives (nothing, a string, a list),
    the enabled set is a non-empty subset of the nine declared domain
    values, so [is_domain_enabled] is [False] on every other string. *)
Theorem C10_enabled_nonempty_subset (i : domains_input) :
  enabled_domains (new i) ≠ ∅
  ∧ enabled_domains (new i) ⊆ all_domains_set
  ∧ size all_domains_set = 9
  ∧ ∀ s, s ∉ get_available_domains → is_domain_enabled (new i) s = false.
Proof.
  destruct (new_well_formed i) as [Hne Hsub].
  split; [done|]. split; [done|]. split; [by vm_compute|].
  intros s Hs. unfold is_domain_enabled. apply bool_decide_eq_false_2.
  intros Hin. by apply Hs, elem_of_all_domains_set, Hsub.
Qed.

(** A run of C10 on a comma-separated string with nothing valid in it. *)
Lemma C10_enabled_nonempty_subset_witness :
  ("Core" ∉ get_available_domains)
  ∧ is_domain_enabled (new (InStr "x,,y")) "Core" = false
  ∧ enabled_domains (new (InStr "x,,y")) ≠ ∅.
Proof.
  assert (H : "Core" ∉ get_available_domains) by decide_closed.
  destruct (C10_enabled_nonempty_subset (InStr "x,,y")) as (Hne & _ & _ & Hd).
  split; [exact H|]. split; [exact (Hd "Core" H)|exact Hne].
Defined.

(** *** The static helpers, and what the constructor computes *)

Definition _is_empty_domains_input (i : domains_input) : bool :=
  match i with
  | InStr s => String.eqb (PyStr.strip s) ""
  | InList l => bool_decide (length l = 0)
  | InNone => false
  end.

Definition parse_domains_input (i : domains_input) : list string :=
  if input_falsy i || _is_empty_domains_input i then ["all"]
  else match i with
       | InStr s => map normalize (PyStr.split "," s)
       | InList l => map normalize l
       | InNone => ["all"]
       end.

Example parse_domains_input_ex :
  parse_domains_input (InStr " Core, WIKI ") = ["core"; "wiki"]
  ∧ parse_domains_input (InStr "   ") = ["all"]
  ∧ parse_domains_input (InList []) = ["all"].
Proof. repeat split. Qed.

(** When a name [d] ends up enabled, given the normalised entries [N]: it
    is a domain value, and it is among the entries, or ["all"] is, or no
    entry is a domain value. *)
Definition enables (N : list string) (d : string) : Prop :=
  d ∈ get_available_domains
  ∧ (d ∈ N ∨ ALL_DOMAINS ∈ N ∨ ∀ x, x ∈ N → x ∉ get_available_domains).

Lemma normalize_idemp s : normalize (normalize s) = normalize s.
Proof.
  unfold normalize.
  by rewrite PyStr.strip_lower, PyStr.strip_idemp, PyStr.lower_idemp.
Qed.

Lemma filter_available_empty (N : list string) :
  filter (λ d, d ∈ get_available_domains) N = [] →
  ∀ x, x ∈ N → x ∉ get_available_domains.
Proof.
  intros Hf x Hx Hav.
  assert (Hin : x ∈ filter (λ d, d ∈ get_available_domains) N)
    by (by apply list_elem_of_filter).
  rewrite Hf in Hin. by apply elem_of_nil in Hin.
Qed.

Lemma elem_of_validate (N : list string) d :
  d ∈ enabled_domains (_validate_and_add_domains N (mkManager ∅ []))
  ↔ enables N d.
Proof.
  rewrite validate_enabled. cbn zeta. rewrite fold_validate_enabled.
  cbn [enabled_domains]. unfold enables.
  set (F := filter (λ d, d ∈ get_available_domains) N).
  assert (HF : ∀ x, x ∈ (list_to_set F : gset string)
                     ↔ x ∈ N ∧ x ∈ get_available_domains).
  { intros x. unfold F. by rewrite elem_of_list_to_set, list_elem_of_filter,
      (comm and). }
  assert (HE : ∀ x, x ∈ (∅ : gset string) ↔ False) by set_solver.
  destruct (decide (ALL_DOMAINS ∈ N)) as [Ha|Ha].
  - rewrite (bool_decide_eq_true_2 _ Ha).
    assert (Hc : "core" ∈ ∅ ∪ list_to_set F ∪ all_domains_set).
    { apply elem_of_union_r, elem_of_all_domains_set. decide_closed. }
    rewrite bool_decide_eq_false_2 by (by eapply nonempty_size).
    rewrite !elem_of_union, HF, HE, elem_of_all_domains_set. tauto.
  - rewrite (bool_decide_eq_false_2 _ Ha).
    case_bool_decide as Hs.
    + apply size_empty_iff in Hs.
      assert (Hnone : ∀ x, x ∈ N → x ∉ get_available_domains).
      { intros x Hx Hav. apply (HE x), (Hs x).
        rewrite !elem_of_union, HF. tauto. }
      rewrite elem_of_all_domains_set. tauto.
    + rewrite !elem_of_union, HF, !HE. split; [tauto|].
      intros [Hav [Hd|[?|Hnone]]]; [tauto|done|].
      exfalso. apply Hs, size_empty_iff. intros x.
      rewrite !elem_of_union, HF, !HE. split; [|tauto].
      intros [[[]|[Hx Hxa]]|[]]. by apply (Hnone x).
Qed.

Lemma enables_all (N : list string) d :
  ALL_DOMAINS ∈ N ∨ (∀ x, x ∈ N → x ∉ get_available_domains) →
  d ∈ all_domains_set ↔ enables N d.
Proof.
  intros H. rewrite elem_of_all_domains_set. unfold enables. tauto.
Qed.

Lemma elem_of_new_list (l : list string) d :
  d ∈ enabled_domains (new (InList l)) ↔ enables (map normalize l) d.
Proof.
  destruct (decide (l = [])) as [->|Hne].
  { unfold new, _parse_domains. cbn [input_falsy].
    rewrite enable_all_from_empty. apply enables_all. right.
    intros x Hx. by apply elem_of_nil in Hx. }
  destruct (decide (ALL_DOMAINS ∈ l)) as [Hall|Hall].
  - unfold new, _parse_domains, _handle_array_input.
    destruct l as [|x l']; [done|]. cbn [input_falsy].
    rewrite (bool_decide_eq_true_2 _ Hall), orb_true_r.
    rewrite enable_all_from_empty. apply enables_all. left.
    apply list_elem_of_fmap. by exists ALL_DOMAINS.
  - rewrite new_list_validates by done. apply elem_of_validate.
Qed.

Lemma elem_of_new_str (s : string) d :
  d ∈ enabled_domains (new (InStr s))
  ↔ enables (map normalize (PyStr.split "," s)) d.
Proof.
  unfold new, _parse_domains. destruct s as [|c s'].
  { cbn [input_falsy PyStr.truthy negb].
    rewrite enable_all_from_empty. apply enables_all. right.
    intros x Hx. cbn in Hx. apply list_elem_of_singleton in Hx as ->.
    decide_closed. }
  cbn [input_falsy PyStr.truthy negb]. unfold _handle_string_input.
  destruct (String.eqb_spec (String c s') ALL_DOMAINS) as [->|Hne].
  - rewrite enable_all_from_empty. apply enables_all. left. decide_closed.
  - apply elem_of_validate.
Qed.

(** X1. The enabled set of a list input, exactly: a name is enabled when
    it is one of the nine domain values and either some entry is that
    name once stripped and lower-cased, or some entry is ["all"] once
    stripped and lower-cased, or no entry at all is a domain value. *)
Theorem enabled_list_characterised (l : list string) (d : string) :
  is_domain_enabled (new (InList l)) d = true
  ↔ d ∈ get_available_domains
    ∧ ((∃ e, e ∈ l ∧ normalize e = d)
       ∨ (∃ e, e ∈ l ∧ normalize e = ALL_DOMAINS)
       ∨ (∀ e, e ∈ l → normalize e ∉ get_available_domains)).
Proof.
  unfold is_domain_enabled. rewrite bool_decide_eq_true, elem_of_new_list.
  unfold enables. rewrite !list_elem_of_fmap.
  split; intros [Hav H]; (split; [done|]).
  - destruct H as [(e & -> & He)|[(e & Ha & He)|Hnone]].
    + left. eauto.
    + right; left. eauto.
    + right; right. intros e He. apply Hnone, list_elem_of_fmap. eauto.
  - destruct H as [(e & He & <-)|[(e & He & Ha)|Hnone]].
    + left. eauto.
    + right; left. eauto.
    + right; right. intros x (e & -> & He)%list_elem_of_fmap. eauto.
Qed.

(** X2. A comma-separated string enables exactly what the list of its
    parts enables, the empty string and ["all"] included. *)
Theorem string_input_as_list (s : string) :
  enabled_domains (new (InStr s))
  = enabled_domains (new (InList (PyStr.split "," s))).
Proof.
  apply set_eq. intros d. by rewrite elem_of_new_str, elem_of_new_list.
Qed.

Lemma enables_ext (N N' : list string) d :
  (∀ x, x ∈ N ↔ x ∈ N') → enables N d ↔ enables N' d.
Proof.
  intros H. unfold enables. rewrite !H.
  assert ((∀ x, x ∈ N → x ∉ get_available_domains)
          ↔ (∀ x, x ∈ N' → x ∉ get_available_domains)) as ->; [|done].
  split; intros Hn x Hx; apply Hn; by apply H.
Qed.

(** X3. [parse_domains_input] never returns the empty list, what it
    returns is already normalised, and a manager built from its result
    enables what a manager built from the input itself enables. *)
Theorem parse_domains_input_agrees (i : domains_input) :
  parse_domains_input i ≠ []
  ∧ map normalize (parse_domains_input i) = parse_domains_input i
  ∧ enabled_domains (new (InList (parse_domains_input i)))
    = enabled_domains (new i).
Proof.
  assert (Hall : enabled_domains (new (InList ["all"])) = all_domains_set)
    by (vm_compute; reflexivity).
  assert (Hidem : ∀ l, map normalize (map normalize l) = map normalize l).
  { intros l. rewrite map_map. apply map_ext. intros. apply normalize_idemp. }
  assert (Hnone : enabled_domains (new InNone) = all_domains_set)
    by (vm_compute; reflexivity).
  assert (Hstr : enabled_domains (new (InStr "")) = all_domains_set)
    by (vm_compute; reflexivity).
  assert (Hnil : enabled_domains (new (InList [])) = all_domains_set)
    by (vm_compute; reflexivity).
  unfold parse_domains_input. destruct i as [|s|l].
  - cbn [input_falsy orb]. split; [done|]. split; [done|].
    by rewrite Hall, Hnone.
  - destruct s as [|c s'].
    { cbn [input_falsy PyStr.truthy negb orb]. split; [done|].
      split; [done|]. by rewrite Hall, Hstr. }
    cbn [input_falsy PyStr.truthy negb orb _is_empty_domains_input].
    destruct (String.eqb_spec (PyStr.strip (String c s')) "") as [He|_].
    + split; [done|]. split; [done|]. rewrite Hall.
      apply set_eq. intros d. rewrite elem_of_new_str.
      rewrite (PyStr.split_all_space "," (String c s') eq_refl
                 (PyStr.strip_empty_lstrip _ He)).
      apply enables_all. right. intros x Hx. cbn [map] in Hx.
      apply list_elem_of_singleton in Hx as ->.
      unfold normalize. rewrite He. decide_closed.
    + split.
      { cbn [PyStr.split map]. destruct (Ascii.eqb c ","); [done|].
        by destruct (PyStr.split "," s'). }
      split; [apply Hidem|].
      apply set_eq. intros d.
      by rewrite elem_of_new_str, elem_of_new_list, Hidem.
  - destruct l as [|x l'].
    { cbn [input_falsy orb]. split; [done|]. split; [done|].
      by rewrite Hall, Hnil. }
    cbn [input_falsy orb _is_empty_domains_input].
    rewrite (bool_decide_eq_false_2 (length (x :: l') = 0)) by done.
    split; [done|]. split; [apply Hidem|].
    apply set_eq. intros d. by rewrite !elem_of_new_list, Hidem.
Qed.

(** X4. Only which names occur in a list input matters: two lists with
    the same elements, in any order and with any repetitions, enable the
    same domains. *)
Theorem enabled_list_same_elements (l l' : list string) :
  (∀ x, x ∈ l ↔ x ∈ l') →
  enabled_domains (new (InList l)) = enabled_domains (new (InList l')).
Proof.
  intros H. apply set_eq. intros d. rewrite !elem_of_new_list.
  apply enables_ext. intros x. rewrite !list_elem_of_fmap.
  split; intros (e & -> & He); exists e; (split; [done|]); by apply H.
Qed.

Lemma enabled_list_same_elements_witness :
  (∀ x, x ∈ ["wiki"; "core"; "wiki"] ↔ x ∈ ["core"; "wiki"])
  ∧ enabled_domains (new (InList ["wiki"; "core"; "wiki"]))
    = enabled_domains (new (InList ["core"; "wiki"])).
Proof.
  assert (H : ∀ x, x ∈ ["wiki"; "core"; "wiki"] ↔ x ∈ ["core"; "wiki"]).
  { intros x. rewrite !elem_of_cons, !elem_of_nil. tauto. }
  split; [exact H|]. exact (enabled_list_same_elements _ _ H).
Defined.

End Domains.

(** ** useragent.py *)

Module Useragent.

Record McpClientInfo : Type := mkInfo {
  name : string;
  version : string
}.

Record UserAgentComposer : Type := mkComposer {
  _user_agent : string;
  _mcp_client_info_appended : bool
}.

(** [UserAgentComposer.__init__] *)
Definition new (package_version : string) : UserAgentComposer :=
  mkComposer ("AzureDevOps.MCP/" +:+ package_version +:+ " (python)") false.

(** The property [user_agent]. *)
Definition user_agent (c : UserAgentComposer) : string := _user_agent c.

(** [info and info.name and info.version] *)
Definition info_usable (info : option McpClientInfo) : bool :=
  match info with
  | None => false
  | Some i => PyStr.truthy (name i) && PyStr.truthy (version i)
  end.

Definition append_mcp_client_info (info : option McpClientInfo)
  (c : UserAgentComposer) : UserAgentComposer :=
  if negb (_mcp_client_info_appended c) && info_usable info then
    match info with
    | Some i =>
        mkComposer (_user_agent c +:+ " " +:+ name i +:+ "/" +:+ version i) true
    | None => c
    end
  else c.

(** A sequence of calls, and how many of them changed the string. *)
Definition append_all (infos : list (option McpClientInfo))
  (c : UserAgentComposer) : UserAgentComposer :=
  fold_left (fun acc i => append_mcp_client_info i acc) infos c.

Fixpoint count_changes (infos : list (option McpClientInfo))
  (c : UserAgentComposer) : nat :=
  match infos with
  | [] => 0
  | i :: rest =>
      let c' := append_mcp_client_info i c in
      (if String.eqb (user_agent c') (user_agent c) then 0 else 1)
      + count_changes rest c'
  end.

Example append_once :
  user_agent (append_mcp_client_info (Some (mkInfo "vscode" "1.90"))
                (new "2.2.1"))
  = "AzureDevOps.MCP/2.2.1 (python) vscode/1.90".
Proof. reflexivity. Qed.

Lemma append_when_appended info c :
  _mcp_client_info_appended c = true → append_mcp_client_info info c = c.
Proof. intros H. unfold append_mcp_client_info. by rewrite H. Qed.

Lemma append_unusable info c :
  info_usable info = false → append_mcp_client_info info c = c.
Proof.
  intros H. unfold append_mcp_client_info. rewrite H.
  by rewrite andb_false_r.
Qed.

(** A call either leaves the composer alone or sets the flag. *)
Lemma append_cases info c :
  append_mcp_client_info info c = c
  ∨ _mcp_client_info_appended (append_mcp_client_info info c) = true.
Proof.
  unfold append_mcp_client_info.
  destruct (negb (_mcp_client_info_appended c) && info_usable info);
    [|by left].
  destruct info; [by right|by left].
Qed.

Lemma count_changes_appended infos c :
  _mcp_client_info_appended c = true → count_changes infos c = 0.
Proof.
  revert c. induction infos as [|i rest IH]; intros c H; [done|].
  cbn [count_changes]. rewrite (append_when_appended _ _ H).
  rewrite String.eqb_refl, (IH _ H). done.
Qed.

Lemma count_changes_le_1 infos c : (count_changes infos c ≤ 1)%nat.
Proof.
  revert c. induction infos as [|i rest IH]; intros c; cbn [count_changes].
  - lia.
  - destruct (append_cases i c) as [Heq|Hflag].
    + rewrite Heq, String.eqb_refl. cbn. apply IH.
    + rewrite (count_changes_appended _ _ Hflag).
      destruct (String.eqb _ _); lia.
Qed.

(** C9. Appending the same client info a second time gives the string of
    the first call; over any sequence of calls at most one call changes
    the string; and a call with no info, an empty name or an empty version
    leaves the string as it is. *)
Theorem C9_append_idempotent (c : UserAgentComposer)
  (info : option McpClientInfo) :
  user_agent (append_mcp_client_info info (append_mcp_client_info info c))
  = user_agent (append_mcp_client_info info c)
  ∧ (∀ infos, (count_changes infos c ≤ 1)%nat)
  ∧ ((info = None
      ∨ (∃ i, info = Some i ∧ (name i = "" ∨ version i = ""))) →
     user_agent (append_mcp_client_info info c) = user_agent c).
Proof.
  split; [|split].
  - destruct (append_cases info c) as [Heq|Hflag].
    + by rewrite !Heq.
    + by rewrite (append_when_appended _ _ Hflag).
  - intros infos. apply count_changes_le_1.
  - intros H. rewrite append_unusable; [done|].
    destruct H as [->|[i [-> [Hn|Hv]]]]; cbn; [done|..].
    + by rewrite Hn.
    + rewrite Hv. by rewrite andb_false_r.
Qed.

(** A run of C9: an empty version does not touch a fresh composer. *)
Lemma C9_append_idempotent_witness :
  (Some (mkInfo "vscode" "") = None
   ∨ (∃ i, Some (mkInfo "vscode" "") = Some i
           ∧ (name i = "" ∨ version i = "")))
  ∧ user_agent (append_mcp_client_info (Some (mkInfo "vscode" ""))
                  (new "2.2.1"))
    = "AzureDevOps.MCP/2.2.1 (python)".
Proof.
  assert (H : Some (mkInfo "vscode" "") = None
   ∨ (∃ i, Some (mkInfo "vscode" "") = Some i
           ∧ (name i = "" ∨ version i = ""))).
  { right. exists (mkInfo "vscode" ""). split; [reflexivity|].
    right. reflexivity. }
  split; [exact H|].
  destruct (C9_append_idempotent (new "2.2.1") (Some (mkInfo "vscode" "")))
    as (_ & _ & Hu).
  exact (Hu H).
Defined.

(** *** A whole sequence of calls *)

(** The first info of a sequence that a call would accept. *)
Fixpoint first_usable (infos : list (option McpClientInfo))
  : option McpClientInfo :=
  match infos with
  | [] => None
  | Some i :: rest =>
      if info_usable (Some i) then Some i else first_usable rest
  | None :: rest => first_usable rest
  end.

Lemma append_all_appended infos c :
  _mcp_client_info_appended c = true → append_all infos c = c.
Proof.
  intros H. induction infos as [|i rest IH]; [done|].
  cbn [append_all fold_left]. rewrite (append_when_appended _ _ H).
  exact IH.
Qed.

Lemma append_usable i c :
  _mcp_client_info_appended c = false → info_usable (Some i) = true →
  append_mcp_client_info (Some i) c
  = mkComposer (_user_agent c +:+ " " +:+ name i +:+ "/" +:+ version i) true.
Proof. intros Hf Hu. unfold append_mcp_client_info. by rewrite Hf, Hu. Qed.

Lemma append_all_cons i infos c :
  append_all (i :: infos) c = append_all infos (append_mcp_client_info i c).
Proof. reflexivity. Qed.

(** X5. After any sequence of calls the string is the one the composer
    had, followed by [" name/version"] of the first info in the sequence
    with a non-empty name and version, if the composer had not appended
    before and there is such an info; otherwise it is unchanged.  Later
    infos never show. *)
Theorem append_all_first_usable (infos : list (option McpClientInfo))
  (c : UserAgentComposer) :
  user_agent (append_all infos c)
  = if _mcp_client_info_appended c then user_agent c
    else match first_usable infos with
         | Some i => user_agent c +:+ " " +:+ name i +:+ "/" +:+ version i
         | None => user_agent c
         end.
Proof.
  destruct (_mcp_client_info_appended c) eqn:Hflag.
  { by rewrite append_all_appended. }
  revert c Hflag. induction infos as [|[i|] rest IH]; intros c Hflag.
  - done.
  - rewrite append_all_cons. cbn [first_usable].
    destruct (info_usable (Some i)) eqn:Hu.
    + rewrite (append_usable _ _ Hflag Hu).
      by rewrite append_all_appended.
    + rewrite (append_unusable _ _ Hu). by apply IH.
  - rewrite append_all_cons. cbn [first_usable].
    rewrite (append_unusable None c eq_refl). by apply IH.
Qed.

Example append_all_ex :
  user_agent (append_all [None; Some (mkInfo "" "1.0");
                          Some (mkInfo "vscode" "1.90");
                          Some (mkInfo "cursor" "0.4")] (new "2.2.1"))
  = "AzureDevOps.MCP/2.2.1 (python) vscode/1.90".
Proof. reflexivity. Qed.

End Useragent.

(** ** auth.py *)

Module Auth.
Import Py.

Definition SCOPES : list string :=
  ["499b84ac-1321-427f-aa17-267ca6975798/.default"].

(** The credential objects of [azure.identity] that the module builds. *)
Inductive credential : Type :=
  | DefaultAzureCredential
  | AzureCliCredential (tenant_id : string)
  | ChainedTokenCredential (first second : credential)
  | InteractiveBrowserCredential (client_id authority : string).

(** What an invocation of the token provider does besides returning. *)
Inductive event : Type :=
  | SetEnv (key val : string)
  | CredentialGetToken (c : credential) (scopes : list string).

Definition CLIENT_ID : string := "0d50963b-7bb9-4fe7-94c7-a99af00b5136".
Definition DEFAULT_AUTHORITY : string := "https://login.microsoftonline.com/common".
Definition ZERO_TENANT_ID : string := "00000000-0000-0000-0000-000000000000".

(** [not x] for an [Optional[str]]. *)
Definition opt_truthy (o : option string) : bool :=
  match o with
  | None => false
  | Some s => PyStr.truthy s
  end.

Section TokenProvider.

(** [credential.get_token( *SCOPES )]: raises, or returns an access token
    object, here its [token] attribute; [None] stands for a falsy
    object. *)
Variable credential_get_token : credential → list string → result (option string).

(** [OAuthAuthenticator.__init__]: the credential it stores. *)
Definition OAuthAuthenticator (tenant_id : option string) : credential :=
  let authority :=
    match tenant_id with
    | Some t =>
        if PyStr.truthy t && negb (String.eqb t ZERO_TENANT_ID)
        then "https://login.microsoftonline.com/" +:+ t
        else DEFAULT_AUTHORITY
    | None => DEFAULT_AUTHORITY
    end in
  InteractiveBrowserCredential CLIENT_ID authority.

(** [if not token or not token.token: raise Exception(msg)] then
    [return token.token]. *)
Definition checked_token (msg : string) (tok : option string) : result string :=
  if opt_truthy tok then Return (default "" tok) else Raise (Exception msg).

(** [OAuthAuthenticator.get_token] *)
Definition OAuthAuthenticator_get_token (c : credential)
  : result string * list event :=
  (try_except
     (bind (credential_get_token c SCOPES)
           (checked_token "Failed to obtain Azure DevOps OAuth token."))
     (λ e, Raise (Exception
        ("Failed to obtain Azure DevOps OAuth token: " +:+ exn_msg e))),
   [CredentialGetToken c SCOPES]).

(** [create_authenticator(auth_type, tenant_id, pat_token)] returns the
    closure [get_token]; this is one awaited invocation of that closure. *)
Definition create_authenticator (auth_type : string)
  (tenant_id pat_token : option string) : result string * list event :=
  if String.eqb auth_type "pat" then
    if negb (opt_truthy pat_token) then
      (Raise (Exception "PAT token is required for 'pat' authentication"), [])
    else (Return (default "" pat_token), [])
  else if bool_decide (auth_type ∈ ["azcli"; "env"]) then
    let env := if negb (String.eqb auth_type "env")
               then [SetEnv "AZURE_TOKEN_CREDENTIALS" "dev"] else [] in
    let credential :=
      if opt_truthy tenant_id
      then ChainedTokenCredential (AzureCliCredential (default "" tenant_id))
                                  DefaultAzureCredential
      else DefaultAzureCredential in
    (try_except
       (bind (credential_get_token credential SCOPES)
             (checked_token "Failed to obtain token from credential chain"))
       (λ _, Raise (Exception
          ("Failed to obtain Azure DevOps token. "
           +:+ "Ensure you have Azure CLI logged in or use interactive authentication."))),
     env ++ [CredentialGetToken credential SCOPES])
  else OAuthAuthenticator_get_token (OAuthAuthenticator tenant_id).

(** C6, as amended. With type ["pat"], an invocation of the token provider
    raises the error saying a PAT token is required when no token or the
    empty string was supplied, and returns exactly the supplied string
    when it is non-empty; neither case sets the environment or asks a
    credential. *)
Theorem C6_pat_provider (tenant_id pat_token : option string) :
  ((pat_token = None ∨ pat_token = Some "") →
   create_authenticator "pat" tenant_id pat_token
   = (Raise (Exception "PAT token is required for 'pat' authentication"), []))
  ∧ (∀ s, pat_token = Some s → s ≠ "" →
          create_authenticator "pat" tenant_id pat_token = (Return s, [])).
Proof.
  split.
  - intros [->| ->]; reflexivity.
  - intros s -> Hs. destruct s; [done|reflexivity].
Qed.

End TokenProvider.

(** A credential that always fails: the ["pat"] path never asks it. *)
Definition no_credential (c : credential) (scopes : list string)
  : result (option string) :=
  Raise (Exception "no credential available").

(** A run of C6: the supplied token comes back verbatim. *)
Lemma C6_pat_provider_witness :
  Some "abc123pat" = Some "abc123pat"
  ∧ "abc123pat" ≠ ""
  ∧ create_authenticator no_credential "pat" None (Some "abc123pat")
    = (Return "abc123pat", []).
Proof.
  assert (H1 : Some "abc123pat" = Some "abc123pat") by reflexivity.
  assert (H2 : "abc123pat" ≠ "") by discriminate.
  split; [exact H1|]. split; [exact H2|].
  exact (proj2 (C6_pat_provider no_credential None (Some "abc123pat"))
               "abc123pat" H1 H2).
Defined.

(** C6 as stated fails when the supplied token is the empty string: the
    provider raises instead of returning it. *)
Lemma C6_empty_token_counterexample :
  create_authenticator no_credential "pat" None (Some "")
  = (Raise (Exception "PAT token is required for 'pat' authentication"), [])
  ∧ create_authenticator no_credential "pat" None (Some "") ≠ (Return "", []).
Proof. split; [reflexivity|discriminate]. Qed.

(** *** The provider over all authentication types *)

Lemma checked_token_return msg tok t :
  checked_token msg tok = Return t → tok = Some t ∧ t ≠ "".
Proof.
  unfold checked_token. destruct tok as [s|]; cbn; [|discriminate].
  destruct s; cbn; [discriminate|]. by intros [= <-].
Qed.

Definition CHAIN_FAILURE : string :=
  "Failed to obtain Azure DevOps token. "
  +:+ "Ensure you have Azure CLI logged in or use interactive authentication.".

(** X6. Whatever the authentication type, a token that the provider
    returns is not the empty string; for a type other than ["pat"] it is
    the token the one credential asked has returned, for ["pat"] the
    supplied one. *)
Theorem returned_token_not_empty
  (credential_get_token : credential → list string → result (option string))
  (auth_type : string) (tenant_id pat_token : option string)
  (t : string) (evs : list event) :
  create_authenticator credential_get_token auth_type tenant_id pat_token
  = (Return t, evs) →
  t ≠ ""
  ∧ (auth_type = "pat" → pat_token = Some t ∧ evs = [])
  ∧ (auth_type ≠ "pat" →
     ∃ c, credential_get_token c SCOPES = Return (Some t)
          ∧ CredentialGetToken c SCOPES ∈ evs).
Proof.
  unfold create_authenticator.
  destruct (String.eqb_spec auth_type "pat") as [->|Hne].
  - destruct pat_token as [[|c s]|]; cbn; try discriminate.
    intros [= <- <-]. split; [done|]. split; [done|]. done.
  - case_bool_decide.
    + intros [= Hr <-].
      match type of Hr with
      | try_except (bind (credential_get_token ?c _) _) _ = _ =>
          destruct (credential_get_token c SCOPES) as [tok|e] eqn:Hg;
            cbn in Hr; [|discriminate];
          destruct (checked_token _ tok) as [t'|e] eqn:Hc;
            cbn in Hr; [|discriminate];
          injection Hr as ->;
          apply checked_token_return in Hc as [-> Ht];
          split; [done|]; split; [done|]; intros _; exists c;
          split; [done|]; set_solver
      end.
    + unfold OAuthAuthenticator_get_token. intros [= Hr <-].
      match type of Hr with
      | try_except (bind (credential_get_token ?c _) _) _ = _ =>
          destruct (credential_get_token c SCOPES) as [tok|e] eqn:Hg;
            cbn in Hr; [|discriminate];
          destruct (checked_token _ tok) as [t'|e] eqn:Hc;
            cbn in Hr; [|discriminate];
          injection Hr as ->;
          apply checked_token_return in Hc as [-> Ht];
          split; [done|]; split; [done|]; intros _; exists c;
          split; [done|]; set_solver
      end.
Qed.

(** A credential chain that hands out one token. *)
Definition cli_logged_in (c : credential) (scopes : list string)
  : result (option string) :=
  Return (Some "eyJ0eXAi").

Lemma returned_token_not_empty_witness :
  create_authenticator cli_logged_in "azcli" (Some "72f988bf") None
  = (Return "eyJ0eXAi",
     [SetEnv "AZURE_TOKEN_CREDENTIALS" "dev";
      CredentialGetToken
        (ChainedTokenCredential (AzureCliCredential "72f988bf")
                                DefaultAzureCredential) SCOPES])
  ∧ "eyJ0eXAi" ≠ "".
Proof.
  assert (H : create_authenticator cli_logged_in "azcli" (Some "72f988bf") None
    = (Return "eyJ0eXAi",
       [SetEnv "AZURE_TOKEN_CREDENTIALS" "dev";
        CredentialGetToken
          (ChainedTokenCredential (AzureCliCredential "72f988bf")
                                  DefaultAzureCredential) SCOPES]))
    by reflexivity.
  split; [exact H|].
  exact (proj1 (returned_token_not_empty _ _ _ _ _ _ H)).
Defined.

(** X7. For ["azcli"] and ["env"]: a failure, whether the credential
    raised or gave no token, is always reported with the same message,
    which says nothing of the cause; ["env"] leaves the environment
    alone, ["azcli"] sets [AZURE_TOKEN_CREDENTIALS] to ["dev"] before the
    credential is asked; and the credential is asked exactly once. *)
Theorem credential_chain_behaviour
  (credential_get_token : credential → list string → result (option string))
  (auth_type : string) (tenant_id pat_token : option string) :
  auth_type ∈ ["azcli"; "env"] →
  let run := create_authenticator credential_get_token auth_type tenant_id
               pat_token in
  (∀ e, run.1 = Raise e → e = Exception CHAIN_FAILURE)
  ∧ (∃ c, run.2
          = (if String.eqb auth_type "env" then []
             else [SetEnv "AZURE_TOKEN_CREDENTIALS" "dev"])
            ++ [CredentialGetToken c SCOPES]
          ∧ (tenant_id = None ∨ tenant_id = Some "" →
             c = DefaultAzureCredential)
          ∧ (∀ t, tenant_id = Some t → t ≠ "" →
             c = ChainedTokenCredential (AzureCliCredential t)
                                        DefaultAzureCredential)).
Proof.
  intros Hin run. subst run. unfold create_authenticator.
  assert (Hne : String.eqb auth_type "pat" = false).
  { apply String.eqb_neq. intros ->.
    repeat (apply elem_of_cons in Hin as [Hin|Hin]; [discriminate|]).
    by apply elem_of_nil in Hin. }
  rewrite Hne, (bool_decide_eq_true_2 _ Hin). cbn [fst snd]. split.
  - intros e.
    match goal with
    | |- try_except (bind ?g _) _ = _ → _ => destruct g as [tok|e']; cbn
    end.
    + destruct (checked_token _ tok); cbn; [discriminate|].
      by intros [= <-].
    + by intros [= <-].
  - eexists. split.
    + destruct (String.eqb auth_type "env"); reflexivity.
    + split.
      * by intros [->| ->].
      * intros t -> Ht. by destruct t.
Qed.

Lemma credential_chain_behaviour_witness :
  "env" ∈ ["azcli"; "env"]
  ∧ (∀ e, (create_authenticator no_credential "env" None None).1 = Raise e →
          e = Exception CHAIN_FAILURE)
  ∧ (create_authenticator no_credential "env" None None).1
    = Raise (Exception CHAIN_FAILURE).
Proof.
  assert (H : "env" ∈ ["azcli"; "env"]) by decide_closed.
  pose proof (credential_chain_behaviour no_credential "env" None None H)
    as [Hmsg _].
  split; [exact H|]. split; [exact Hmsg|].
  destruct (create_authenticator no_credential "env" None None).1 as [t|e]
    eqn:Hr; [discriminate Hr|].
  f_equal. exact (Hmsg e eq_refl).
Defined.

End Auth.

(** ** org_tenants.py *)

Module OrgTenants.
Import Py.
Import PrimFloat.

#[local] Set Warnings "-inexact-float".

(** [OrgTenantCacheEntry]: [from_dict] stores whatever the file holds. *)
Record OrgTenantCacheEntry : Type := mkEntry {
  tenant_id : pyval;
  refreshed_on : pyval
}.

(** 1 week in milliseconds, an [int]. *)
Definition CACHE_TTL_MS : Z := 7 * 24 * 60 * 60 * 1000.

Example CACHE_TTL_MS_value : CACHE_TTL_MS = 604800000%Z.
Proof. reflexivity. Qed.

(** The reply to the HEAD request, as far as the code reads it. *)
Record response : Type := mkResponse {
  status : Z;
  x_vss_resourcetenant : option string
}.

Inductive event : Type :=
  | HttpHead (url : string)
  | WriteCacheFile (content : pyval)
  | TruncateCacheFile
  | Print (line : string).

(** How writing the cache file goes.  [open(CACHE_FILE, "w")] can fail,
    and then the file is as it was.  Once it is open the file is empty;
    when [json.dump], or closing the file, fails after that, the file
    holds what had got through by then: all of the text ([complete]), or
    a part of it, which is not JSON. *)
Inductive write_outcome : Type :=
  | Written
  | OpenFails (msg : string)
  | DumpFails (msg : string) (complete : bool).

(** The world of one call: the parsed content of the cache file ([None]:
    no file, or not JSON), how writing it will go, how often the clock
    was read, and what happened so far. *)
Record world : Type := mkWorld {
  cache_file : option pyval;
  writing : write_outcome;
  ticks : nat;
  trace : list event
}.

(** A state monad over the world, with exceptions. *)
Definition M (A : Type) : Type := world → result A * world.

Definition ret {A} (a : A) : M A := λ w, (Return a, w).

Definition raise {A} (e : exn) : M A := λ w, (Raise e, w).

Definition mbind {A B} (c : M A) (k : A → M B) : M B :=
  λ w, match c w with
       | (Return a, w') => k a w'
       | (Raise e, w') => (Raise e, w')
       end.

Definition try_catch {A} (c : M A) (h : exn → M A) : M A :=
  λ w, match c w with
       | (Return a, w') => (Return a, w')
       | (Raise e, w') => h e w'
       end.

Notation "x <~ c ;; k" := (mbind c (λ x, k))
  (at level 100, c at next level, right associativity).
Notation "c ;;; k" := (mbind c (λ _, k))
  (at level 100, right associativity).

Definition emit (e : event) : M unit :=
  λ w, (Return tt,
        mkWorld (cache_file w) (writing w) (ticks w) (trace w ++ [e])).

Definition print (line : string) : M unit := emit (Print line).

(** [float(n)] for an [int]: the nearest binary64 number, ties to even;
    [None] when that is out of range. *)
Definition float_of_int (z : Z) : option float :=
  match SpecFloat.binary_normalize FloatOps.prec FloatOps.emax z 0 false with
  | SpecFloat.S754_infinity _ => None
  | nearest => Some (FloatOps.SF2Prim nearest)
  end.

Example float_of_int_ties :
  float_of_int (2 ^ 53 + 1) = Some 9007199254740992%float
  ∧ float_of_int (2 ^ 53 + 3) = Some 9007199254740996%float
  ∧ float_of_int (-5) = Some (-5)%float
  ∧ float_of_int 0 = Some 0%float
  ∧ float_of_int (2 ^ 1024 - 1) = None.
Proof. vm_compute. repeat split. Qed.

(** The right operand of [float - x] as the interpreter converts it;
    [bool] is an [int]. *)
Definition as_float (v : pyval) : result float :=
  match v with
  | PFloat f => Return f
  | PInt z =>
      match float_of_int z with
      | Some f => Return f
      | None => Raise (mkExn OverflowErrorC "int too large to convert to float")
      end
  | PBool b => Return (if b then 1 else 0)%float
  | other =>
      Raise (mkExn TypeErrorC
        ("unsupported operand type(s) for -: 'float' and '"
         +:+ type_name other +:+ "'"))
  end.

(** [CACHE_TTL_MS] is itself a binary64 number, so that [x > CACHE_TTL_MS]
    for a float [x] is the comparison of the two floats. *)
Definition CACHE_TTL_MS_float : float := 604800000.

Example CACHE_TTL_MS_exact : float_of_int CACHE_TTL_MS = Some CACHE_TTL_MS_float.
Proof. vm_compute. reflexivity. Qed.

(** The number a finite float stands for. *)
Definition exact (f : float) : option Q :=
  match FloatOps.Prim2SF f with
  | SpecFloat.S754_zero _ => Some 0%Q
  | SpecFloat.S754_finite s m e =>
      Some (Qred ((if s then -1 else 1) * inject_Z (Z.pos m) * 2 ^ e))%Q
  | _ => None
  end.

Section Resolver.

(** [time.time()] at the n-th reading, in seconds. *)
Variable clock : nat → float.

(** [session.head(url)]: the reply, or the exception of the client. *)
Variable http_head : string → result response.

Definition time_time : M float :=
  λ w, (Return (clock (ticks w)),
        mkWorld (cache_file w) (writing w) (S (ticks w)) (trace w)).

(** [data[key]] on a parsed JSON value; anything but a dict holding the
    key raises. *)
Fixpoint assoc (key : string) (d : list (string * pyval)) : option pyval :=
  match d with
  | [] => None
  | (k, v) :: rest => if String.eqb k key then Some v else assoc key rest
  end.

Definition item (data : pyval) (key : string) : option pyval :=
  match data with
  | PDict d => assoc key d
  | _ => None
  end.

(** [OrgTenantCacheEntry.from_dict] *)
Definition from_dict (data : pyval) : option OrgTenantCacheEntry :=
  t ← item data "tenantId"; r ← item data "refreshedOn"; Some (mkEntry t r).

(** [to_dict] *)
Definition to_dict (e : OrgTenantCacheEntry) : pyval :=
  PDict [("tenantId", tenant_id e); ("refreshedOn", refreshed_on e)].

(** The dict comprehension of [load_cache]; one bad entry fails it all. *)
Fixpoint entries (items : list (string * pyval))
  (acc : gmap string OrgTenantCacheEntry)
  : option (gmap string OrgTenantCacheEntry) :=
  match items with
  | [] => Some acc
  | (org, entry) :: rest =>
      match from_dict entry with
      | Some e => entries rest (<[org := e]> acc)
      | None => None
      end
  end.

(** What [load_cache] returns for a given file content: every failure
    inside its [try] gives the empty cache. *)
Definition parse_cache (content : option pyval)
  : gmap string OrgTenantCacheEntry :=
  match content with
  | Some (PDict items) => default ∅ (entries items ∅)
  | _ => ∅
  end.

Definition load_cache : M (gmap string OrgTenantCacheEntry) :=
  λ w, (Return (parse_cache (cache_file w)), w).

Definition dump_cache (cache : gmap string OrgTenantCacheEntry) : pyval :=
  PDict (map_to_list (to_dict <$> cache)).

(** [try_saving_cache]: the file is opened for writing, which empties
    it, before [json.dump] runs; whatever fails is printed. *)
Definition try_saving_cache (cache : gmap string OrgTenantCacheEntry)
  : M unit :=
  λ w, match writing w with
       | Written =>
           (Return tt,
            mkWorld (Some (dump_cache cache)) (writing w) (ticks w)
                    (trace w ++ [WriteCacheFile (dump_cache cache)]))
       | OpenFails msg =>
           print ("Failed to save org tenants cache: " +:+ msg) w
       | DumpFails msg complete =>
           print ("Failed to save org tenants cache: " +:+ msg)
             (if complete
              then mkWorld (Some (dump_cache cache)) (writing w) (ticks w)
                     (trace w ++ [WriteCacheFile (dump_cache cache)])
              else mkWorld None (writing w) (ticks w)
                     (trace w ++ [TruncateCacheFile]))
       end.

Definition tenant_url (org_name : string) : string :=
  "https://vssps.dev.azure.com/" +:+ org_name.

(** The body of the [try] of [fetch_tenant_from_api]. *)
Definition read_tenant (r : response) : result string :=
  if negb (status r =? 404)%Z then
    Raise (Exception ("Expected status 404, got " +:+ PyStr.of_int (status r)))
  else
    match x_vss_resourcetenant r with
    | Some t =>
        if PyStr.truthy t then Return t
        else Raise (Exception "x-vss-resourcetenant header not found in response")
    | None => Raise (Exception "x-vss-resourcetenant header not found in response")
    end.

(** The outcome of [fetch_tenant_from_api], a function of the reply. *)
Definition fetch_outcome (org_name : string) : result string :=
  try_except (bind (http_head (tenant_url org_name)) read_tenant)
    (λ e, Raise (Exception
       ("Failed to fetch tenant for organization " +:+ org_name +:+ ": "
        +:+ exn_msg e))).

Definition fetch_tenant_from_api (org_name : string) : M string :=
  emit (HttpHead (tenant_url org_name)) ;;;
  (λ w, (fetch_outcome org_name, w)).

(** [is_cache_entry_expired]: the clock is read and multiplied first,
    then the subtraction converts [refreshed_on], or raises; all of it
    in binary64 arithmetic. *)
Definition is_cache_entry_expired (entry : OrgTenantCacheEntry) : M bool :=
  now <~ time_time ;;
  match as_float (refreshed_on entry) with
  | Return r => ret (CACHE_TTL_MS_float <? now * 1000 - r)%float
  | Raise e => raise e
  end.

(** The [try] block of [get_org_tenant] with its handler: the live
    lookup, the cache update, and the fallback when anything in the block
    raises. *)
Definition lookup (org_name : string)
  (cached_entry : option OrgTenantCacheEntry)
  (cache : gmap string OrgTenantCacheEntry) : M pyval :=
  try_catch
    (tenant <~ fetch_tenant_from_api org_name ;;
     now <~ time_time ;;
     let cache' :=
       <[org_name := mkEntry (PStr tenant) (PFloat (now * 1000)%float)]>
         cache in
     try_saving_cache cache' ;;;
     ret (PStr tenant))
    (λ e,
       match cached_entry with
       | Some entry =>
           print ("Failed to fetch fresh tenant for ADO org " +:+ org_name
                  +:+ ", using expired cache entry: " +:+ exn_msg e) ;;;
           ret (tenant_id entry)
       | None =>
           print ("Failed to fetch tenant for ADO org " +:+ org_name +:+ ": "
                  +:+ exn_msg e) ;;;
           ret PNone
       end).

Definition get_org_tenant (org_name : string) : M pyval :=
  cache <~ load_cache ;;
  let cached_entry := cache !! org_name in
  usable <~ match cached_entry with
            | Some e => expired <~ is_cache_entry_expired e ;; ret (negb expired)
            | None => ret false
            end ;;
  if usable then ret (default PNone (tenant_id <$> cached_entry))
  else lookup org_name cached_entry cache.

(** The entry [cache.get(org_name)] finds in world [w]. *)
Definition cached (w : world) (org_name : string)
  : option OrgTenantCacheEntry :=
  parse_cache (cache_file w) !! org_name.

(** The current time of world [w] in milliseconds, as the code computes
    it. *)
Definition now_ms (w : world) : float := (clock (ticks w) * 1000)%float.

(** The test of [is_cache_entry_expired] on a computed age. *)
Definition over_ttl (age : float) : bool := (CACHE_TTL_MS_float <? age)%float.

Definition network_requests (w : world) : list string :=
  omap (λ e, match e with HttpHead u => Some u | _ => None end) (trace w).

(** The three ways through [get_org_tenant] after the cache is read. *)
Lemma get_org_tenant_fresh org_name w entry r :
  cached w org_name = Some entry →
  as_float (refreshed_on entry) = Return r →
  over_ttl (now_ms w - r) = false →
  get_org_tenant org_name w
  = (Return (tenant_id entry),
     mkWorld (cache_file w) (writing w) (S (ticks w)) (trace w)).
Proof.
  unfold cached, now_ms, over_ttl. intros Hc Hn Hle.
  unfold get_org_tenant, mbind, load_cache, is_cache_entry_expired, mbind,
    time_time, ret. cbn [fst snd]. rewrite Hc. cbn [ticks]. rewrite Hn, Hle.
  reflexivity.
Qed.

Lemma get_org_tenant_expired org_name w entry r :
  cached w org_name = Some entry →
  as_float (refreshed_on entry) = Return r →
  over_ttl (now_ms w - r) = true →
  get_org_tenant org_name w
  = lookup org_name (Some entry) (parse_cache (cache_file w))
      (mkWorld (cache_file w) (writing w) (S (ticks w)) (trace w)).
Proof.
  unfold cached, now_ms, over_ttl. intros Hc Hn Hlt.
  unfold get_org_tenant, mbind at 1 2 3, load_cache,
    is_cache_entry_expired, mbind at 1, time_time at 1, ret at 1 2.
  cbn [fst snd]. rewrite Hc. cbn [ticks]. rewrite Hn, Hlt. reflexivity.
Qed.

Lemma get_org_tenant_uncached org_name w :
  cached w org_name = None →
  get_org_tenant org_name w
  = lookup org_name None (parse_cache (cache_file w)) w.
Proof.
  unfold cached. intros Hc.
  unfold get_org_tenant, mbind at 1 2, load_cache. cbn. rewrite Hc.
  cbn. by destruct w.
Qed.

Lemma get_org_tenant_bad_entry org_name w entry e :
  cached w org_name = Some entry →
  as_float (refreshed_on entry) = Raise e →
  get_org_tenant org_name w
  = (Raise e, mkWorld (cache_file w) (writing w) (S (ticks w)) (trace w)).
Proof.
  unfold cached. intros Hc Hn.
  unfold get_org_tenant, mbind, load_cache, is_cache_entry_expired, mbind,
    time_time, raise. cbn [fst snd]. rewrite Hc. cbn [ticks]. rewrite Hn.
  reflexivity.
Qed.

(** The lookup always puts its request on the trace first. *)
Lemma lookup_trace org_name ce cache w :
  ∃ later, trace (lookup org_name ce cache w).2
           = trace w ++ HttpHead (tenant_url org_name) :: later.
Proof.
  unfold lookup, try_catch, fetch_tenant_from_api, mbind, emit. cbn.
  destruct (fetch_outcome org_name) as [t|e]; cbn.
  - unfold try_saving_cache. cbn. destruct (writing w) as [|msg|msg []]; cbn;
      eexists; rewrite <- ?app_assoc; reflexivity.
  - destruct ce; cbn; eexists; by rewrite <- app_assoc.
Qed.

(** A failed lookup falls back on the entry, or on [None]. *)
Lemma lookup_failed org_name ce cache w :
  raises (fetch_outcome org_name) = true →
  (lookup org_name ce cache w).1 = Return (default PNone (tenant_id <$> ce)).
Proof.
  intros Hf. unfold lookup, try_catch, fetch_tenant_from_api, mbind, emit.
  cbn. destruct (fetch_outcome org_name) as [t|e]; [done|].
  destruct ce; reflexivity.
Qed.

(** C4, as amended. When the cache holds an entry for the organization
    whose [refreshedOn] is a number that converts to a float, the age
    that decides is the one the code computes in binary64 arithmetic,
    [time.time() * 1000 - refreshedOn]: when it is not greater than
    604,800,000, [get_org_tenant] returns the entry's [tenantId] and
    issues no network request; when it is greater, the HEAD request of
    the live lookup is issued. *)
Theorem C4_cache_ttl (org_name : string) (w : world)
  (entry : OrgTenantCacheEntry) (r : float) :
  cached w org_name = Some entry →
  as_float (refreshed_on entry) = Return r →
  ((604800000 <? clock (ticks w) * 1000 - r)%float = false →
   (get_org_tenant org_name w).1 = Return (tenant_id entry)
   ∧ trace (get_org_tenant org_name w).2 = trace w
   ∧ network_requests (get_org_tenant org_name w).2 = network_requests w)
  ∧ ((604800000 <? clock (ticks w) * 1000 - r)%float = true →
     ∃ later, trace (get_org_tenant org_name w).2
              = trace w ++ HttpHead (tenant_url org_name) :: later).
Proof.
  intros Hc Hn. split.
  - intros Hle. by rewrite (get_org_tenant_fresh _ _ _ _ Hc Hn Hle).
  - intros Hlt. rewrite (get_org_tenant_expired _ _ _ _ Hc Hn Hlt).
    match goal with
    | |- context [lookup ?o ?ce ?c ?w1] =>
        destruct (lookup_trace o ce c w1) as [later Hl]
    end.
    exists later. by rewrite Hl.
Qed.

(** C5. When the live lookup fails: with no cache entry for the
    organization the call returns [None]; with an entry (expired or not)
    whose age can be computed it returns the entry's [tenantId]; and
    whenever the lookup was attempted the call returns that fallback
    rather than raising. *)
Theorem C5_lookup_failure_fallback (org_name : string) (w : world) :
  raises (fetch_outcome org_name) = true →
  (cached w org_name = None →
   (get_org_tenant org_name w).1 = Return PNone)
  ∧ (∀ entry, cached w org_name = Some entry →
       raises (as_float (refreshed_on entry)) = false →
       (get_org_tenant org_name w).1 = Return (tenant_id entry))
  ∧ (∀ later,
       trace (get_org_tenant org_name w).2
       = trace w ++ HttpHead (tenant_url org_name) :: later →
       (get_org_tenant org_name w).1
       = Return (default PNone (tenant_id <$> cached w org_name))).
Proof.
  intros Hf.
  assert (Hentry : ∀ entry r, cached w org_name = Some entry →
                     as_float (refreshed_on entry) = Return r →
                     (get_org_tenant org_name w).1 = Return (tenant_id entry)).
  { intros entry r Hc Hn.
    destruct (over_ttl (now_ms w - r)) eqn:Hage.
    - rewrite (get_org_tenant_expired _ _ _ _ Hc Hn Hage).
      by rewrite lookup_failed.
    - by rewrite (get_org_tenant_fresh _ _ _ _ Hc Hn Hage). }
  split; [|split].
  - intros Hc. rewrite (get_org_tenant_uncached _ _ Hc).
    by rewrite lookup_failed.
  - intros entry Hc Hr.
    destruct (as_float (refreshed_on entry)) as [r|e] eqn:Hn; [|done].
    by apply (Hentry entry r).
  - intros later Ht. destruct (cached w org_name) as [entry|] eqn:Hc.
    + destruct (as_float (refreshed_on entry)) as [r|e] eqn:Hn.
      * by apply (Hentry entry r).
      * rewrite (get_org_tenant_bad_entry _ _ _ _ Hc Hn) in Ht.
        cbn [snd trace] in Ht. exfalso.
        apply (f_equal length) in Ht. rewrite length_app in Ht.
        cbn in Ht. lia.
    + rewrite (get_org_tenant_uncached _ _ Hc). by rewrite lookup_failed.
Qed.

End Resolver.

(** A concrete setting: the clock stands at 1,700,000,000 s, the network
    is down, and the cache file holds one entry for [contoso]. *)
Definition clock_fixed (n : nat) : float := 1700000000.

Definition network_down (url : string) : result response :=
  Raise (Exception "Cannot connect to host").

Definition contoso_entry (refreshed : pyval) : OrgTenantCacheEntry :=
  mkEntry (PStr "72f988bf") refreshed.

Definition contoso_world (refreshed : pyval) : world :=
  mkWorld (Some (PDict [("contoso", to_dict (contoso_entry refreshed))]))
          Written 0 [].

(** One second before the clock, and eight days before it. *)
Definition a_second_ago : pyval := PFloat 1699999999000.
Definition eight_days_ago : pyval := PFloat 1699308800000.

(** A run of C4: an entry written one second ago is served from the
    cache, with nothing on the trace. *)
Lemma C4_cache_ttl_witness :
  cached (contoso_world a_second_ago) "contoso"
  = Some (contoso_entry a_second_ago)
  ∧ as_float (refreshed_on (contoso_entry a_second_ago))
    = Return 1699999999000%float
  ∧ (604800000 <? clock_fixed 0 * 1000 - 1699999999000)%float = false
  ∧ (get_org_tenant clock_fixed network_down "contoso"
       (contoso_world a_second_ago)).1
    = Return (PStr "72f988bf")
  ∧ trace (get_org_tenant clock_fixed network_down "contoso"
             (contoso_world a_second_ago)).2 = [].
Proof.
  assert (H1 : cached (contoso_world a_second_ago) "contoso"
               = Some (contoso_entry a_second_ago))
    by (vm_compute; reflexivity).
  assert (H2 : as_float (refreshed_on (contoso_entry a_second_ago))
               = Return 1699999999000%float) by reflexivity.
  assert (H3 : (604800000 <? clock_fixed 0 * 1000 - 1699999999000)%float
               = false) by (vm_compute; reflexivity).
  destruct (C4_cache_ttl clock_fixed network_down "contoso"
              (contoso_world a_second_ago) _ _ H1 H2) as [Hfresh _].
  destruct (Hfresh H3) as (Hr & Ht & _).
  split; [exact H1|]. split; [exact H2|]. split; [exact H3|].
  split; [exact Hr|exact Ht].
Defined.

(** C4 as stated fails at the boundary, where the computed age is not the
    exact one.  The clock stands at 1700000000.0000052 s and the entry
    was refreshed at 1699395200000.0051 ms: the entry is older than
    604,800,000 ms (by 31/262144 ms), the computed age is 604,800,000,
    and the entry is served from the cache with nothing sent.  It also
    fails for an entry whose [refreshedOn] is the integer 10^400, far
    from being older than the TTL: the subtraction raises, and so does
    the call. *)
Definition clock_at_boundary (n : nat) : float := 1700000000.0000052.

Definition refreshed_at_boundary : float := 1699395200000.0051.

Lemma C4_rounding_counterexample :
  cached (contoso_world (PFloat refreshed_at_boundary)) "contoso"
  = Some (contoso_entry (PFloat refreshed_at_boundary))
  ∧ exact (clock_at_boundary 0) = Some (3565158400000011 # 2097152)%Q
  ∧ exact refreshed_at_boundary = Some (6960722739200021 # 4096)%Q
  ∧ ((3565158400000011 # 2097152) * 1000 - (6960722739200021 # 4096)
     == 604800000 + (31 # 262144))%Q
  ∧ (604800000 < (3565158400000011 # 2097152) * 1000
                 - (6960722739200021 # 4096))%Q
  ∧ (clock_at_boundary 0 * 1000 - refreshed_at_boundary)%float
    = 604800000%float
  ∧ get_org_tenant clock_at_boundary network_down "contoso"
      (contoso_world (PFloat refreshed_at_boundary))
    = (Return (PStr "72f988bf"),
       mkWorld (cache_file (contoso_world (PFloat refreshed_at_boundary)))
               Written 1 [])
  ∧ cached (contoso_world (PInt (10 ^ 400))) "contoso"
    = Some (contoso_entry (PInt (10 ^ 400)))
  ∧ (get_org_tenant clock_fixed network_down "contoso"
       (contoso_world (PInt (10 ^ 400)))).1
    = Raise (mkExn OverflowErrorC "int too large to convert to float").
Proof.
  split; [vm_compute; reflexivity|].
  split; [vm_compute; reflexivity|].
  split; [vm_compute; reflexivity|].
  split; [reflexivity|]. split; [reflexivity|].
  split; [vm_compute; reflexivity|]. split; [vm_compute; reflexivity|].
  split; vm_compute; reflexivity.
Qed.

(** A run of C5: the entry is eight days old and the network is down;
    the expired tenant id comes back. *)
Lemma C5_lookup_failure_fallback_witness :
  raises (fetch_outcome network_down "contoso") = true
  ∧ cached (contoso_world eight_days_ago) "contoso"
    = Some (contoso_entry eight_days_ago)
  ∧ raises (as_float (refreshed_on (contoso_entry eight_days_ago))) = false
  ∧ (get_org_tenant clock_fixed network_down "contoso"
       (contoso_world eight_days_ago)).1 = Return (PStr "72f988bf").
Proof.
  assert (H1 : raises (fetch_outcome network_down "contoso") = true)
    by reflexivity.
  assert (H2 : cached (contoso_world eight_days_ago) "contoso"
               = Some (contoso_entry eight_days_ago))
    by (vm_compute; reflexivity).
  assert (H3 : raises (as_float (refreshed_on (contoso_entry eight_days_ago)))
               = false) by reflexivity.
  destruct (C5_lookup_failure_fallback clock_fixed network_down "contoso"
              (contoso_world eight_days_ago) H1) as (_ & Hentry & _).
  split; [exact H1|]. split; [exact H2|]. split; [exact H3|].
  exact (Hentry _ H2 H3).
Defined.

(** One entry without its [tenantId] makes [load_cache] give up the whole
    file: [contoso] is then not cached, fresh as its entry is. *)
Example malformed_sibling_entry :
  cached (mkWorld
            (Some (PDict [("contoso", to_dict (contoso_entry a_second_ago));
                          ("fabrikam", PDict [("refreshedOn", PInt 0)])]))
            Written 0 [])
         "contoso" = None.
Proof. vm_compute. reflexivity. Qed.

(** The same setting run through: the expired entry triggers the request,
    the failure is printed, and the old tenant id is returned. *)
Example expired_entry_network_down :
  get_org_tenant clock_fixed network_down "contoso"
    (contoso_world eight_days_ago)
  = (Return (PStr "72f988bf"),
     mkWorld (cache_file (contoso_world eight_days_ago)) Written 1
       [HttpHead "https://vssps.dev.azure.com/contoso";
        Print ("Failed to fetch fresh tenant for ADO org contoso, "
               +:+ "using expired cache entry: "
               +:+ "Failed to fetch tenant for organization contoso: "
               +:+ "Cannot connect to host")]).
Proof. vm_compute. reflexivity. Qed.

(** An entry whose [refreshedOn] is not a number fails the call before
    any lookup. *)
Example refreshed_on_text :
  get_org_tenant clock_fixed network_down "contoso"
    (contoso_world (PStr "yesterday"))
  = (Raise (mkExn TypeErrorC
              "unsupported operand type(s) for -: 'float' and 'str'"),
     mkWorld (cache_file (contoso_world (PStr "yesterday"))) Written 1 []).
Proof. vm_compute. reflexivity. Qed.

(** *** The cache file, a successful lookup, and two calls in a row *)

Section ResolverFacts.

Variable clock : nat → float.
Variable http_head : string → result response.

Lemma from_dict_to_dict e : from_dict (to_dict e) = Some e.
Proof. by destruct e. Qed.

Lemma entries_is_Some items acc :
  Forall (λ kv : string * pyval, is_Some (from_dict kv.2)) items →
  is_Some (entries items acc).
Proof.
  intros H. revert acc. induction H as [|[k v] items [e He] _ IH]; intros acc.
  - by eexists.
  - cbn in *. rewrite He. apply IH.
Qed.

Lemma entries_lookup_notin items acc m k :
  entries items acc = Some m → k ∉ items.*1 → m !! k = acc !! k.
Proof.
  revert acc. induction items as [|[k' v] items IH]; intros acc; cbn.
  - by intros [= <-].
  - destruct (from_dict v) as [e|]; [|done]. intros Hm Hk.
    apply not_elem_of_cons in Hk as [Hne Hk].
    rewrite (IH _ Hm Hk). by rewrite lookup_insert_ne.
Qed.

Lemma entries_lookup_in items acc m k v :
  entries items acc = Some m → NoDup items.*1 → (k, v) ∈ items →
  m !! k = from_dict v.
Proof.
  revert acc. induction items as [|[k' v'] items IH]; intros acc; cbn.
  - intros _ _ H. by apply elem_of_nil in H.
  - destruct (from_dict v') as [e|] eqn:He; [|done].
    intros Hm Hnd Hin. apply NoDup_cons in Hnd as [Hk' Hnd].
    apply elem_of_cons in Hin as [[= -> ->]|Hin].
    + rewrite (entries_lookup_notin _ _ _ _ Hm Hk').
      by rewrite lookup_insert_eq.
    + by apply (IH _ Hm).
Qed.

(** X8. Reading back what [try_saving_cache] writes gives the cache that
    was written: every entry, with its tenant id and time stamp, and
    nothing else. *)
Theorem cache_round_trip (cache : gmap string OrgTenantCacheEntry) :
  parse_cache (Some (dump_cache cache)) = cache.
Proof.
  unfold parse_cache, dump_cache.
  set (items := map_to_list (to_dict <$> cache)).
  assert (Hitems : ∀ k v, (k, v) ∈ items
                          ↔ ∃ e, cache !! k = Some e ∧ v = to_dict e).
  { intros k v. unfold items. rewrite elem_of_map_to_list, lookup_fmap.
    destruct (cache !! k) as [e|]; cbn; [|naive_solver].
    split; [intros [= <-]; eauto|]. by intros (e' & [= <-] & ->). }
  assert (Hsome : is_Some (entries items ∅)).
  { apply entries_is_Some, Forall_forall. intros [k v] Hin.
    apply Hitems in Hin as (e & _ & ->). cbn [snd].
    rewrite from_dict_to_dict. by eexists. }
  destruct Hsome as [m Hm]. rewrite Hm. cbn.
  apply map_eq. intros k. destruct (cache !! k) as [e|] eqn:Hk.
  - rewrite (entries_lookup_in items ∅ m k (to_dict e) Hm).
    + apply from_dict_to_dict.
    + apply NoDup_fst_map_to_list.
    + apply Hitems. eauto.
  - rewrite (entries_lookup_notin _ _ _ _ Hm); [done|].
    intros ((k' & v) & -> & Hin)%list_elem_of_fmap. cbn in Hk.
    apply Hitems in Hin as (e & He & _). congruence.
Qed.

(** X9. The live lookup gives a tenant id exactly when the reply to the
    HEAD request has status 404 and carries a non-empty
    [x-vss-resourcetenant] header, whose value it then is; any other
    status, 200 included, is a failure. *)
Theorem fetch_outcome_success (org_name t : string) :
  fetch_outcome http_head org_name = Return t
  ↔ ∃ r, http_head (tenant_url org_name) = Return r
         ∧ status r = 404%Z
         ∧ x_vss_resourcetenant r = Some t
         ∧ t ≠ "".
Proof.
  unfold fetch_outcome, read_tenant.
  destruct (http_head (tenant_url org_name)) as [r|e]; cbn.
  - destruct (Z.eqb_spec (status r) 404) as [Hs|Hs]; cbn.
    + destruct (x_vss_resourcetenant r) as [[|c s]|] eqn:Hh; cbn.
      * split; [discriminate|]. intros (r' & [= <-] & _ & Hh' & Ht).
        congruence.
      * split.
        -- intros [= <-]. exists r. done.
        -- intros (r' & [= <-] & _ & Hh' & _). congruence.
      * split; [discriminate|]. intros (r' & [= <-] & _ & Hh' & _).
        congruence.
    + split; [discriminate|]. intros (r' & [= <-] & Hs' & _). done.
  - split; [discriminate|]. intros (r' & [=] & _).
Qed.

(** The time stored by a lookup that runs in world [w]: [time.time()]
    times 1000, rounded as the multiplication rounds. *)
Definition stored_time (w : world) : pyval :=
  PFloat (clock (ticks w) * 1000)%float.

(** The ways a lookup that finds a tenant ends. *)
Lemma lookup_saved org_name ce cache w t :
  fetch_outcome http_head org_name = Return t → writing w = Written →
  lookup clock http_head org_name ce cache w
  = let cache' := <[org_name := mkEntry (PStr t) (stored_time w)]> cache in
    (Return (PStr t),
     mkWorld (Some (dump_cache cache')) Written (S (ticks w))
       (trace w ++ [HttpHead (tenant_url org_name);
                    WriteCacheFile (dump_cache cache')])).
Proof.
  intros Hf Hw. unfold lookup, try_catch, fetch_tenant_from_api, mbind, emit,
    time_time, try_saving_cache, ret, stored_time. cbn. rewrite Hf. cbn.
  rewrite Hw. cbn. by rewrite <- app_assoc.
Qed.

Lemma lookup_not_opened org_name ce cache w t msg :
  fetch_outcome http_head org_name = Return t → writing w = OpenFails msg →
  lookup clock http_head org_name ce cache w
  = (Return (PStr t),
     mkWorld (cache_file w) (OpenFails msg) (S (ticks w))
       (trace w ++ [HttpHead (tenant_url org_name);
                    Print ("Failed to save org tenants cache: " +:+ msg)])).
Proof.
  intros Hf Hw. unfold lookup, try_catch, fetch_tenant_from_api, mbind, emit,
    time_time, try_saving_cache, print, emit, ret. cbn. rewrite Hf. cbn.
  rewrite Hw. cbn. by rewrite <- app_assoc.
Qed.

Lemma lookup_truncated org_name ce cache w t msg :
  fetch_outcome http_head org_name = Return t →
  writing w = DumpFails msg false →
  lookup clock http_head org_name ce cache w
  = (Return (PStr t),
     mkWorld None (DumpFails msg false) (S (ticks w))
       (trace w ++ [HttpHead (tenant_url org_name); TruncateCacheFile;
                    Print ("Failed to save org tenants cache: " +:+ msg)])).
Proof.
  intros Hf Hw. unfold lookup, try_catch, fetch_tenant_from_api, mbind, emit,
    time_time, try_saving_cache, print, emit, ret. cbn. rewrite Hf. cbn.
  rewrite Hw. cbn. by rewrite <- !app_assoc.
Qed.

Lemma lookup_found org_name ce cache w t :
  fetch_outcome http_head org_name = Return t →
  (lookup clock http_head org_name ce cache w).1 = Return (PStr t).
Proof.
  intros Hf. unfold lookup, try_catch, fetch_tenant_from_api, mbind, emit,
    time_time, try_saving_cache, print, emit, ret. cbn. rewrite Hf. cbn.
  by destruct (writing w) as [|msg|msg []].
Qed.

Lemma lookup_failed_world org_name ce cache w :
  raises (fetch_outcome http_head org_name) = true →
  cache_file (lookup clock http_head org_name ce cache w).2 = cache_file w.
Proof.
  intros Hf. unfold lookup, try_catch, fetch_tenant_from_api, mbind, emit.
  cbn. destruct (fetch_outcome http_head org_name) as [t|e]; [done|].
  destruct ce; reflexivity.
Qed.

(** When [get_org_tenant] goes to the network: no entry, or one whose
    computed age is greater than the TTL. *)
Definition stale (w : world) (org_name : string) : Prop :=
  cached w org_name = None
  ∨ ∃ entry r, cached w org_name = Some entry
               ∧ as_float (refreshed_on entry) = Return r
               ∧ over_ttl (now_ms clock w - r) = true.

(** In that case the call is the lookup, run in a world with the same
    file and trace. *)
Lemma get_org_tenant_stale org_name w :
  stale w org_name →
  ∃ w1, get_org_tenant clock http_head org_name w
        = lookup clock http_head org_name (cached w org_name)
            (parse_cache (cache_file w)) w1
        ∧ cache_file w1 = cache_file w ∧ writing w1 = writing w
        ∧ trace w1 = trace w ∧ (ticks w ≤ ticks w1)%nat.
Proof.
  intros [Hc|(entry & r & Hc & Hn & Hlt)].
  - exists w. rewrite (get_org_tenant_uncached _ _ _ _ Hc), Hc. done.
  - eexists. rewrite (get_org_tenant_expired _ _ _ _ _ _ Hc Hn Hlt), Hc.
    split; [reflexivity|]. cbn. repeat split; lia.
Qed.

(** Otherwise it does not touch the file. *)
Lemma get_org_tenant_not_stale org_name w :
  ¬ stale w org_name →
  cache_file (get_org_tenant clock http_head org_name w).2 = cache_file w.
Proof.
  intros Hst. destruct (cached w org_name) as [entry|] eqn:Hc.
  - destruct (as_float (refreshed_on entry)) as [r|e] eqn:Hn.
    + destruct (over_ttl (now_ms clock w - r)) eqn:Hage.
      * exfalso. apply Hst. right. by exists entry, r.
      * by rewrite (get_org_tenant_fresh _ _ _ _ _ _ Hc Hn Hage).
    + by rewrite (get_org_tenant_bad_entry _ _ _ _ _ _ Hc Hn).
  - exfalso. apply Hst. by left.
Qed.


(** X11. Two calls in a row: when the first one went to the network,
    found a tenant and saved it, and the age that the code computes from
    two readings of the clock, [later * 1000 - earlier * 1000] in
    binary64 arithmetic, is never greater than the TTL, the second call
    returns the same tenant id and sends nothing. *)
Theorem second_call_from_cache (org_name t : string) (w : world) :
  stale w org_name →
  fetch_outcome http_head org_name = Return t →
  writing w = Written →
  (∀ i j, (i ≤ j)%nat →
          (604800000 <? clock j * 1000 - clock i * 1000)%float = false) →
  let first := get_org_tenant clock http_head org_name w in
  let second := get_org_tenant clock http_head org_name first.2 in
  second.1 = first.1
  ∧ first.1 = Return (PStr t)
  ∧ trace second.2 = trace first.2.
Proof.
  intros Hst Hf Hw Hclock first second. subst first second.
  destruct (get_org_tenant_stale _ _ Hst) as (w1 & -> & Hcf & Hwe & Htr & Hti).
  rewrite (lookup_saved _ _ _ _ _ Hf) by congruence. cbn zeta.
  cbn [fst snd].
  match goal with
  | |- context [get_org_tenant _ _ _ ?w2] =>
      rewrite (get_org_tenant_fresh clock http_head org_name w2
                 (mkEntry (PStr t) (stored_time w1))
                 (clock (ticks w1) * 1000)%float)
  end.
  - done.
  - unfold cached. cbn [cache_file]. rewrite cache_round_trip.
    by rewrite lookup_insert_eq.
  - done.
  - unfold now_ms, over_ttl. cbn [ticks]. apply Hclock. lia.
Qed.

(** X12. The content of the cache file changes only in a call that went
    to the network and found a tenant, and then not when opening the file
    for writing fails.  Such a call returns the tenant id found however
    the save goes; when the save fails once the file is open and has left
    only a part of the text, no organization has an entry in the file any
    more. *)
Theorem cache_file_written_only_on_success (org_name : string) (w : world) :
  let run := get_org_tenant clock http_head org_name w in
  (cache_file run.2 ≠ cache_file w →
   stale w org_name
   ∧ (∃ t, fetch_outcome http_head org_name = Return t)
   ∧ ∀ msg, writing w ≠ OpenFails msg)
  ∧ (∀ t, stale w org_name →
       fetch_outcome http_head org_name = Return t →
       run.1 = Return (PStr t)
       ∧ (∀ msg, writing w = OpenFails msg → cache_file run.2 = cache_file w)
       ∧ (∀ msg, writing w = DumpFails msg false →
                 ∀ other, cached run.2 other = None)).
Proof.
  intros run. subst run. split.
  - intros Hchg.
    assert (Hst : stale w org_name).
    { destruct (cached w org_name) as [entry|] eqn:Hc; [|by left].
      destruct (as_float (refreshed_on entry)) as [r|e] eqn:Hn.
      - destruct (over_ttl (now_ms clock w - r)) eqn:Hage.
        + right. by exists entry, r.
        + exfalso. apply Hchg.
          by rewrite (get_org_tenant_fresh _ _ _ _ _ _ Hc Hn Hage).
      - exfalso. apply Hchg.
        by rewrite (get_org_tenant_bad_entry _ _ _ _ _ _ Hc Hn). }
    split; [exact Hst|].
    destruct (get_org_tenant_stale _ _ Hst) as (w1 & Heq & Hcf & Hwe & _).
    rewrite Heq in Hchg.
    destruct (fetch_outcome http_head org_name) as [t|e] eqn:Hf.
    + split; [by eexists|]. intros msg Hw. apply Hchg.
      rewrite (lookup_not_opened _ _ _ _ _ msg Hf) by congruence. done.
    + exfalso. apply Hchg. rewrite <- Hcf.
      apply lookup_failed_world. by rewrite Hf.
  - intros t Hst Hf.
    destruct (get_org_tenant_stale _ _ Hst) as (w1 & -> & Hcf & Hwe & _).
    split; [by apply lookup_found|]. split.
    + intros msg Hw.
      rewrite (lookup_not_opened _ _ _ _ _ msg Hf) by congruence. done.
    + intros msg Hw other.
      rewrite (lookup_truncated _ _ _ _ _ msg Hf) by congruence. done.
Qed.

End ResolverFacts.

(** A directory service that knows the tenant of every organization. *)
Definition tenant_service (url : string) : result response :=
  Return (mkResponse 404 (Some "72f988bf")).

Definition empty_world : world := mkWorld None Written 0 [].

Lemma fetch_outcome_success_ex :
  fetch_outcome tenant_service "contoso" = Return "72f988bf"
  ∧ raises (fetch_outcome (λ _, Return (mkResponse 200 (Some "72f988bf")))
              "contoso") = true.
Proof. split; reflexivity. Qed.

(** At the boundary of C4 the entry is served from the cache although the
    directory service would answer. *)
Example served_at_boundary :
  get_org_tenant clock_at_boundary tenant_service "contoso"
    (contoso_world (PFloat refreshed_at_boundary))
  = (Return (PStr "72f988bf"),
     mkWorld (cache_file (contoso_world (PFloat refreshed_at_boundary)))
             Written 1 []).
Proof. vm_compute. reflexivity. Qed.

(** A clock that moves by exactly one week between two readings: the
    computed age is then 604800000.0002441, and a second call asks the
    service again. *)
Definition clock_a_week_apart (n : nat) : float :=
  match n with
  | 0 => 2198418456.4282913
  | _ => 2198418456.4282913 + 604800
  end.

Example a_week_apart_expired :
  (clock_a_week_apart 1 * 1000 - clock_a_week_apart 0 * 1000)%float
  = 604800000.0002441%float
  ∧ network_requests
      (get_org_tenant clock_a_week_apart tenant_service "contoso"
         (get_org_tenant clock_a_week_apart tenant_service "contoso"
            empty_world).2).2
    = ["https://vssps.dev.azure.com/contoso";
       "https://vssps.dev.azure.com/contoso"].
Proof. split; vm_compute; reflexivity. Qed.


Lemma second_call_from_cache_witness :
  stale clock_fixed empty_world "contoso"
  ∧ fetch_outcome tenant_service "contoso" = Return "72f988bf"
  ∧ writing empty_world = Written
  ∧ (∀ i j, (i ≤ j)%nat →
            (604800000 <? clock_fixed j * 1000 - clock_fixed i * 1000)%float
            = false)
  ∧ (get_org_tenant clock_fixed tenant_service "contoso"
       (get_org_tenant clock_fixed tenant_service "contoso" empty_world).2).1
    = Return (PStr "72f988bf").
Proof.
  assert (H1 : stale clock_fixed empty_world "contoso")
    by (left; vm_compute; reflexivity).
  assert (H2 : fetch_outcome tenant_service "contoso" = Return "72f988bf")
    by reflexivity.
  assert (H3 : writing empty_world = Written) by reflexivity.
  assert (H4 : ∀ i j, (i ≤ j)%nat →
                 (604800000 <? clock_fixed j * 1000 - clock_fixed i * 1000)%float
                 = false)
    by (intros i j _; vm_compute; reflexivity).
  destruct (second_call_from_cache clock_fixed tenant_service "contoso"
              "72f988bf" empty_world H1 H2 H3 H4) as (Heq & Hr & _).
  split; [exact H1|]. split; [exact H2|]. split; [exact H3|].
  split; [exact H4|]. by rewrite Heq.
Defined.

(** A cache file that holds an entry for [fabrikam] and cannot be
    opened for writing, and one on a disk that is full. *)
Definition fabrikam_file : option pyval :=
  Some (PDict [("fabrikam", to_dict (contoso_entry a_second_ago))]).

Definition read_only_world : world :=
  mkWorld fabrikam_file (OpenFails "Permission denied") 0 [].

Definition disk_full_world : world :=
  mkWorld fabrikam_file (DumpFails "No space left on device" false) 0 [].

Example disk_full_run :
  get_org_tenant clock_fixed tenant_service "contoso" disk_full_world
  = (Return (PStr "72f988bf"),
     mkWorld None (DumpFails "No space left on device" false) 1
       [HttpHead "https://vssps.dev.azure.com/contoso"; TruncateCacheFile;
        Print "Failed to save org tenants cache: No space left on device"]).
Proof. vm_compute. reflexivity. Qed.

Lemma cache_file_written_only_on_success_witness :
  stale clock_fixed disk_full_world "contoso"
  ∧ fetch_outcome tenant_service "contoso" = Return "72f988bf"
  ∧ (get_org_tenant clock_fixed tenant_service "contoso" read_only_world).1
    = Return (PStr "72f988bf")
  ∧ cache_file
      (get_org_tenant clock_fixed tenant_service "contoso" read_only_world).2
    = fabrikam_file
  ∧ is_Some (cached disk_full_world "fabrikam")
  ∧ cached
      (get_org_tenant clock_fixed tenant_service "contoso" disk_full_world).2
      "fabrikam"
    = None.
Proof.
  assert (H1 : stale clock_fixed disk_full_world "contoso")
    by (left; vm_compute; reflexivity).
  assert (H1' : stale clock_fixed read_only_world "contoso")
    by (left; vm_compute; reflexivity).
  assert (H2 : fetch_outcome tenant_service "contoso" = Return "72f988bf")
    by reflexivity.
  assert (H3 : is_Some (cached disk_full_world "fabrikam"))
    by (eexists; vm_compute; reflexivity).
  destruct (cache_file_written_only_on_success clock_fixed tenant_service
              "contoso" read_only_world) as [_ Hro].
  destruct (Hro _ H1' H2) as (Hr & Hkept & _).
  destruct (cache_file_written_only_on_success clock_fixed tenant_service
              "contoso" disk_full_world) as [_ Hdf].
  destruct (Hdf _ H1 H2) as (_ & _ & Hlost).
  split; [exact H1|]. split; [exact H2|]. split; [exact Hr|].
  split; [exact (Hkept _ eq_refl)|]. split; [exact H3|].
  exact (Hlost _ eq_refl "fabrikam").
Defined.

End OrgTenants.

(** ** tools/: the shape every tool operation shares *)

Module Tools.
Import Py.

(** The [text] of a [TextContent]: a literal or formatted string, or the
    result of [json.dumps(v, indent=2, default=str)] on a value. *)
Inductive text_of : Type :=
  | Str (s : string)
  | JsonDumps (v : pyval).

Record TextContent : Type := mkTextContent {
  type : string;
  text : text_of
}.

Definition text_result (s : string) : list TextContent :=
  [mkTextContent "text" (Str s)].

Definition json_result (v : pyval) : list TextContent :=
  [mkTextContent "text" (JsonDumps v)].

(** The two tests the tools use on a required argument:
    [if not x] and [if x is None]. *)
Inductive check_kind : Type := NotTruthy | IsNone.

(** One validated argument: the key read with [arguments.get], the
    default given to [get] ([PNone] when there is none), and the test. *)
Record check : Type := mkCheck {
  arg : string;
  dflt : pyval;
  kind : check_kind
}.

(** A tool operation up to its first [token_provider()] call: the source
    file, the function name, and its checks in the order of the code. *)
Record tool : Type := mkTool {
  source_file : string;
  tool_name : string;
  checks : list check
}.

(** Every [async def ...(arguments)] of the nine tool modules, in the
    order in which [configure_all_tools] visits the modules. *)
Definition tools : list tool :=
  [mkTool "core.py" "core_list_project_teams"
     [mkCheck "project" PNone NotTruthy];
   mkTool "core.py" "core_list_projects"
     [];
   mkTool "core.py" "core_get_identity_ids"
     [mkCheck "searchFilter" PNone NotTruthy];
   mkTool "work.py" "work_list_team_iterations"
     [mkCheck "project" PNone NotTruthy;
      mkCheck "team" PNone NotTruthy];
   mkTool "work.py" "work_create_iterations"
     [mkCheck "project" PNone NotTruthy;
      mkCheck "name" PNone NotTruthy;
      mkCheck "path" PNone NotTruthy];
   mkTool "work.py" "work_assign_iterations"
     [mkCheck "project" PNone NotTruthy;
      mkCheck "team" PNone NotTruthy;
      mkCheck "iterationIds" (PList []) NotTruthy];
   mkTool "work.py" "work_get_team_capacity"
     [mkCheck "project" PNone NotTruthy;
      mkCheck "team" PNone NotTruthy;
      mkCheck "iterationId" PNone NotTruthy];
   mkTool "pipelines.py" "pipelines_get_build_definitions"
     [mkCheck "project" PNone NotTruthy];
   mkTool "pipelines.py" "pipelines_get_builds"
     [mkCheck "project" PNone NotTruthy];
   mkTool "pipelines.py" "pipelines_get_build_changes"
     [mkCheck "project" PNone NotTruthy;
      mkCheck "buildId" PNone NotTruthy];
   mkTool "pipelines.py" "pipelines_get_build_log"
     [mkCheck "project" PNone NotTruthy;
      mkCheck "buildId" PNone NotTruthy;
      mkCheck "logId" PNone NotTruthy];
   mkTool "pipelines.py" "pipelines_get_build_status"
     [mkCheck "project" PNone NotTruthy;
      mkCheck "buildId" PNone NotTruthy];
   mkTool "pipelines.py" "pipelines_run_pipeline"
     [mkCheck "project" PNone NotTruthy;
      mkCheck "pipelineId" PNone NotTruthy];
   mkTool "repositories.py" "repo_list_repos_by_project"
     [mkCheck "project" PNone NotTruthy];
   mkTool "repositories.py" "repo_get_repo_by_name_or_id"
     [mkCheck "project" PNone NotTruthy;
      mkCheck "repositoryId" PNone NotTruthy];
   mkTool "repositories.py" "repo_list_branches_by_repo"
     [mkCheck "project" PNone NotTruthy;
      mkCheck "repositoryId" PNone NotTruthy];
   mkTool "repositories.py" "repo_get_branch_by_name"
     [mkCheck "project" PNone NotTruthy;
      mkCheck "repositoryId" PNone NotTruthy;
      mkCheck "branchName" PNone NotTruthy];
   mkTool "repositories.py" "repo_create_branch"
     [mkCheck "project" PNone NotTruthy;
      mkCheck "repositoryId" PNone NotTruthy;
      mkCheck "branchName" PNone NotTruthy];
   mkTool "repositories.py" "repo_list_pull_requests_by_repo_or_project"
     [mkCheck "project" PNone NotTruthy];
   mkTool "repositories.py" "repo_get_pull_request_by_id"
     [mkCheck "project" PNone NotTruthy;
      mkCheck "repositoryId" PNone NotTruthy;
      mkCheck "pullRequestId" PNone NotTruthy];
   mkTool "repositories.py" "repo_create_pull_request"
     [mkCheck "project" PNone NotTruthy;
      mkCheck "repositoryId" PNone NotTruthy;
      mkCheck "title" PNone NotTruthy;
      mkCheck "sourceBranch" PNone NotTruthy];
   mkTool "repositories.py" "repo_update_pull_request"
     [mkCheck "project" PNone NotTruthy;
      mkCheck "repositoryId" PNone NotTruthy;
      mkCheck "pullRequestId" PNone NotTruthy];
   mkTool "repositories.py" "repo_list_pull_request_threads"
     [mkCheck "project" PNone NotTruthy;
      mkCheck "repositoryId" PNone NotTruthy;
      mkCheck "pullRequestId" PNone NotTruthy];
   mkTool "repositories.py" "repo_create_pull_request_thread"
     [mkCheck "project" PNone NotTruthy;
      mkCheck "repositoryId" PNone NotTruthy;
      mkCheck "pullRequestId" PNone NotTruthy;
      mkCheck "commentText" PNone NotTruthy];
   mkTool "repositories.py" "repo_reply_to_comment"
     [mkCheck "project" PNone NotTruthy;
      mkCheck "repositoryId" PNone NotTruthy;
      mkCheck "pullRequestId" PNone NotTruthy;
      mkCheck "threadId" PNone NotTruthy;
      mkCheck "commentText" PNone NotTruthy];
   mkTool "repositories.py" "repo_resolve_comment"
     [mkCheck "project" PNone NotTruthy;
      mkCheck "repositoryId" PNone NotTruthy;
      mkCheck "pullRequestId" PNone NotTruthy;
      mkCheck "threadId" PNone NotTruthy];
   mkTool "repositories.py" "repo_search_commits"
     [mkCheck "project" PNone NotTruthy;
      mkCheck "repositoryId" PNone NotTruthy];
   mkTool "repositories.py" "repo_list_my_branches_by_repo"
     [mkCheck "project" PNone NotTruthy;
      mkCheck "repositoryId" PNone NotTruthy];
   mkTool "repositories.py" "repo_list_pull_request_thread_comments"
     [mkCheck "project" PNone NotTruthy;
      mkCheck "repositoryId" PNone NotTruthy;
      mkCheck "pullRequestId" PNone NotTruthy;
      mkCheck "threadId" PNone NotTruthy];
   mkTool "repositories.py" "repo_update_pull_request_reviewers"
     [mkCheck "project" PNone NotTruthy;
      mkCheck "repositoryId" PNone NotTruthy;
      mkCheck "pullRequestId" PNone NotTruthy];
   mkTool "repositories.py" "repo_list_pull_requests_by_commits"
     [mkCheck "project" PNone NotTruthy;
      mkCheck "repositoryId" PNone NotTruthy;
      mkCheck "commitIds" (PList []) NotTruthy];
   mkTool "work_items.py" "wit_list_backlogs"
     [mkCheck "project" PNone NotTruthy;
      mkCheck "team" PNone NotTruthy];
   mkTool "work_items.py" "wit_my_work_items"
     [];
   mkTool "work_items.py" "wit_get_work_item"
     [mkCheck "id" PNone NotTruthy];
   mkTool "work_items.py" "wit_create_work_item"
     [mkCheck "project" PNone NotTruthy;
      mkCheck "type" PNone NotTruthy;
      mkCheck "title" PNone NotTruthy];
   mkTool "work_items.py" "wit_update_work_item"
     [mkCheck "id" PNone NotTruthy;
      mkCheck "fields" (PDict []) NotTruthy];
   mkTool "work_items.py" "wit_get_work_items_batch_by_ids"
     [mkCheck "ids" (PList []) NotTruthy];
   mkTool "work_items.py" "wit_list_work_item_comments"
     [mkCheck "project" PNone NotTruthy;
      mkCheck "workItemId" PNone NotTruthy];
   mkTool "work_items.py" "wit_get_work_items_for_iteration"
     [mkCheck "project" PNone NotTruthy;
      mkCheck "team" PNone NotTruthy;
      mkCheck "iterationPath" PNone NotTruthy];
   mkTool "work_items.py" "wit_add_work_item_comment"
     [mkCheck "project" PNone NotTruthy;
      mkCheck "workItemId" PNone NotTruthy;
      mkCheck "text" PNone NotTruthy];
   mkTool "work_items.py" "wit_work_items_link"
     [mkCheck "sourceId" PNone NotTruthy;
      mkCheck "targetId" PNone NotTruthy];
   mkTool "work_items.py" "wit_work_item_unlink"
     [mkCheck "sourceId" PNone NotTruthy;
      mkCheck "targetId" PNone NotTruthy];
   mkTool "work_items.py" "wit_get_work_item_type"
     [mkCheck "project" PNone NotTruthy;
      mkCheck "type" PNone NotTruthy];
   mkTool "work_items.py" "wit_get_query"
     [mkCheck "project" PNone NotTruthy;
      mkCheck "queryId" PNone NotTruthy];
   mkTool "work_items.py" "wit_get_query_results_by_id"
     [mkCheck "project" PNone NotTruthy;
      mkCheck "queryId" PNone NotTruthy];
   mkTool "work_items.py" "wit_update_work_items_batch"
     [mkCheck "project" PNone NotTruthy;
      mkCheck "workItems" (PList []) NotTruthy];
   mkTool "work_items.py" "wit_add_artifact_link"
     [mkCheck "workItemId" PNone NotTruthy;
      mkCheck "artifactUri" PNone NotTruthy];
   mkTool "work_items.py" "wit_list_backlog_work_items"
     [mkCheck "project" PNone NotTruthy;
      mkCheck "team" PNone NotTruthy;
      mkCheck "backlogId" PNone NotTruthy];
   mkTool "work_items.py" "wit_add_child_work_items"
     [mkCheck "parentId" PNone NotTruthy;
      mkCheck "childIds" (PList []) NotTruthy];
   mkTool "work_items.py" "wit_link_work_item_to_pull_request"
     [mkCheck "workItemId" PNone NotTruthy;
      mkCheck "pullRequestId" PNone NotTruthy;
      mkCheck "repositoryId" PNone NotTruthy;
      mkCheck "project" PNone NotTruthy];
   mkTool "wiki.py" "wiki_get_wiki"
     [mkCheck "wikiIdentifier" PNone NotTruthy];
   mkTool "wiki.py" "wiki_list_wikis"
     [mkCheck "project" PNone NotTruthy];
   mkTool "wiki.py" "wiki_list_pages"
     [mkCheck "project" PNone NotTruthy;
      mkCheck "wikiIdentifier" PNone NotTruthy];
   mkTool "wiki.py" "wiki_get_page"
     [mkCheck "project" PNone NotTruthy;
      mkCheck "wikiIdentifier" PNone NotTruthy;
      mkCheck "pagePath" PNone NotTruthy];
   mkTool "wiki.py" "wiki_get_page_content"
     [mkCheck "project" PNone NotTruthy;
      mkCheck "wikiIdentifier" PNone NotTruthy;
      mkCheck "pagePath" PNone NotTruthy];
   mkTool "wiki.py" "wiki_create_or_update_page"
     [mkCheck "project" PNone NotTruthy;
      mkCheck "wikiIdentifier" PNone NotTruthy;
      mkCheck "pagePath" PNone NotTruthy;
      mkCheck "content" PNone NotTruthy];
   mkTool "test_plans.py" "testplan_list_test_plans"
     [mkCheck "project" PNone NotTruthy];
   mkTool "test_plans.py" "testplan_create_test_plan"
     [mkCheck "project" PNone NotTruthy;
      mkCheck "name" PNone NotTruthy;
      mkCheck "iteration" PNone NotTruthy];
   mkTool "test_plans.py" "testplan_create_test_suite"
     [mkCheck "project" PNone NotTruthy;
      mkCheck "planId" PNone NotTruthy;
      mkCheck "suiteName" PNone NotTruthy];
   mkTool "test_plans.py" "testplan_create_test_case"
     [mkCheck "project" PNone NotTruthy;
      mkCheck "title" PNone NotTruthy];
   mkTool "search.py" "search_code"
     [mkCheck "searchText" PNone NotTruthy];
   mkTool "search.py" "search_wiki"
     [mkCheck "searchText" PNone NotTruthy];
   mkTool "search.py" "search_workitem"
     [mkCheck "searchText" PNone NotTruthy];
   mkTool "advanced_security.py" "advsec_get_alerts"
     [mkCheck "project" PNone NotTruthy;
      mkCheck "repository" PNone NotTruthy];
   mkTool "advanced_security.py" "advsec_get_alert_details"
     [mkCheck "project" PNone NotTruthy;
      mkCheck "repository" PNone NotTruthy;
      mkCheck "alertId" PNone IsNone]].

Definition failed (arguments : gmap string pyval) (c : check) : bool :=
  let v := get_default arguments (arg c) (dflt c) in
  match kind c with
  | NotTruthy => negb (truthy v)
  | IsNone => is_none v
  end.

Definition required_error (argument_name : string) : list TextContent :=
  text_result ("Error: " +:+ argument_name +:+ " parameter is required").

(** The chain of [if ...: return [...]] statements: the first check that
    fails decides. *)
Fixpoint validate (arguments : gmap string pyval) (cs : list check)
  : option check :=
  match cs with
  | [] => None
  | c :: rest => if failed arguments c then Some c else validate arguments rest
  end.

Definition find_tool (n : string) : option tool :=
  List.find (λ t, String.eqb (tool_name t) n) tools.

Definition required_arguments (t : tool) : list string := map arg (checks t).

(** *** Effects of a tool operation *)

(** One entry of [ref_updates] as [repo_create_branch] builds it. *)
Record ref_update : Type := mkRefUpdate {
  name : string;
  oldObjectId : string;
  newObjectId : string
}.

(** A [GitRef] of the SDK, as far as the code reads it. *)
Record GitRef : Type := mkGitRef {
  ref_name : string;
  object_id : string
}.

(** The relation object inside a JSON-Patch operation. *)
Record relation : Type := mkRelation {
  rel : string;
  url : string
}.

Record patch_operation : Type := mkPatch {
  op : string;
  path : string;
  value : relation
}.

(** What an operation does to the outside, in order.  A call that raises
    is on the trace as well: it was made. *)
Inductive event : Type :=
  | AcquireToken
  | Connect (token org_url : string)
  | GetClient (client : string)
  | GetRefs (project repository_id : pyval) (filter : string)
  | UpdateRefs (ref_updates : list ref_update) (project repository_id : pyval)
  | UpdateWorkItem (document : list patch_operation) (id : pyval)
  | HttpPost (url : string) (json : pyval) (headers : list (string * string))
  | Remote (call : string).

(** A writer monad over the trace, with exceptions. *)
Definition T (A : Type) : Type := list event * result A.

Definition tret {A} (a : A) : T A := ([], Return a).

Definition tbind {A B} (c : T A) (k : A → T B) : T B :=
  match c with
  | (ev, Return a) => let '(ev', r) := k a in (ev ++ ev', r)
  | (ev, Raise e) => (ev, Raise e)
  end.

Notation "x <~ c ;; k" := (tbind c (λ x, k))
  (at level 100, c at next level, right associativity).

(** An outside call with its outcome, and a computation that can only
    raise. *)
Definition call {A} (e : event) (r : result A) : T A := ([e], r).
Definition lift {A} (r : result A) : T A := ([], r).

(** [try: c except Exception as e: return h e], at the top of an
    operation. *)
Definition except_Exception (c : T (list TextContent))
  (h : exn → list TextContent) : list TextContent * list event :=
  match c with
  | (ev, Return out) => (out, ev)
  | (ev, Raise e) => (h e, ev)
  end.

(** [try: c except AttributeError: return out], nested in an operation. *)
Definition except_AttributeError (c : T (list TextContent))
  (out : list TextContent) : T (list TextContent) :=
  match c with
  | (ev, Raise (mkExn AttributeErrorC _)) => (ev, Return out)
  | other => other
  end.

Section Operation.

(** What an operation does from its first statement after the checks. *)
Variable rest : tool → gmap string pyval → list TextContent * list event.

(** An operation: the checks, then the rest. *)
Definition run (t : tool) (arguments : gmap string pyval)
  : list TextContent * list event :=
  match validate arguments (checks t) with
  | Some c => (required_error (arg c), [])
  | None => rest t arguments
  end.

End Operation.

(** The default given to [arguments.get] never passes the check. *)
Definition default_fails (c : check) : bool :=
  match kind c with
  | NotTruthy => negb (truthy (dflt c))
  | IsNone => is_none (dflt c)
  end.

Lemma tools_default_fails t c : t ∈ tools → c ∈ checks t → default_fails c = true.
Proof.
  intros Ht Hc.
  assert (H : forallb (λ t, forallb default_fails (checks t)) tools = true)
    by reflexivity.
  rewrite forallb_forall in H. apply list_elem_of_In in Ht.
  specialize (H _ Ht). rewrite forallb_forall in H.
  apply H. by apply list_elem_of_In.
Qed.

Lemma absent_fails arguments c :
  default_fails c = true → arguments !! arg c = None → failed arguments c = true.
Proof.
  unfold failed, default_fails, get_default. by intros Hd ->.
Qed.

(** [validate] returns the first failing check. *)
Lemma validate_first arguments pre c post :
  Forall (λ c', failed arguments c' = false) pre →
  failed arguments c = true →
  validate arguments (pre ++ c :: post) = Some c.
Proof.
  induction 1 as [|c' pre Hc' _ IH]; intros Hf; cbn.
  - by rewrite Hf.
  - rewrite Hc'. by apply IH.
Qed.

Lemma validate_some_of_failed arguments cs a :
  a ∈ cs → failed arguments a = true →
  ∃ b, validate arguments cs = Some b ∧ b ∈ cs ∧ failed arguments b = true.
Proof.
  induction cs as [|c cs IH]; intros Ha Hf; [by apply elem_of_nil in Ha|].
  cbn. destruct (failed arguments c) eqn:Hc.
  - exists c. split; [done|]. split; [apply list_elem_of_here|done].
  - apply elem_of_cons in Ha as [->|Ha]; [congruence|].
    destruct (IH Ha Hf) as (b & Hv & Hb & Hfb).
    exists b. split; [done|]. split; [by apply list_elem_of_further|done].
Qed.

(** C2. For every tool operation of the nine modules and every argument
    it requires: if that argument is absent from the argument mapping, the
    operation returns exactly one text block
    ["Error: <name> parameter is required"], where <name> is a required
    argument of the operation that fails its check (the first one in the
    order of the code, so the absent argument itself when those checked
    before it pass), and nothing is on the trace: no token was acquired
    and no remote call made. *)
Theorem C2_missing_required_argument
  (rest : tool → gmap string pyval → list TextContent * list event)
  (t : tool) (a : check) (arguments : gmap string pyval) :
  t ∈ tools → a ∈ checks t → arguments !! arg a = None →
  ∃ b, b ∈ checks t
       ∧ failed arguments b = true
       ∧ run rest t arguments
         = ([mkTextContent "text"
               (Str ("Error: " +:+ arg b +:+ " parameter is required"))], [])
       ∧ (∀ pre post, checks t = pre ++ a :: post →
            Forall (λ c, failed arguments c = false) pre → b = a).
Proof.
  intros Ht Ha Habs.
  assert (Hf : failed arguments a = true).
  { apply absent_fails; [by eapply tools_default_fails|done]. }
  destruct (validate_some_of_failed _ _ _ Ha Hf) as (b & Hv & Hb & Hfb).
  exists b. split; [done|]. split; [done|]. split.
  - unfold run. by rewrite Hv.
  - intros pre post Hcs Hpre.
    rewrite Hcs, (validate_first _ _ _ _ Hpre Hf) in Hv. congruence.
Qed.

Example tools_count : length tools = 65.
Proof. reflexivity. Qed.

Example create_branch_required :
  required_arguments <$> find_tool "repo_create_branch"
  = Some ["project"; "repositoryId"; "branchName"].
Proof. reflexivity. Qed.

Lemma find_tool_elem n t : find_tool n = Some t → t ∈ tools.
Proof.
  unfold find_tool. intros H. apply find_some in H as [H _].
  by apply list_elem_of_In.
Qed.

(** [repo_create_branch] as listed in [tools], a call of it without
    [branchName], and a rest that would acquire a token. *)
Definition create_branch_tool : tool :=
  mkTool "repositories.py" "repo_create_branch"
    [mkCheck "project" PNone NotTruthy;
     mkCheck "repositoryId" PNone NotTruthy;
     mkCheck "branchName" PNone NotTruthy].

Definition branch_name_check : check := mkCheck "branchName" PNone NotTruthy.

Definition no_branch_name : gmap string pyval :=
  list_to_map [("project", PStr "Fabrikam"); ("repositoryId", PStr "web")].

Definition token_taking_rest (t : tool) (arguments : gmap string pyval)
  : list TextContent * list event :=
  (text_result "done", [AcquireToken; Remote (tool_name t)]).

(** A run of C2: the two arguments checked before [branchName] are there,
    so the message names [branchName]. *)
Lemma C2_missing_required_argument_witness :
  create_branch_tool ∈ tools
  ∧ branch_name_check ∈ checks create_branch_tool
  ∧ no_branch_name !! arg branch_name_check = None
  ∧ run token_taking_rest create_branch_tool no_branch_name
    = ([mkTextContent "text"
          (Str "Error: branchName parameter is required")], []).
Proof.
  assert (H1 : create_branch_tool ∈ tools)
    by (apply (find_tool_elem "repo_create_branch"); reflexivity).
  assert (H2 : branch_name_check ∈ checks create_branch_tool)
    by (do 2 apply list_elem_of_further; apply list_elem_of_here).
  assert (H3 : no_branch_name !! arg branch_name_check = None)
    by (vm_compute; reflexivity).
  destruct (C2_missing_required_argument token_taking_rest create_branch_tool
              branch_name_check no_branch_name H1 H2 H3)
    as (b & _ & _ & Hrun & Hfirst).
  assert (Hb : b = branch_name_check).
  { apply (Hfirst [mkCheck "project" PNone NotTruthy;
                   mkCheck "repositoryId" PNone NotTruthy] []);
      [reflexivity|].
    repeat constructor. }
  rewrite Hb in Hrun.
  split; [exact H1|]. split; [exact H2|]. split; [exact H3|]. exact Hrun.
Defined.

Example search_code_listed :
  find_tool "search_code"
  = Some (mkTool "search.py" "search_code"
            [mkCheck "searchText" PNone NotTruthy]).
Proof. reflexivity. Qed.

Example work_items_link_listed :
  find_tool "wit_work_items_link"
  = Some (mkTool "work_items.py" "wit_work_items_link"
            [mkCheck "sourceId" PNone NotTruthy;
             mkCheck "targetId" PNone NotTruthy]).
Proof. reflexivity. Qed.

Example link_to_pull_request_required :
  required_arguments <$> find_tool "wit_link_work_item_to_pull_request"
  = Some ["workItemId"; "pullRequestId"; "repositoryId"; "project"].
Proof. reflexivity. Qed.

(** *** Values that are there but falsy *)

Lemma validate_none arguments cs :
  Forall (λ c, failed arguments c = false) cs → validate arguments cs = None.
Proof.
  induction 1 as [|c cs Hc _ IH]; [done|]. cbn. by rewrite Hc.
Qed.

(** X13. A required argument that is present with a falsy value (an empty
    string, 0, [false], an empty list) is refused like an absent one: the
    operation returns one "parameter is required" text for a required
    argument and acquires no token; and when every check passes the
    operation goes on to its rest. *)
Theorem falsy_argument_refused
  (rest : tool → gmap string pyval → list TextContent * list event)
  (t : tool) (c : check) (arguments : gmap string pyval) (v : pyval) :
  c ∈ checks t → kind c = NotTruthy →
  arguments !! arg c = Some v → truthy v = false →
  (∃ b, b ∈ checks t ∧ run rest t arguments = (required_error (arg b), []))
  ∧ ∀ arguments', Forall (λ c', failed arguments' c' = false) (checks t) →
                  run rest t arguments' = rest t arguments'.
Proof.
  intros Hc Hk Hv Hf. split.
  - assert (Hfail : failed arguments c = true).
    { unfold failed, get_default. rewrite Hv, Hk.
      change (default (dflt c) (Some v)) with v. by rewrite Hf. }
    destruct (validate_some_of_failed _ _ _ Hc Hfail) as (b & Hb & Hin & _).
    exists b. split; [done|]. unfold run. by rewrite Hb.
  - intros arguments' Hall. unfold run.
    by rewrite (validate_none _ _ Hall).
Qed.

(** [pipelines_get_build_status] as listed in [tools], asked for build 0:
    the id is there, but [not 0] holds. *)
Definition build_status_tool : tool :=
  mkTool "pipelines.py" "pipelines_get_build_status"
    [mkCheck "project" PNone NotTruthy; mkCheck "buildId" PNone NotTruthy].

Definition build_zero : gmap string pyval :=
  list_to_map [("project", PStr "Fabrikam"); ("buildId", PInt 0)].

Lemma falsy_argument_refused_witness :
  find_tool "pipelines_get_build_status" = Some build_status_tool
  ∧ mkCheck "buildId" PNone NotTruthy ∈ checks build_status_tool
  ∧ build_zero !! "buildId" = Some (PInt 0)
  ∧ truthy (PInt 0) = false
  ∧ ∃ b, b ∈ checks build_status_tool
         ∧ run token_taking_rest build_status_tool build_zero
           = (required_error (arg b), []).
Proof.
  assert (H1 : mkCheck "buildId" PNone NotTruthy ∈ checks build_status_tool)
    by (apply list_elem_of_further, list_elem_of_here).
  assert (H2 : build_zero !! "buildId" = Some (PInt 0))
    by (vm_compute; reflexivity).
  assert (H3 : truthy (PInt 0) = false) by reflexivity.
  split; [reflexivity|]. split; [exact H1|]. split; [exact H2|].
  split; [exact H3|].
  exact (proj1 (falsy_argument_refused token_taking_rest build_status_tool
                  _ build_zero _ H1 eq_refl H2 H3)).
Defined.

(** *** tools/__init__.py: the registrar *)

(** The calls of [configure_if_domain_enabled], in the order of the
    code: the domain tested and the module whose tools get configured. *)
Definition registrations : list (Domains.Domain * string) :=
  [(Domains.CORE, "core.py");
   (Domains.WORK, "work.py");
   (Domains.PIPELINES, "pipelines.py");
   (Domains.REPOSITORIES, "repositories.py");
   (Domains.WORK_ITEMS, "work_items.py");
   (Domains.WIKI, "wiki.py");
   (Domains.TEST_PLANS, "test_plans.py");
   (Domains.SEARCH, "search.py");
   (Domains.ADVANCED_SECURITY, "advanced_security.py")].

(** [configure_all_tools]: the modules configured, in order. *)
Definition configure_all_tools (enabled_domains : gset string)
  : list (Domains.Domain * string) :=
  filter (λ r, Domains.value r.1 ∈ enabled_domains) registrations.

(** The tool functions that the configured modules define. *)
Definition configured_tools (enabled_domains : gset string) : list tool :=
  filter (λ t, source_file t ∈ (configure_all_tools enabled_domains).*2) tools.

Lemma registrations_cover d : ∃ f, (d, f) ∈ registrations.
Proof.
  destruct d; eexists; unfold registrations;
    repeat (first [apply list_elem_of_here | apply list_elem_of_further]).
Qed.

Lemma value_available d : Domains.value d ∈ Domains.get_available_domains.
Proof.
  destruct d; unfold Domains.get_available_domains; cbn;
    repeat (first [apply list_elem_of_here | apply list_elem_of_further]).
Qed.

Lemma available_value s :
  s ∈ Domains.get_available_domains → ∃ d, Domains.value d = s.
Proof.
  unfold Domains.get_available_domains.
  intros (d & -> & _)%list_elem_of_fmap. by exists d.
Qed.

(** X14. The registrar and the manager fit: whatever the manager was
    built from, a module is configured exactly when its domain is
    enabled, every enabled name has its module configured, and at least
    one module is. *)
Theorem registrar_matches_manager (i : Domains.domains_input) :
  let enabled := Domains.get_enabled_domains (Domains.new i) in
  (∀ d f, (d, f) ∈ configure_all_tools enabled
          ↔ (d, f) ∈ registrations
            ∧ Domains.is_domain_enabled (Domains.new i) (Domains.value d)
              = true)
  ∧ (∀ s, s ∈ enabled →
          ∃ d f, Domains.value d = s ∧ (d, f) ∈ configure_all_tools enabled)
  ∧ configure_all_tools enabled ≠ [].
Proof.
  intros enabled.
  assert (Hchar : ∀ d f, (d, f) ∈ configure_all_tools enabled
                  ↔ (d, f) ∈ registrations
                    ∧ Domains.is_domain_enabled (Domains.new i)
                        (Domains.value d) = true).
  { intros d f. unfold configure_all_tools, Domains.is_domain_enabled.
    rewrite list_elem_of_filter, bool_decide_eq_true. cbn. tauto. }
  assert (Hall : ∀ s, s ∈ enabled →
            ∃ d f, Domains.value d = s ∧ (d, f) ∈ configure_all_tools enabled).
  { intros s Hs. destruct (Domains.new_well_formed i) as [_ Hsub].
    pose proof (Hsub s Hs) as Hav.
    apply Domains.elem_of_all_domains_set, available_value in Hav as [d <-].
    destruct (registrations_cover d) as [f Hf]. exists d, f.
    split; [done|]. apply Hchar. split; [done|].
    unfold Domains.is_domain_enabled. by apply bool_decide_eq_true. }
  split; [exact Hchar|]. split; [exact Hall|].
  destruct (Domains.new_well_formed i) as [Hne _].
  intros Hnil. apply Hne. apply set_eq. intros s. split; [|set_solver].
  intros Hs. destruct (Hall s Hs) as (d & f & _ & Hin).
  rewrite Hnil in Hin. by apply elem_of_nil in Hin.
Qed.

Example configure_core_and_wiki :
  configure_all_tools
    (Domains.get_enabled_domains (Domains.new (Domains.InStr "wiki, Core")))
  = [(Domains.CORE, "core.py"); (Domains.WIKI, "wiki.py")]
  ∧ map tool_name
      (configured_tools
         (Domains.get_enabled_domains (Domains.new (Domains.InStr "search"))))
    = ["search_code"; "search_wiki"; "search_workitem"].
Proof. split; vm_compute; reflexivity. Qed.

End Tools.

(** ** tools/repositories.py: [repo_create_branch] *)

Module Repositories.
Import Py Tools.

(** The all-zero object id that asks for the creation of a ref. *)
Definition ZERO_OBJECT_ID : string := "0000000000000000000000000000000000000000".

(** [f"refs/heads/{b}" if not b.startswith("refs/") else b]; the method
    call raises on anything but a [str]. *)
Definition qualified_ref (b : pyval) : result string :=
  match b with
  | PStr s =>
      Return (if negb (PyStr.startswith "refs/" s) then "refs/heads/" +:+ s
              else s)
  | _ => Raise (no_attribute b "startswith")
  end.

(** [f"{v}"] for a value known to be a [str]. *)
Definition str_of (v : pyval) : string :=
  match v with PStr s => s | _ => "" end.

Section CreateBranch.

Variable org_url : string.

(** [token_provider()] *)
Variable token_provider : result string.

(** [connection.clients.get_git_client()], and the two methods of the
    client the operation calls, with what the SDK answers.  The reply of
    [update_refs] is kept as the value that gets serialised. *)
Variable get_git_client : result unit.
Variable get_refs : pyval → pyval → string → result (list GitRef).
Variable update_refs : list ref_update → pyval → pyval → result pyval.

(** The operation after its three checks. *)
Definition create_branch_rest (arguments : gmap string pyval)
  : list TextContent * list event :=
  let project := get arguments "project" in
  let repository_id := get arguments "repositoryId" in
  let branch_name := get arguments "branchName" in
  let source_branch := get_default arguments "sourceBranch" (PStr "main") in
  except_Exception
    (token <~ call AcquireToken token_provider ;;
     _ <~ call (Connect token org_url) (Return tt) ;;
     _ <~ call (GetClient "git") get_git_client ;;
     source_ref_name <~ lift (qualified_ref source_branch) ;;
     source_refs <~ call (GetRefs project repository_id source_ref_name)
                         (get_refs project repository_id source_ref_name) ;;
     match source_refs with
     | [] =>
         tret (text_result
                 ("Source branch '" +:+ str_of source_branch +:+ "' not found"))
     | first :: _ =>
         let source_object_id := object_id first in
         new_ref_name <~ lift (qualified_ref branch_name) ;;
         let ref_update :=
           mkRefUpdate new_ref_name ZERO_OBJECT_ID source_object_id in
         result <~ call (UpdateRefs [ref_update] project repository_id)
                        (update_refs [ref_update] project repository_id) ;;
         tret (json_result (PDict
           [("message", PStr ("Branch '" +:+ str_of branch_name
                              +:+ "' created successfully"));
            ("sourceBranch", source_branch);
            ("newBranch", branch_name);
            ("result", result)]))
     end)
    (λ e, text_result ("Error creating branch: " +:+ exn_msg e)).

(** [repo_create_branch(arguments)] *)
Definition repo_create_branch (arguments : gmap string pyval)
  : list TextContent * list event :=
  let project := get arguments "project" in
  let repository_id := get arguments "repositoryId" in
  let branch_name := get arguments "branchName" in
  if negb (truthy project) then
    (text_result "Error: project parameter is required", [])
  else if negb (truthy repository_id) then
    (text_result "Error: repositoryId parameter is required", [])
  else if negb (truthy branch_name) then
    (text_result "Error: branchName parameter is required", [])
  else create_branch_rest arguments.

(** The operation is an instance of the shared shape, with the checks of
    its entry in [tools]. *)
Lemma repo_create_branch_run arguments :
  repo_create_branch arguments
  = run (λ _, create_branch_rest)
        (mkTool "repositories.py" "repo_create_branch"
           [mkCheck "project" PNone NotTruthy;
            mkCheck "repositoryId" PNone NotTruthy;
            mkCheck "branchName" PNone NotTruthy])
        arguments.
Proof.
  unfold repo_create_branch, run, validate, failed, get, get_default,
    required_error. cbn.
  repeat match goal with
         | |- context [negb (truthy ?v)] => destruct (negb (truthy v))
         end; reflexivity.
Qed.

(** The branch the operation starts from, as a string. *)
Definition source_of (arguments : gmap string pyval) : pyval :=
  get_default arguments "sourceBranch" (PStr "main").

(** An invocation succeeded when it returned the serialised report rather
    than a text. *)
Definition succeeded (out : list TextContent) : Prop :=
  ∃ v, out = json_result v.

(** A successful run, taken apart: every step before the report went
    through. *)
Lemma create_branch_success arguments v evs :
  repo_create_branch arguments = (json_result v, evs) →
  ∃ token src first others new_ref reply,
    token_provider = Return token
    ∧ qualified_ref (source_of arguments) = Return src
    ∧ get_refs (get arguments "project") (get arguments "repositoryId") src
      = Return (first :: others)
    ∧ qualified_ref (get arguments "branchName") = Return new_ref
    ∧ evs = [AcquireToken; Connect token org_url; GetClient "git";
             GetRefs (get arguments "project") (get arguments "repositoryId")
                     src;
             UpdateRefs
               [mkRefUpdate new_ref ZERO_OBJECT_ID (object_id first)]
               (get arguments "project") (get arguments "repositoryId")]
    ∧ v = PDict
        [("message", PStr ("Branch '" +:+ str_of (get arguments "branchName")
                           +:+ "' created successfully"));
         ("sourceBranch", source_of arguments);
         ("newBranch", get arguments "branchName");
         ("result", reply)].
Proof.
  unfold repo_create_branch, text_result, json_result.
  destruct (negb (truthy (get arguments "project"))); [discriminate|].
  destruct (negb (truthy (get arguments "repositoryId"))); [discriminate|].
  destruct (negb (truthy (get arguments "branchName"))); [discriminate|].
  unfold create_branch_rest, source_of, except_Exception, tbind, call, lift,
    tret, text_result, json_result.
  destruct token_provider as [token|e]; [|discriminate].
  destruct get_git_client as [[]|e]; [|discriminate].
  destruct (qualified_ref (get_default arguments "sourceBranch" (PStr "main")))
    as [src|e] eqn:Hsrc; [|discriminate].
  destruct (get_refs _ _ src) as [[|first others]|e] eqn:Hrefs;
    [discriminate| |discriminate].
  destruct (qualified_ref (get arguments "branchName")) as [new_ref|e] eqn:Hnew;
    [|discriminate].
  destruct (update_refs _ _ _) as [reply|e]; [|discriminate].
  cbn. intros H. inversion H; subst.
  exists token, src, first, others, new_ref, reply. done.
Qed.

(** C7. With [sourceBranch] absent the source is ["main"] (the ref asked
    for is [refs/heads/main]); and every successful invocation sends the
    git client exactly one ref update whose [oldObjectId] is the string of
    forty zeros and whose [newObjectId] is the object id of the first ref
    found for the source, whatever the source branch is. *)
Theorem C7_create_branch_ref_update (arguments : gmap string pyval) :
  (arguments !! "sourceBranch" = None →
   source_of arguments = PStr "main"
   ∧ (succeeded (repo_create_branch arguments).1 →
      GetRefs (get arguments "project") (get arguments "repositoryId")
              "refs/heads/main"
      ∈ (repo_create_branch arguments).2))
  ∧ (succeeded (repo_create_branch arguments).1 →
     ∃ src first others new_ref,
       qualified_ref (source_of arguments) = Return src
       ∧ get_refs (get arguments "project") (get arguments "repositoryId") src
         = Return (first :: others)
       ∧ (∀ ups p r, UpdateRefs ups p r ∈ (repo_create_branch arguments).2 →
            ups = [mkRefUpdate new_ref ZERO_OBJECT_ID (object_id first)])
       ∧ UpdateRefs [mkRefUpdate new_ref ZERO_OBJECT_ID (object_id first)]
                    (get arguments "project") (get arguments "repositoryId")
         ∈ (repo_create_branch arguments).2)
  ∧ ZERO_OBJECT_ID = PyStr.join "" (replicate 40 "0")
  ∧ String.length ZERO_OBJECT_ID = 40.
Proof.
  assert (Hrun : ∀ v, (repo_create_branch arguments).1 = json_result v →
    ∃ token src first others new_ref reply,
      qualified_ref (source_of arguments) = Return src
      ∧ get_refs (get arguments "project") (get arguments "repositoryId") src
        = Return (first :: others)
      ∧ (repo_create_branch arguments).2
        = [AcquireToken; Connect token org_url; GetClient "git";
           GetRefs (get arguments "project") (get arguments "repositoryId")
                   src;
           UpdateRefs
             [mkRefUpdate new_ref ZERO_OBJECT_ID (object_id first)]
             (get arguments "project") (get arguments "repositoryId")]
      ∧ v = PDict
          [("message", PStr ("Branch '" +:+ str_of (get arguments "branchName")
                             +:+ "' created successfully"));
           ("sourceBranch", source_of arguments);
           ("newBranch", get arguments "branchName");
           ("result", reply)]).
  { intros v Hv.
    destruct (repo_create_branch arguments) as [out evs] eqn:Heq.
    cbn in Hv. subst out.
    destruct (create_branch_success _ _ _ Heq)
      as (token & src & first & others & new_ref & reply
          & _ & Hsrc & Hrefs & _ & Hevs & Hrep).
    by exists token, src, first, others, new_ref, reply. }
  split; [|split; [|split; reflexivity]].
  - intros Habs.
    assert (Hmain : source_of arguments = PStr "main").
    { unfold source_of, get_default. by rewrite Habs. }
    split; [done|]. intros [v Hv].
    destruct (Hrun v Hv) as (token & src & first & others & new_ref & reply
                             & Hsrc & _ & -> & _).
    rewrite Hmain in Hsrc. cbn in Hsrc. inversion Hsrc; subst src.
    do 3 apply list_elem_of_further. apply list_elem_of_here.
  - intros [v Hv].
    destruct (Hrun v Hv) as (token & src & first & others & new_ref & reply
                             & Hsrc & Hrefs & -> & _).
    exists src, first, others, new_ref.
    split; [done|]. split; [done|]. split.
    + intros ups p r Hin.
      repeat (apply elem_of_cons in Hin as [Hin|Hin]; [try discriminate|]).
      * by inversion Hin.
      * by apply elem_of_nil in Hin.
    + do 4 apply list_elem_of_further. apply list_elem_of_here.
Qed.

End CreateBranch.

(** A repository with a [main] branch, and a run in which every outside
    call goes through. *)
Definition refs_of_main (project repository_id : pyval) (filter : string)
  : result (list GitRef) :=
  if String.eqb filter "refs/heads/main"
  then Return [mkGitRef "refs/heads/main"
                        "8c1f3b0d5e2a4f6b9c7d1e0f2a3b4c5d6e7f8091"]
  else Return [].

Definition create_feature_arguments : gmap string pyval :=
  list_to_map [("project", PStr "Fabrikam"); ("repositoryId", PStr "web");
               ("branchName", PStr "feature/login")].

Definition create_feature_run : list TextContent * list event :=
  repo_create_branch "https://dev.azure.com/contoso" (Return "pat")
    (Return tt) refs_of_main (λ _ _ _, Return (PList []))
    create_feature_arguments.

Example create_feature_trace :
  create_feature_run.2
  = [AcquireToken; Connect "pat" "https://dev.azure.com/contoso";
     GetClient "git";
     GetRefs (PStr "Fabrikam") (PStr "web") "refs/heads/main";
     UpdateRefs
       [mkRefUpdate "refs/heads/feature/login"
          "0000000000000000000000000000000000000000"
          "8c1f3b0d5e2a4f6b9c7d1e0f2a3b4c5d6e7f8091"]
       (PStr "Fabrikam") (PStr "web")].
Proof. vm_compute. reflexivity. Qed.

(** A run of C7: a branch created without [sourceBranch]. *)
Lemma C7_create_branch_ref_update_witness :
  create_feature_arguments !! "sourceBranch" = None
  ∧ succeeded create_feature_run.1
  ∧ GetRefs (get create_feature_arguments "project")
            (get create_feature_arguments "repositoryId") "refs/heads/main"
    ∈ create_feature_run.2
  ∧ ∃ new_ref first,
      UpdateRefs [mkRefUpdate new_ref ZERO_OBJECT_ID (object_id first)]
                 (get create_feature_arguments "project")
                 (get create_feature_arguments "repositoryId")
      ∈ create_feature_run.2.
Proof.
  assert (H1 : create_feature_arguments !! "sourceBranch" = None)
    by (vm_compute; reflexivity).
  assert (H2 : succeeded create_feature_run.1)
    by (eexists; vm_compute; reflexivity).
  destruct (C7_create_branch_ref_update "https://dev.azure.com/contoso"
              (Return "pat") (Return tt) refs_of_main
              (λ _ _ _, Return (PList [])) create_feature_arguments)
    as (Hdefault & Hsent & _).
  destruct (Hdefault H1) as [_ Hmain].
  destruct (Hsent H2) as (src & first & others & new_ref & _ & _ & _ & Hin).
  split; [exact H1|]. split; [exact H2|]. split; [exact (Hmain H2)|].
  exists new_ref, first. exact Hin.
Defined.

(** *** Ref names, and the runs that create nothing *)

(** X15. The ref name built from a branch argument always starts with
    ["refs/"]; a name that already does is left as it is, so building
    twice changes nothing; and only a string has a ref name. *)
Theorem qualified_ref_prefixed (b : pyval) (r : string) :
  qualified_ref b = Return r →
  PyStr.startswith "refs/" r = true
  ∧ qualified_ref (PStr r) = Return r
  ∧ ∃ s, b = PStr s ∧ (PyStr.startswith "refs/" s = true → r = s).
Proof.
  destruct b as [| | | |s| |]; try (intros H; discriminate H).
  unfold qualified_ref.
  destruct (PyStr.startswith "refs/" s) eqn:Hs; cbn [negb]; intros [= <-].
  - rewrite Hs. cbn [negb]. split; [done|]. split; [done|]. by exists s.
  - split; [reflexivity|]. split; [reflexivity|]. exists s.
    split; [done|]. intros Hs'. congruence.
Qed.

Lemma qualified_ref_prefixed_witness :
  qualified_ref (PStr "feature/login") = Return "refs/heads/feature/login"
  ∧ qualified_ref (PStr "refs/heads/feature/login")
    = Return "refs/heads/feature/login".
Proof.
  assert (H : qualified_ref (PStr "feature/login")
              = Return "refs/heads/feature/login") by reflexivity.
  split; [exact H|].
  exact (proj1 (proj2 (qualified_ref_prefixed _ _ H))).
Defined.

Section CreateBranchFailures.

Variable org_url : string.
Variable token_provider : result string.
Variable get_git_client : result unit.
Variable get_refs : pyval → pyval → string → result (list GitRef).
Variable update_refs : list ref_update → pyval → pyval → result pyval.

Local Abbreviation create_branch :=
  (repo_create_branch org_url token_provider get_git_client get_refs
     update_refs).

(** X16. [repo_create_branch] asks the git client to update a ref only
    after the three required arguments passed, a token was there, and
    the lookup of the source ref returned at least one ref; it asks at
    most once.  When that lookup returns nothing, the answer names the
    source branch as not found and the repository is only read. *)
Theorem update_only_with_source (arguments : gmap string pyval) :
  (∀ ups p r, UpdateRefs ups p r ∈ (create_branch arguments).2 →
     ∃ token src first others new_ref,
       truthy (get arguments "project") = true
       ∧ truthy (get arguments "repositoryId") = true
       ∧ truthy (get arguments "branchName") = true
       ∧ p = get arguments "project"
       ∧ r = get arguments "repositoryId"
       ∧ qualified_ref (get arguments "branchName") = Return new_ref
       ∧ token_provider = Return token
       ∧ qualified_ref (source_of arguments) = Return src
       ∧ get_refs (get arguments "project") (get arguments "repositoryId") src
         = Return (first :: others)
       ∧ ups = [mkRefUpdate new_ref ZERO_OBJECT_ID (object_id first)]
       ∧ (create_branch arguments).2
         = [AcquireToken; Connect token org_url; GetClient "git";
            GetRefs (get arguments "project") (get arguments "repositoryId")
                    src;
            UpdateRefs ups p r])
  ∧ (∀ token src,
       truthy (get arguments "project") = true →
       truthy (get arguments "repositoryId") = true →
       truthy (get arguments "branchName") = true →
       token_provider = Return token → get_git_client = Return tt →
       qualified_ref (source_of arguments) = Return src →
       get_refs (get arguments "project") (get arguments "repositoryId") src
       = Return [] →
       create_branch arguments
       = (text_result ("Source branch '" +:+ str_of (source_of arguments)
                       +:+ "' not found"),
          [AcquireToken; Connect token org_url; GetClient "git";
           GetRefs (get arguments "project") (get arguments "repositoryId")
                   src])).
Proof.
  split.
  - intros ups p r. unfold repo_create_branch.
    destruct (truthy (get arguments "project")) eqn:Hp; cbn [negb];
      [|intros H; by apply elem_of_nil in H].
    destruct (truthy (get arguments "repositoryId")) eqn:Hr; cbn [negb];
      [|intros H; by apply elem_of_nil in H].
    destruct (truthy (get arguments "branchName")) eqn:Hb; cbn [negb];
      [|intros H; by apply elem_of_nil in H].
    unfold create_branch_rest, source_of, except_Exception, tbind, call, lift,
      tret.
    destruct token_provider as [token|e]; cbn.
    2: { intros H. set_solver. }
    destruct get_git_client as [[]|e]; cbn.
    2: { intros H. set_solver. }
    destruct (qualified_ref (get_default arguments "sourceBranch"
                               (PStr "main"))) as [src|e] eqn:Hsrc; cbn.
    2: { intros H. set_solver. }
    destruct (get_refs _ _ src) as [[|first others]|e] eqn:Hrefs; cbn.
    1,3: intros H; set_solver.
    destruct (qualified_ref (get arguments "branchName")) as [new_ref|e]
      eqn:Hnew; cbn.
    2: { intros H. set_solver. }
    intros H.
    assert (Hups : ups = [mkRefUpdate new_ref ZERO_OBJECT_ID (object_id first)]
                   ∧ p = get arguments "project"
                   ∧ r = get arguments "repositoryId").
    { destruct (update_refs _ _ _); cbn in H;
        repeat (apply elem_of_cons in H as [H|H]; [try discriminate|]);
        try (by apply elem_of_nil in H); by inversion H. }
    destruct Hups as (-> & -> & ->).
    exists token, src, first, others, new_ref.
    do 6 (split; [done|]).
    split; [done|]. split; [done|]. split; [done|]. split; [done|].
    by destruct (update_refs _ _ _).
  - intros token src Hp Hr Hb Htok Hcli Hsrc Hrefs.
    unfold repo_create_branch. rewrite Hp, Hr, Hb. cbn [negb].
    unfold create_branch_rest, except_Exception, tbind, call, lift, tret.
    rewrite Htok, Hcli. unfold source_of in *. rewrite Hsrc, Hrefs.
    reflexivity.
Qed.

End CreateBranchFailures.

(** A repository in which no ref matches. *)
Definition no_refs (project repository_id : pyval) (filter : string)
  : result (list GitRef) := Return [].

Definition create_from_release : gmap string pyval :=
  list_to_map [("project", PStr "Fabrikam"); ("repositoryId", PStr "web");
               ("branchName", PStr "hotfix"); ("sourceBranch", PStr "release")].

Lemma update_only_with_source_witness :
  truthy (get create_from_release "project") = true
  ∧ truthy (get create_from_release "repositoryId") = true
  ∧ truthy (get create_from_release "branchName") = true
  ∧ qualified_ref (source_of create_from_release)
    = Return "refs/heads/release"
  ∧ repo_create_branch "https://dev.azure.com/contoso" (Return "pat")
      (Return tt) no_refs (λ _ _ _, Return (PList [])) create_from_release
    = (text_result "Source branch 'release' not found",
       [AcquireToken; Connect "pat" "https://dev.azure.com/contoso";
        GetClient "git";
        GetRefs (PStr "Fabrikam") (PStr "web") "refs/heads/release"]).
Proof.
  assert (H1 : truthy (get create_from_release "project") = true)
    by (vm_compute; reflexivity).
  assert (H2 : truthy (get create_from_release "repositoryId") = true)
    by (vm_compute; reflexivity).
  assert (H3 : truthy (get create_from_release "branchName") = true)
    by (vm_compute; reflexivity).
  assert (H4 : qualified_ref (source_of create_from_release)
               = Return "refs/heads/release") by (vm_compute; reflexivity).
  split; [exact H1|]. split; [exact H2|]. split; [exact H3|].
  split; [exact H4|].
  exact (proj2 (update_only_with_source "https://dev.azure.com/contoso"
                  (Return "pat") (Return tt) no_refs
                  (λ _ _ _, Return (PList [])) create_from_release)
               "pat" "refs/heads/release" H1 H2 H3 eq_refl eq_refl H4 eq_refl).
Defined.

End Repositories.

(** ** tools/work_items.py: link types and [wit_work_items_link] *)

Module WorkItems.
Import Py Tools.

(** The dict literal of [get_link_type_from_name]. *)
Definition link_types : gmap string string :=
  list_to_map
    [("parent", "System.LinkTypes.Hierarchy-Reverse");
     ("child", "System.LinkTypes.Hierarchy-Forward");
     ("duplicate", "System.LinkTypes.Duplicate-Forward");
     ("duplicate of", "System.LinkTypes.Duplicate-Reverse");
     ("related", "System.LinkTypes.Related");
     ("successor", "System.LinkTypes.Dependency-Forward");
     ("predecessor", "System.LinkTypes.Dependency-Reverse");
     ("tested by", "Microsoft.VSTS.Common.TestedBy-Forward");
     ("tests", "Microsoft.VSTS.Common.TestedBy-Reverse");
     ("affects", "Microsoft.VSTS.Common.Affects-Forward");
     ("affected by", "Microsoft.VSTS.Common.Affects-Reverse");
     ("artifact", "ArtifactLink")].

(** [link_types.get(name.lower(), name)] *)
Definition get_link_type_from_name (name : string) : string :=
  default name (link_types !! PyStr.lower name).

(** The same on an argument value: [name.lower()] raises on anything but
    a [str]. *)
Definition link_type_of (link_type : pyval) : result string :=
  match link_type with
  | PStr s => Return (get_link_type_from_name s)
  | v => Raise (no_attribute v "lower")
  end.

Example link_related : get_link_type_from_name "related" = "System.LinkTypes.Related".
Proof. reflexivity. Qed.

Example link_tested_by_upper :
  get_link_type_from_name "Tested By" = "Microsoft.VSTS.Common.TestedBy-Forward".
Proof. reflexivity. Qed.

Example link_unknown : get_link_type_from_name "Blocks" = "Blocks".
Proof. reflexivity. Qed.

Section Link.

Variable org_url : string.
Variable token_provider : result string.

(** [connection.clients.get_work_item_tracking_client()] and the method
    of the client that is called; its reply is kept as the value that
    gets serialised. *)
Variable get_work_item_tracking_client : result unit.
Variable update_work_item : list patch_operation → pyval → result pyval.

(** [f"{v}"] for the compound values and floats, whose [repr] is left to
    the interpreter. *)
Variable repr : pyval → string.

(** [f"{v}"] *)
Definition format (v : pyval) : string :=
  match v with
  | PStr s => s
  | PInt z => PyStr.of_int z
  | PBool b => if b then "True" else "False"
  | PNone => "None"
  | other => repr other
  end.

Definition link_patch (rel target_id_text : string) : list patch_operation :=
  [mkPatch "add" "/relations/-"
     (mkRelation rel (org_url +:+ "/_apis/wit/workItems/" +:+ target_id_text))].

(** The operation after its two checks. *)
Definition link_rest (arguments : gmap string pyval)
  : list TextContent * list event :=
  let source_id := get arguments "sourceId" in
  let target_id := get arguments "targetId" in
  let link_type := get_default arguments "linkType" (PStr "related") in
  except_Exception
    (token <~ call AcquireToken token_provider ;;
     _ <~ call (Connect token org_url) (Return tt) ;;
     except_AttributeError
       (_ <~ call (GetClient "work_item_tracking")
                  get_work_item_tracking_client ;;
        rel <~ lift (link_type_of link_type) ;;
        let patch := link_patch rel (format target_id) in
        updated_work_item <~ call (UpdateWorkItem patch source_id)
                                  (update_work_item patch source_id) ;;
        tret (json_result updated_work_item))
       (json_result (PDict
          [("message", PStr "Work items linking requested");
           ("sourceId", source_id);
           ("targetId", target_id);
           ("linkType", link_type);
           ("note", PStr ("Work Item Tracking API requires additional "
                          +:+ "Azure DevOps SDK configuration"))])))
    (λ e, text_result ("Error linking work items: " +:+ exn_msg e)).

(** [wit_work_items_link(arguments)] *)
Definition wit_work_items_link (arguments : gmap string pyval)
  : list TextContent * list event :=
  let source_id := get arguments "sourceId" in
  let target_id := get arguments "targetId" in
  if negb (truthy source_id) then
    (text_result "Error: sourceId parameter is required", [])
  else if negb (truthy target_id) then
    (text_result "Error: targetId parameter is required", [])
  else link_rest arguments.

Lemma wit_work_items_link_run arguments :
  wit_work_items_link arguments
  = run (λ _, link_rest)
        (mkTool "work_items.py" "wit_work_items_link"
           [mkCheck "sourceId" PNone NotTruthy;
            mkCheck "targetId" PNone NotTruthy])
        arguments.
Proof.
  unfold wit_work_items_link, run, validate, failed, get, get_default,
    required_error. cbn.
  repeat match goal with
         | |- context [negb (truthy ?v)] => destruct (negb (truthy v))
         end; reflexivity.
Qed.



End Link.






(** *** The relation types *)

(** The entries of the dict literal, in its order. *)
Definition link_type_table : list (string * string) :=
  [("parent", "System.LinkTypes.Hierarchy-Reverse");
   ("child", "System.LinkTypes.Hierarchy-Forward");
   ("duplicate", "System.LinkTypes.Duplicate-Forward");
   ("duplicate of", "System.LinkTypes.Duplicate-Reverse");
   ("related", "System.LinkTypes.Related");
   ("successor", "System.LinkTypes.Dependency-Forward");
   ("predecessor", "System.LinkTypes.Dependency-Reverse");
   ("tested by", "Microsoft.VSTS.Common.TestedBy-Forward");
   ("tests", "Microsoft.VSTS.Common.TestedBy-Reverse");
   ("affects", "Microsoft.VSTS.Common.Affects-Forward");
   ("affected by", "Microsoft.VSTS.Common.Affects-Reverse");
   ("artifact", "ArtifactLink")].

Lemma link_types_table : link_types = list_to_map link_type_table.
Proof. reflexivity. Qed.

Lemma link_type_value_fixed k t :
  (k, t) ∈ link_type_table → get_link_type_from_name t = t.
Proof.
  unfold link_type_table. intros H.
  repeat (apply elem_of_cons in H as [H|H];
          [injection H as -> ->; vm_compute; reflexivity|]).
  by apply elem_of_nil in H.
Qed.

(** X17. A relation type of the table is not itself a link name: what
    [get_link_type_from_name] returns, it returns unchanged when given it
    again, so a caller may pass a link name or the relation type. *)
Theorem get_link_type_from_name_idempotent (name : string) :
  get_link_type_from_name (get_link_type_from_name name)
  = get_link_type_from_name name.
Proof.
  unfold get_link_type_from_name at 2 3.
  destruct (link_types !! PyStr.lower name) as [t|] eqn:Hl; cbn [default].
  - rewrite link_types_table in Hl.
    apply elem_of_list_to_map_2 in Hl. by eapply link_type_value_fixed.
  - unfold get_link_type_from_name. by rewrite Hl.
Qed.

(** *** wit_add_child_work_items *)

(** [for x in v]: the elements of a list, the characters of a string, the
    keys of a dict (a [PDict] holds the items of a dict, so its keys are
    distinct); anything else is not iterable. *)
Definition iterate (v : pyval) : result (list pyval) :=
  match v with
  | PList l => Return l
  | PStr s => Return (map (λ c, PStr (String c EmptyString))
                          (list_ascii_of_string s))
  | PDict d => Return (map (λ kv, PStr kv.1) d)
  | other => Raise (mkExn TypeErrorC
                      ("'" +:+ type_name other +:+ "' object is not iterable"))
  end.

Section AddChildren.

Variable org_url : string.
Variable token_provider : result string.
Variable get_work_item_tracking_client : result unit.
Variable update_work_item : list patch_operation → pyval → result pyval.
Variable repr : pyval → string.

(** The loop that appends one operation per child. *)
Fixpoint child_patches (child_ids : list pyval) : list patch_operation :=
  match child_ids with
  | [] => []
  | child_id :: rest =>
      mkPatch "add" "/relations/-"
        (mkRelation "System.LinkTypes.Hierarchy-Forward"
           (org_url +:+ "/_apis/wit/workItems/" +:+ format repr child_id))
      :: child_patches rest
  end.

(** The operation after its two checks. *)
Definition add_child_rest (arguments : gmap string pyval)
  : list TextContent * list event :=
  let parent_id := get arguments "parentId" in
  let child_ids := get_default arguments "childIds" (PList []) in
  except_Exception
    (token <~ call AcquireToken token_provider ;;
     _ <~ call (Connect token org_url) (Return tt) ;;
     except_AttributeError
       (_ <~ call (GetClient "work_item_tracking")
                  get_work_item_tracking_client ;;
        children <~ lift (iterate child_ids) ;;
        let patches := child_patches children in
        updated_work_item <~ call (UpdateWorkItem patches parent_id)
                                  (update_work_item patches parent_id) ;;
        tret (json_result updated_work_item))
       (json_result (PDict
          [("message", PStr "Child work items addition requested");
           ("parentId", parent_id);
           ("childIds", child_ids);
           ("note", PStr ("Work Item Tracking API requires additional "
                          +:+ "Azure DevOps SDK configuration"))])))
    (λ e, text_result ("Error adding child work items: " +:+ exn_msg e)).

(** [wit_add_child_work_items(arguments)] *)
Definition wit_add_child_work_items (arguments : gmap string pyval)
  : list TextContent * list event :=
  let parent_id := get arguments "parentId" in
  let child_ids := get_default arguments "childIds" (PList []) in
  if negb (truthy parent_id) then
    (text_result "Error: parentId parameter is required", [])
  else if negb (truthy child_ids) then
    (text_result "Error: childIds parameter is required", [])
  else add_child_rest arguments.

Lemma child_patches_links children :
  child_patches children
  = flat_map (λ child_id,
                link_patch org_url (get_link_type_from_name "child")
                           (format repr child_id))
             children.
Proof.
  induction children as [|c cs IH]; [done|].
  cbn [child_patches flat_map]. by rewrite IH.
Qed.

Lemma iterate_truthy v children :
  truthy v = true → iterate v = Return children → children ≠ [].
Proof.
  destruct v as [| | | |s|l|d]; cbn; try discriminate.
  - destruct s; [discriminate|]. intros _ H. injection H as <-. done.
  - destruct l; [discriminate|]. intros _ H. injection H as <-. done.
  - destruct d; [discriminate|]. intros _ H. injection H as <-. done.
Qed.

(** X18. Whatever [wit_add_child_work_items] sends to [update_work_item],
    it is sent for the parent, [childIds] could be iterated and was not
    empty, and the document is, child by child and in their order, the
    one operation that [wit_work_items_link] builds for the link name
    ["child"]. *)
Theorem add_children_document (arguments : gmap string pyval)
  (document : list patch_operation) (id : pyval) :
  UpdateWorkItem document id ∈ (wit_add_child_work_items arguments).2 →
  ∃ children,
    iterate (get_default arguments "childIds" (PList [])) = Return children
    ∧ children ≠ []
    ∧ document
      = flat_map (λ child_id,
                    link_patch org_url (get_link_type_from_name "child")
                               (format repr child_id))
                 children
    ∧ length document = length children
    ∧ id = get arguments "parentId".
Proof.
  unfold wit_add_child_work_items.
  destruct (negb (truthy (get arguments "parentId")));
    [intros H; by apply elem_of_nil in H|].
  destruct (truthy (get_default arguments "childIds" (PList []))) eqn:Ht;
    cbn [negb]; [|intros H; by apply elem_of_nil in H].
  unfold add_child_rest, except_Exception, except_AttributeError, tbind,
    call, lift, tret.
  destruct token_provider as [token|e]; cbn.
  2: { intros H. set_solver. }
  destruct get_work_item_tracking_client as [[]|[[] m]]; cbn;
    try (intros H; set_solver).
  destruct (iterate (get_default arguments "childIds" (PList [])))
    as [children|[[] m]] eqn:Hi; cbn; try (intros H; set_solver).
  intros H. exists children. split; [done|].
  split; [by eapply iterate_truthy|].
  assert (Hd : document = child_patches children ∧ id = get arguments "parentId").
  { destruct (update_work_item _ _) as [u|[[] m]]; cbn in H;
      repeat (apply elem_of_cons in H as [H|H]; [try discriminate|]);
      try (by apply elem_of_nil in H); by inversion H. }
  destruct Hd as [-> ->]. split; [apply child_patches_links|].
  split; [|done].
  clear. induction children as [|c cs IH]; [done|]. cbn. by rewrite IH.
Qed.

(** X19. When [childIds] is truthy but cannot be iterated, the operation
    has asked for the client and then answers with the interpreter's
    message; nothing is sent to [update_work_item]. *)
Theorem add_children_not_iterable (arguments : gmap string pyval)
  (token : string) (e : exn) :
  truthy (get arguments "parentId") = true →
  truthy (get_default arguments "childIds" (PList [])) = true →
  iterate (get_default arguments "childIds" (PList [])) = Raise e →
  token_provider = Return token →
  get_work_item_tracking_client = Return tt →
  wit_add_child_work_items arguments
  = (text_result ("Error adding child work items: '"
                  +:+ type_name (get_default arguments "childIds" (PList []))
                  +:+ "' object is not iterable"),
     [AcquireToken; Connect token org_url; GetClient "work_item_tracking"]).
Proof.
  intros Hp Hc Hi Ht Hg. unfold wit_add_child_work_items.
  rewrite Hp, Hc. cbn [negb].
  unfold add_child_rest, except_Exception, except_AttributeError, tbind,
    call, lift, tret.
  rewrite Ht, Hg. cbn.
  destruct (get_default arguments "childIds" (PList [])) as [| | | |s|l|d];
    cbn in *; try discriminate; reflexivity.
Qed.

End AddChildren.

Definition add_children_arguments : gmap string pyval :=
  list_to_map [("parentId", PInt 7);
               ("childIds", PList [PInt 12; PStr "13"])].

Definition add_children_run : list TextContent * list event :=
  wit_add_child_work_items "https://dev.azure.com/contoso" (Return "pat")
    (Return tt) (λ _ _, Return (PDict [("id", PInt 7)])) (λ _, "")
    add_children_arguments.

Example add_children_trace :
  add_children_run.2
  = [AcquireToken; Connect "pat" "https://dev.azure.com/contoso";
     GetClient "work_item_tracking";
     UpdateWorkItem
       [mkPatch "add" "/relations/-"
          (mkRelation "System.LinkTypes.Hierarchy-Forward"
             "https://dev.azure.com/contoso/_apis/wit/workItems/12");
        mkPatch "add" "/relations/-"
          (mkRelation "System.LinkTypes.Hierarchy-Forward"
             "https://dev.azure.com/contoso/_apis/wit/workItems/13")]
       (PInt 7)].
Proof. vm_compute. reflexivity. Qed.

(** A run of X18: 12 and 13 become children of 7. *)
Lemma add_children_document_witness :
  ∃ document id,
    UpdateWorkItem document id ∈ add_children_run.2
    ∧ length document = 2
    ∧ id = PInt 7.
Proof.
  eexists _, _.
  assert (Hin : UpdateWorkItem
       [mkPatch "add" "/relations/-"
          (mkRelation "System.LinkTypes.Hierarchy-Forward"
             "https://dev.azure.com/contoso/_apis/wit/workItems/12");
        mkPatch "add" "/relations/-"
          (mkRelation "System.LinkTypes.Hierarchy-Forward"
             "https://dev.azure.com/contoso/_apis/wit/workItems/13")]
       (PInt 7) ∈ add_children_run.2).
  { rewrite add_children_trace.
    do 3 apply list_elem_of_further. apply list_elem_of_here. }
  destruct (add_children_document _ _ _ _ _ _ _ _ Hin)
    as (children & _ & _ & _ & _ & Hid).
  split; [exact Hin|]. split; [reflexivity|exact Hid].
Defined.

Definition add_children_to_number : gmap string pyval :=
  list_to_map [("parentId", PInt 7); ("childIds", PInt 12)].

(** A run of X19: [childIds] given as the number 12. *)
Lemma add_children_not_iterable_witness :
  wit_add_child_work_items "https://dev.azure.com/contoso" (Return "pat")
    (Return tt) (λ _ _, Return PNone) (λ _, "") add_children_to_number
  = (text_result "Error adding child work items: 'int' object is not iterable",
     [AcquireToken; Connect "pat" "https://dev.azure.com/contoso";
      GetClient "work_item_tracking"]).
Proof.
  assert (Hp : truthy (get add_children_to_number "parentId") = true)
    by reflexivity.
  assert (Hc : truthy (get_default add_children_to_number "childIds"
                         (PList [])) = true) by reflexivity.
  assert (Hi : iterate (get_default add_children_to_number "childIds"
                          (PList []))
               = Raise (mkExn TypeErrorC "'int' object is not iterable"))
    by reflexivity.
  exact (add_children_not_iterable "https://dev.azure.com/contoso"
           (Return "pat") (Return tt) (λ _ _, Return PNone) (λ _, "")
           add_children_to_number "pat" _ Hp Hc Hi eq_refl eq_refl).
Defined.

(** *** wit_work_item_unlink *)

(** The [remove] operation of a JSON-Patch document: it has no value. *)
Record remove_operation : Type := mkRemove {
  remove_op : string;
  remove_path : string
}.

(** The work item the SDK returns, as far as the code reads it: [None]
    when it has no [relations] attribute or the attribute is [None]. *)
Record work_item : Type := mkWorkItem {
  relations : option (list relation)
}.

(** What the operation does to the outside: the calls of the other
    operations, and its two own. *)
Inductive wit_call : Type :=
  | Call (e : event)
  | GetWorkItem (id : pyval) (expand : string)
  | UpdateWorkItemRemove (document : list remove_operation) (id : pyval).

(** The writer monad of the operations, over these calls. *)
Definition W (A : Type) : Type := list wit_call * result A.

Definition wret {A} (a : A) : W A := ([], Return a).

Definition wbind {A B} (c : W A) (k : A → W B) : W B :=
  match c with
  | (ev, Return a) => let '(ev', r) := k a in (ev ++ ev', r)
  | (ev, Raise e) => (ev, Raise e)
  end.

Notation "x <~~ c ;; k" := (wbind c (λ x, k))
  (at level 100, c at next level, right associativity).

Definition wcall {A} (e : wit_call) (r : result A) : W A := ([e], r).
Definition wlift {A} (r : result A) : W A := ([], r).

Definition wexcept_Exception (c : W (list TextContent))
  (h : exn → list TextContent) : list TextContent * list wit_call :=
  match c with
  | (ev, Return out) => (out, ev)
  | (ev, Raise e) => (h e, ev)
  end.

Definition wexcept_AttributeError (c : W (list TextContent))
  (out : list TextContent) : W (list TextContent) :=
  match c with
  | (ev, Raise (mkExn AttributeErrorC _)) => (ev, Return out)
  | other => other
  end.

(** The loop over [enumerate(work_item.relations)] from index [i] on:
    the index it breaks at, or [None] for the [-1] it starts with.  The
    link type is resolved only for a relation with the target's URL. *)
Fixpoint find_relation (target_url : string) (link_type : pyval)
  (rs : list relation) (i : nat) : result (option nat) :=
  match rs with
  | [] => Return None
  | relation :: rest =>
      if String.eqb (url relation) target_url then
        bind (link_type_of link_type) (λ wanted,
          if String.eqb (rel relation) wanted then Return (Some i)
          else find_relation target_url link_type rest (S i))
      else find_relation target_url link_type rest (S i)
  end.

Section Unlink.

Variable org_url : string.
Variable token_provider : result string.
Variable get_work_item_tracking_client : result unit.
Variable get_work_item : pyval → string → result work_item.
Variable update_work_item : list remove_operation → pyval → result pyval.
Variable repr : pyval → string.

Definition target_url_of (target_id : pyval) : string :=
  org_url +:+ "/_apis/wit/workItems/" +:+ format repr target_id.

Definition remove_patch (relation_index : nat) : list remove_operation :=
  [mkRemove "remove"
     ("/relations/" +:+ PyStr.of_int (Z.of_nat relation_index))].

(** The operation after its two checks. *)
Definition unlink_rest (arguments : gmap string pyval)
  : list TextContent * list wit_call :=
  let source_id := get arguments "sourceId" in
  let target_id := get arguments "targetId" in
  let link_type := get_default arguments "linkType" (PStr "related") in
  wexcept_Exception
    (token <~~ wcall (Call AcquireToken) token_provider ;;
     _ <~~ wcall (Call (Connect token org_url)) (Return tt) ;;
     wexcept_AttributeError
       (_ <~~ wcall (Call (GetClient "work_item_tracking"))
                    get_work_item_tracking_client ;;
        work_item <~~ wcall (GetWorkItem source_id "relations")
                            (get_work_item source_id "relations") ;;
        match relations work_item with
        | Some (r :: rs) =>
            relation_index <~~
              wlift (find_relation (target_url_of target_id) link_type
                                   (r :: rs) 0) ;;
            match relation_index with
            | Some i =>
                let patch := remove_patch i in
                updated_work_item <~~
                  wcall (UpdateWorkItemRemove patch source_id)
                        (update_work_item patch source_id) ;;
                wret (json_result updated_work_item)
            | None =>
                wret (text_result
                        "Link not found between the specified work items")
            end
        | _ => wret (text_result "No relations found on the source work item")
        end)
       (json_result (PDict
          [("message", PStr "Work items unlinking requested");
           ("sourceId", source_id);
           ("targetId", target_id);
           ("linkType", link_type);
           ("note", PStr ("Work Item Tracking API requires additional "
                          +:+ "Azure DevOps SDK configuration"))])))
    (λ e, text_result ("Error unlinking work items: " +:+ exn_msg e)).

(** [wit_work_item_unlink(arguments)] *)
Definition wit_work_item_unlink (arguments : gmap string pyval)
  : list TextContent * list wit_call :=
  let source_id := get arguments "sourceId" in
  let target_id := get arguments "targetId" in
  if negb (truthy source_id) then
    (text_result "Error: sourceId parameter is required", [])
  else if negb (truthy target_id) then
    (text_result "Error: targetId parameter is required", [])
  else unlink_rest arguments.

(** A relation is the one looked for. *)
Definition matches (target_url wanted : string) (r : relation) : bool :=
  String.eqb (url r) target_url && String.eqb (rel r) wanted.

Lemma find_relation_some target_url link_type rs i k :
  find_relation target_url link_type rs i = Return (Some k) →
  ∃ s j r,
    link_type = PStr s ∧ k = i + j ∧ rs !! j = Some r
    ∧ matches target_url (get_link_type_from_name s) r = true
    ∧ ∀ j' r', j' < j → rs !! j' = Some r' →
               matches target_url (get_link_type_from_name s) r' = false.
Proof.
  revert i. induction rs as [|r rs IH]; intros i; cbn [find_relation].
  { discriminate. }
  assert (Hrest : find_relation target_url link_type rs (S i) = Return (Some k) →
                  matches target_url
                    match link_type with
                    | PStr s => get_link_type_from_name s
                    | _ => EmptyString
                    end r = false →
                  ∃ s j r0,
                    link_type = PStr s ∧ k = i + j ∧ (r :: rs) !! j = Some r0
                    ∧ matches target_url (get_link_type_from_name s) r0 = true
                    ∧ ∀ j' r', j' < j → (r :: rs) !! j' = Some r' →
                        matches target_url (get_link_type_from_name s) r'
                        = false).
  { intros H Hno. destruct (IH _ H) as (s & j & r0 & -> & -> & Hj & Hm & Hfirst).
    exists s, (S j), r0. split; [done|]. split; [lia|]. split; [done|].
    split; [done|]. intros [|j'] r' Hlt Hr'.
    - cbn in Hr'. injection Hr' as <-. exact Hno.
    - apply (Hfirst j' r'); [lia|done]. }
  destruct (String.eqb (url r) target_url) eqn:Hu.
  - destruct link_type as [| | | |s| |]; cbn [link_type_of bind];
      try discriminate.
    destruct (String.eqb (rel r) (get_link_type_from_name s)) eqn:Hr.
    + intros H. injection H as <-. exists s, 0, r.
      split; [done|]. split; [lia|]. split; [done|]. split.
      * unfold matches. by rewrite Hu, Hr.
      * intros j' r' Hlt. lia.
    + intros H. apply Hrest; [done|]. unfold matches. by rewrite Hu, Hr.
  - intros H. apply Hrest; [done|]. unfold matches. by rewrite Hu.
Qed.

Lemma find_relation_match target_url s rs i r :
  r ∈ rs → matches target_url (get_link_type_from_name s) r = true →
  ∃ j, find_relation target_url (PStr s) rs i = Return (Some (i + j))
       ∧ rs !! j = Some r.
Proof.
  intros Hin Hm. revert i.
  induction rs as [|r0 rs IH]; intros i; [by apply elem_of_nil in Hin|].
  cbn [find_relation link_type_of bind].
  destruct (matches target_url (get_link_type_from_name s) r0) eqn:Hm0.
  - unfold matches in Hm0, Hm.
    apply andb_true_iff in Hm0 as [Hu0 Hr0].
    apply andb_true_iff in Hm as [Hu Hr].
    rewrite Hu0, Hr0. exists 0. split; [f_equal; f_equal; lia|].
    cbn. f_equal.
    apply String.eqb_eq in Hu0, Hr0, Hu, Hr.
    destruct r0, r; cbn in *; congruence.
  - apply elem_of_cons in Hin as [->|Hin]; [congruence|].
    destruct (IH Hin (S i)) as (j & Hj & Hl).
    exists (S j). split; [|done].
    replace (i + S j) with (S i + j) by lia.
    unfold matches in Hm0.
    destruct (String.eqb (url r0) target_url); [|done].
    cbn in Hm0. by rewrite Hm0.
Qed.

(** X20. Whatever [wit_work_item_unlink] sends to [update_work_item], it
    is sent for the source: one [remove] of [/relations/i], where [i] is
    the first index, in the relations that [get_work_item] returned for
    the source, of a relation with the target's URL and the relation type
    of the link name. *)
Theorem unlink_removes_first_match (arguments : gmap string pyval)
  (document : list remove_operation) (id : pyval) :
  UpdateWorkItemRemove document id ∈ (wit_work_item_unlink arguments).2 →
  ∃ s item rs i r,
    get_default arguments "linkType" (PStr "related") = PStr s
    ∧ get_work_item (get arguments "sourceId") "relations" = Return item
    ∧ relations item = Some rs
    ∧ rs !! i = Some r
    ∧ url r = target_url_of (get arguments "targetId")
    ∧ rel r = get_link_type_from_name s
    ∧ (∀ j r', j < i → rs !! j = Some r' →
               ¬ (url r' = target_url_of (get arguments "targetId")
                  ∧ rel r' = get_link_type_from_name s))
    ∧ document = [mkRemove "remove"
                    ("/relations/" +:+ PyStr.of_int (Z.of_nat i))]
    ∧ id = get arguments "sourceId".
Proof.
  unfold wit_work_item_unlink.
  destruct (negb (truthy (get arguments "sourceId")));
    [intros H; by apply elem_of_nil in H|].
  destruct (negb (truthy (get arguments "targetId")));
    [intros H; by apply elem_of_nil in H|].
  unfold unlink_rest, wexcept_Exception, wexcept_AttributeError, wbind,
    wcall, wlift, wret.
  destruct token_provider as [token|e]; cbn -[find_relation].
  2: { intros H. set_solver. }
  destruct get_work_item_tracking_client as [[]|[[] m]]; cbn -[find_relation];
    try (intros H; set_solver).
  destruct (get_work_item _ _) as [item|[[] m]] eqn:Hg; cbn -[find_relation];
    try (intros H; set_solver).
  destruct (relations item) as [[|r0 rs]|] eqn:Hrs; cbn -[find_relation];
    try (intros H; set_solver).
  destruct (find_relation _ _ (r0 :: rs) 0) as [[k|]|[[] m]] eqn:Hf;
    cbn -[find_relation]; try (intros H; set_solver).
  intros H.
  destruct (find_relation_some _ _ _ _ _ Hf)
    as (s & j & r & Hs & -> & Hj & Hm & Hfirst).
  exists s, item, (r0 :: rs), j, r.
  split; [done|]. split; [done|]. split; [done|]. split; [done|].
  unfold matches in Hm. apply andb_true_iff in Hm as [Hu Hr].
  apply String.eqb_eq in Hu, Hr.
  split; [done|]. split; [done|]. split.
  - intros j' r' Hlt Hr' [Hu' Hrel'].
    specialize (Hfirst j' r' Hlt Hr'). unfold matches in Hfirst.
    rewrite Hu', Hrel', !String.eqb_refl in Hfirst. discriminate.
  - unfold remove_patch in H. cbn [plus] in H.
    destruct (update_work_item _ _) as [u|[[] m]]; cbn in H;
      repeat (apply elem_of_cons in H as [H|H]; [try discriminate|]);
      try (by apply elem_of_nil in H); by inversion H.
Qed.

(** X21. Unlinking undoes linking: when the relations of the source hold
    the relation that [wit_work_items_link] adds for the same [targetId]
    and [linkType], and the token, the client and the work item are
    obtained, [wit_work_item_unlink] asks for the removal of a relation
    that is equal to it. *)
Theorem unlink_finds_linked (arguments : gmap string pyval)
  (s token : string) (item : work_item) (rs : list relation) :
  truthy (get arguments "sourceId") = true →
  truthy (get arguments "targetId") = true →
  get_default arguments "linkType" (PStr "related") = PStr s →
  token_provider = Return token →
  get_work_item_tracking_client = Return tt →
  get_work_item (get arguments "sourceId") "relations" = Return item →
  relations item = Some rs →
  Forall (λ p, value p ∈ rs)
         (link_patch org_url (get_link_type_from_name s)
                     (format repr (get arguments "targetId"))) →
  ∃ i,
    Forall (λ p, rs !! i = Some (value p))
           (link_patch org_url (get_link_type_from_name s)
                       (format repr (get arguments "targetId")))
    ∧ UpdateWorkItemRemove
        [mkRemove "remove" ("/relations/" +:+ PyStr.of_int (Z.of_nat i))]
        (get arguments "sourceId")
      ∈ (wit_work_item_unlink arguments).2.
Proof.
  intros Hsrc Htgt Hlt Htok Hcl Hget Hrs Hall.
  apply Forall_cons in Hall as [Hin _]. cbn [value] in Hin.
  set (r := mkRelation (get_link_type_from_name s)
              (org_url +:+ "/_apis/wit/workItems/"
               +:+ format repr (get arguments "targetId"))) in *.
  assert (Hm : matches (target_url_of (get arguments "targetId"))
                 (get_link_type_from_name s) r = true).
  { unfold matches, r, target_url_of. cbn. by rewrite !String.eqb_refl. }
  destruct (find_relation_match _ _ _ 0 _ Hin Hm) as (i & Hf & Hi).
  exists i. split.
  { unfold link_patch. apply Forall_cons. split; [exact Hi|constructor]. }
  unfold wit_work_item_unlink. rewrite Hsrc, Htgt. cbn [negb].
  unfold unlink_rest, wexcept_Exception, wexcept_AttributeError, wbind,
    wcall, wlift, wret.
  rewrite Htok, Hcl, Hget, Hrs, Hlt.
  destruct rs as [|r0 rs']; [by apply elem_of_nil in Hin|].
  rewrite Hf. cbn [plus remove_patch].
  destruct (update_work_item _ _) as [u|[[] m]]; cbn; set_solver.
Qed.

End Unlink.

(** A setting in which work item 7 is related to 9 and is the parent of
    12 twice over. *)
Definition unlink_child_arguments : gmap string pyval :=
  list_to_map [("sourceId", PInt 7); ("targetId", PInt 12);
               ("linkType", PStr "child")].

Definition item_7 : work_item :=
  mkWorkItem (Some
    [mkRelation "System.LinkTypes.Related"
       "https://dev.azure.com/contoso/_apis/wit/workItems/12";
     mkRelation "System.LinkTypes.Hierarchy-Forward"
       "https://dev.azure.com/contoso/_apis/wit/workItems/9";
     mkRelation "System.LinkTypes.Hierarchy-Forward"
       "https://dev.azure.com/contoso/_apis/wit/workItems/12";
     mkRelation "System.LinkTypes.Hierarchy-Forward"
       "https://dev.azure.com/contoso/_apis/wit/workItems/12"]).

Definition unlink_child_run : list TextContent * list wit_call :=
  wit_work_item_unlink "https://dev.azure.com/contoso" (Return "pat")
    (Return tt) (λ _ _, Return item_7) (λ _ _, Return (PDict [("id", PInt 7)]))
    (λ _, "") unlink_child_arguments.

Example unlink_child_trace :
  unlink_child_run.2
  = [Call AcquireToken; Call (Connect "pat" "https://dev.azure.com/contoso");
     Call (GetClient "work_item_tracking");
     GetWorkItem (PInt 7) "relations";
     UpdateWorkItemRemove [mkRemove "remove" "/relations/2"] (PInt 7)].
Proof. vm_compute. reflexivity. Qed.

(** A run of X20: the first of the two child links to 12 is removed. *)
Lemma unlink_removes_first_match_witness :
  ∃ document id,
    UpdateWorkItemRemove document id ∈ unlink_child_run.2
    ∧ id = PInt 7
    ∧ ∃ i, document = [mkRemove "remove"
                         ("/relations/" +:+ PyStr.of_int (Z.of_nat i))].
Proof.
  eexists _, _.
  assert (Hin : UpdateWorkItemRemove [mkRemove "remove" "/relations/2"]
                  (PInt 7) ∈ unlink_child_run.2).
  { rewrite unlink_child_trace.
    do 4 apply list_elem_of_further. apply list_elem_of_here. }
  destruct (unlink_removes_first_match _ _ _ _ _ _ _ _ _ Hin)
    as (s & item & rs & i & r & _ & _ & _ & _ & _ & _ & _ & Hd & Hid).
  split; [exact Hin|]. split; [exact Hid|]. exists i. exact Hd.
Defined.

(** A run of X21 in the same setting. *)
Lemma unlink_finds_linked_witness :
  ∃ i,
    UpdateWorkItemRemove
      [mkRemove "remove" ("/relations/" +:+ PyStr.of_int (Z.of_nat i))]
      (PInt 7)
    ∈ unlink_child_run.2.
Proof.
  assert (Hsrc : truthy (get unlink_child_arguments "sourceId") = true)
    by reflexivity.
  assert (Htgt : truthy (get unlink_child_arguments "targetId") = true)
    by reflexivity.
  assert (Hlt : get_default unlink_child_arguments "linkType" (PStr "related")
                = PStr "child") by reflexivity.
  assert (Hall : Forall (λ p, value p ∈ default [] (relations item_7))
                   (link_patch "https://dev.azure.com/contoso"
                      (get_link_type_from_name "child")
                      (format (λ _, "")
                         (get unlink_child_arguments "targetId")))).
  { apply Forall_cons. split; [|constructor].
    do 2 apply list_elem_of_further. apply list_elem_of_here. }
  destruct (unlink_finds_linked "https://dev.azure.com/contoso"
              (Return "pat") (Return tt) (λ _ _, Return item_7)
              (λ _ _, Return (PDict [("id", PInt 7)])) (λ _, "")
              unlink_child_arguments "child" "pat" item_7 _
              Hsrc Htgt Hlt eq_refl eq_refl eq_refl eq_refl Hall)
    as (i & _ & Hin).
  exists i. exact Hin.
Defined.

End WorkItems.

(** ** tools/search.py: [search_code] *)

Module Search.
Import Py Tools.

(** [p in s] for strings. *)
Fixpoint contains (p s : string) : bool :=
  PyStr.startswith p s
  || match s with
     | EmptyString => false
     | String _ s' => contains p s'
     end.

(** [s.strip("/")] *)
Fixpoint lstrip_slash (s : string) : string :=
  match s with
  | String "/" s' => lstrip_slash s'
  | _ => s
  end.

Fixpoint rstrip_slash (s : string) : string :=
  match s with
  | EmptyString => EmptyString
  | String c s' =>
      match rstrip_slash s' with
      | EmptyString => if Ascii.eqb c "/" then EmptyString
                       else String c EmptyString
      | r => String c r
      end
  end.

Definition strip_slash (s : string) : string := rstrip_slash (lstrip_slash s).

(** What [urlparse] gives for a URL, as far as the code reads it. *)
Record ParseResult : Type := mkParsed { netloc : string; path : string }.

(** The reply of [requests.post]. *)
Record Response : Type := mkResponse {
  status_code : Z;
  json : result pyval;
  text : string
}.

Section SearchCode.

Variable urlparse : string → ParseResult.

Variable org_url : string.
Variable token_provider : result string.
Variable user_agent_provider : string.
Variable requests_post :
  string → pyval → list (string * string) → result Response.

Definition get_org_name_from_url (org_url : string) : string :=
  let parsed := urlparse org_url in
  if contains "dev.azure.com" (netloc parsed) then strip_slash (path parsed)
  else if contains "visualstudio.com" (netloc parsed) then
    hd "" (PyStr.split "." (netloc parsed))
  else if PyStr.truthy (path parsed) then
    hd "" (PyStr.split "/" (strip_slash (path parsed)))
  else "unknown".

(** [x if isinstance(x, list) else [x]] *)
Definition as_list (v : pyval) : pyval :=
  match v with
  | PList _ => v
  | _ => PList [v]
  end.

(** [if v: filters[key] = ...] *)
Definition add_filter (key : string) (v : pyval)
  (filters : list (string * pyval)) : list (string * pyval) :=
  if truthy v then filters ++ [(key, as_list v)] else filters.

(** The operation after its check. *)
Definition search_code_rest (arguments : gmap string pyval)
  : list TextContent * list event :=
  let search_text := get arguments "searchText" in
  let project := get_default arguments "project" (PList []) in
  let repository := get_default arguments "repository" (PList []) in
  let path := get_default arguments "path" (PList []) in
  let branch := get_default arguments "branch" (PList []) in
  let include_facets := get_default arguments "includeFacets" (PBool false) in
  let skip := get_default arguments "skip" (PInt 0) in
  let top := get_default arguments "top" (PInt 5) in
  except_Exception
    (token <~ call AcquireToken token_provider ;;
     let org_name := get_org_name_from_url org_url in
     let url := "https://almsearch.dev.azure.com/" +:+ org_name
                +:+ "/_apis/search/codesearchresults?api-version=6.0-preview.1" in
     let request_body :=
       [("searchText", search_text); ("includeFacets", include_facets);
        ("$skip", skip); ("$top", top)] in
     let filters :=
       add_filter "Branch" branch
         (add_filter "Path" path
            (add_filter "Repository" repository
               (add_filter "Project" project []))) in
     let request_body :=
       match filters with
       | [] => request_body
       | _ => request_body ++ [("filters", PDict filters)]
       end in
     let headers :=
       [("Authorization", "Bearer " +:+ token);
        ("Content-Type", "application/json");
        ("User-Agent", user_agent_provider)] in
     response <~ call (HttpPost url (PDict request_body) headers)
                      (requests_post url (PDict request_body) headers) ;;
     if (status_code response =? 200)%Z then
       results <~ lift (json response) ;;
       tret (json_result results)
     else
       tret (text_result
               ("Error searching code: HTTP "
                +:+ PyStr.of_int (status_code response)
                +:+ " - " +:+ text response)))
    (λ e, text_result ("Error searching code: " +:+ exn_msg e)).

(** [search_code(arguments)] *)
Definition search_code (arguments : gmap string pyval)
  : list TextContent * list event :=
  let search_text := get arguments "searchText" in
  if negb (truthy search_text) then
    (text_result "Error: searchText parameter is required", [])
  else search_code_rest arguments.

Lemma search_code_run arguments :
  search_code arguments
  = run (λ _, search_code_rest)
        (mkTool "search.py" "search_code"
           [mkCheck "searchText" PNone NotTruthy])
        arguments.
Proof.
  unfold search_code, run, validate, failed, get, get_default,
    required_error. cbn.
  destruct (negb (truthy (default PNone (arguments !! "searchText"))));
    reflexivity.
Qed.

(** Past the check, the token provider is the first thing asked. *)
Lemma search_code_rest_acquires arguments :
  ∃ later, (search_code_rest arguments).2 = AcquireToken :: later.
Proof.
  unfold search_code_rest, except_Exception, tbind, call.
  destruct token_provider as [token|e]; [|by eexists].
  destruct (requests_post _ _ _) as [r|e]; [|by eexists].
  destruct (status_code r =? 200)%Z; [|by eexists].
  unfold lift. destruct (json r); by eexists.
Qed.

End SearchCode.

(** The two URL forms the function knows, with what [urlparse] gives for
    them. *)
Definition urlparse_samples (u : string) : ParseResult :=
  if String.eqb u "https://dev.azure.com/contoso/"
  then mkParsed "dev.azure.com" "/contoso/"
  else if String.eqb u "https://contoso.visualstudio.com"
  then mkParsed "contoso.visualstudio.com" ""
  else mkParsed "" "".

Example org_name_dev_azure :
  get_org_name_from_url urlparse_samples "https://dev.azure.com/contoso/"
  = "contoso".
Proof. reflexivity. Qed.

Example org_name_visualstudio :
  get_org_name_from_url urlparse_samples "https://contoso.visualstudio.com"
  = "contoso".
Proof. reflexivity. Qed.

Example org_name_unknown :
  get_org_name_from_url urlparse_samples "" = "unknown".
Proof. reflexivity. Qed.

(** Without [searchText] nothing is asked of the token provider or of the
    search service, whatever they would have answered. *)
Example search_code_without_text :
  search_code urlparse_samples "https://dev.azure.com/contoso/"
    (Return "pat") "AzureDevOps.MCP/2.2.1 (python)"
    (λ _ _ _, Return (mkResponse 200 (Return (PDict [])) "{}"))
    (list_to_map [("project", PStr "Fabrikam")])
  = ([mkTextContent "text" (Str "Error: searchText parameter is required")],
     []).
Proof. vm_compute. reflexivity. Qed.

(** *** The organization name, back from the URL *)

Lemma rstrip_slash_idemp s : rstrip_slash (rstrip_slash s) = rstrip_slash s.
Proof.
  induction s as [|c s IH]; [done|]. cbn.
  destruct (rstrip_slash s) as [|c' r] eqn:Hr.
  - destruct (Ascii.eqb c "/") eqn:Hc; [done|]. cbn. by rewrite Hc.
  - cbn. cbn in IH. by rewrite IH.
Qed.

Lemma lstrip_slash_head s c r : lstrip_slash s = String c r → c ≠ "/"%char.
Proof.
  induction s as [|c' s IH]; [done|]. cbn.
  destruct (Ascii.eqb_spec c' "/"%char) as [->|Hne]; [exact IH|].
  assert (Hl : lstrip_slash (String c' s) = String c' s).
  { cbn. destruct c' as [[] [] [] [] [] [] [] []]; try reflexivity.
    by destruct Hne. }
  cbn in Hl. rewrite Hl. by intros [= <- _].
Qed.

Lemma strip_slash_idemp s : strip_slash (strip_slash s) = strip_slash s.
Proof.
  unfold strip_slash. destruct (lstrip_slash s) as [|c r] eqn:Hl; [done|].
  pose proof (lstrip_slash_head _ _ _ Hl) as Hc.
  assert (Hr : ∃ r', rstrip_slash (String c r) = String c r').
  { cbn. destruct (rstrip_slash r); [|by eexists].
    destruct (Ascii.eqb_spec c "/"%char); [done|by eexists]. }
  destruct Hr as [r' Hr]. rewrite Hr.
  assert (Hls : lstrip_slash (String c r') = String c r').
  { cbn. destruct c as [[] [] [] [] [] [] [] []]; try reflexivity.
    by destruct Hc. }
  rewrite Hls, <- Hr. apply rstrip_slash_idemp.
Qed.

(** X22. From the URL that [main] builds for an organization,
    [https://dev.azure.com/<organization>], the search tools get the
    organization back without the slashes at its ends, so the very name
    when it has none there ([urlparse] splitting the URL at the host). *)
Theorem org_name_from_org_url (urlparse : string → ParseResult)
  (organization : string) :
  urlparse ("https://dev.azure.com/" +:+ organization)
  = mkParsed "dev.azure.com" ("/" +:+ organization) →
  let name := get_org_name_from_url urlparse
                ("https://dev.azure.com/" +:+ organization) in
  name = strip_slash organization
  ∧ strip_slash name = name
  ∧ (strip_slash organization = organization → name = organization).
Proof.
  intros Hp name. subst name. unfold get_org_name_from_url. rewrite Hp.
  cbn [netloc path].
  change (contains "dev.azure.com" "dev.azure.com") with true. cbn iota.
  assert (Hs : strip_slash ("/" +:+ organization) = strip_slash organization)
    by reflexivity.
  rewrite Hs. split; [done|]. split; [apply strip_slash_idemp|done].
Qed.

(** [urlparse] on the URLs of that form, host and path apart. *)
Definition urlparse_dev_azure (u : string) : ParseResult :=
  match String.index 0 "dev.azure.com" u with
  | Some n =>
      mkParsed "dev.azure.com"
        (String.substring (n + 13) (String.length u - (n + 13)) u)
  | None => mkParsed "" u
  end.

Lemma org_name_from_org_url_witness :
  urlparse_dev_azure ("https://dev.azure.com/" +:+ "contoso")
  = mkParsed "dev.azure.com" ("/" +:+ "contoso")
  ∧ strip_slash "contoso" = "contoso"
  ∧ get_org_name_from_url urlparse_dev_azure
      ("https://dev.azure.com/" +:+ "contoso") = "contoso".
Proof.
  assert (H1 : urlparse_dev_azure ("https://dev.azure.com/" +:+ "contoso")
               = mkParsed "dev.azure.com" ("/" +:+ "contoso"))
    by (vm_compute; reflexivity).
  assert (H2 : strip_slash "contoso" = "contoso") by reflexivity.
  split; [exact H1|]. split; [exact H2|].
  exact (proj2 (proj2 (org_name_from_org_url urlparse_dev_azure "contoso" H1))
               H2).
Defined.

(** *** What [search_code] sends *)

Section SearchCodeRequest.

Variable urlparse : string → ParseResult.
Variable org_url : string.
Variable token_provider : result string.
Variable user_agent_provider : string.
Variable requests_post :
  string → pyval → list (string * string) → result Response.

Local Abbreviation search :=
  (search_code urlparse org_url token_provider user_agent_provider
     requests_post).

Definition code_search_url : string :=
  "https://almsearch.dev.azure.com/" +:+ get_org_name_from_url urlparse org_url
  +:+ "/_apis/search/codesearchresults?api-version=6.0-preview.1".

Lemma add_filter_nil key v filters :
  add_filter key v filters = [] ↔ truthy v = false ∧ filters = [].
Proof.
  unfold add_filter. destruct (truthy v).
  - split; [|by intros [? _]]. by destruct filters.
  - tauto.
Qed.

(** The filters, the body and the headers of the request, as the
    operation builds them. *)
Definition filters_of (arguments : gmap string pyval)
  : list (string * pyval) :=
  add_filter "Branch" (get_default arguments "branch" (PList []))
    (add_filter "Path" (get_default arguments "path" (PList []))
       (add_filter "Repository" (get_default arguments "repository" (PList []))
          (add_filter "Project" (get_default arguments "project" (PList []))
             []))).

Definition request_body_of (arguments : gmap string pyval)
  : list (string * pyval) :=
  let base :=
    [("searchText", get arguments "searchText");
     ("includeFacets", get_default arguments "includeFacets" (PBool false));
     ("$skip", get_default arguments "skip" (PInt 0));
     ("$top", get_default arguments "top" (PInt 5))] in
  match filters_of arguments with
  | [] => base
  | _ => base ++ [("filters", PDict (filters_of arguments))]
  end.

Definition headers_of (token : string) : list (string * string) :=
  [("Authorization", "Bearer " +:+ token);
   ("Content-Type", "application/json");
   ("User-Agent", user_agent_provider)].

Lemma search_code_trace arguments :
  (search arguments).2
  = if negb (truthy (get arguments "searchText")) then []
    else match token_provider with
         | Return token =>
             [AcquireToken;
              HttpPost code_search_url (PDict (request_body_of arguments))
                       (headers_of token)]
         | Raise _ => [AcquireToken]
         end.
Proof.
  unfold search_code.
  destruct (negb (truthy (get arguments "searchText"))); [done|].
  unfold search_code_rest, except_Exception, tbind, call.
  destruct token_provider as [token|e]; [|done]. cbn zeta.
  fold code_search_url. fold (filters_of arguments).
  fold (headers_of token).
  change (match filters_of arguments with
          | [] => [("searchText", get arguments "searchText");
                   ("includeFacets",
                    get_default arguments "includeFacets" (PBool false));
                   ("$skip", get_default arguments "skip" (PInt 0));
                   ("$top", get_default arguments "top" (PInt 5))]
          | _ :: _ => _
          end) with (request_body_of arguments).
  destruct (requests_post _ _ _) as [a|e]; [|done].
  destruct (status_code a =? 200)%Z; [|done].
  unfold lift, tret. by destruct (json a).
Qed.

(** X23. [search_code] posts at most once, and only with a non-empty
    search text and a token: to the code-search URL of the organization,
    with the token as bearer and the composed user agent, and with a body
    that carries the search text and has a ["filters"] entry exactly when
    one of project, repository, path and branch was given a truthy
    value. *)
Theorem search_code_request (arguments : gmap string pyval)
  (url : string) (body : pyval) (headers : list (string * string)) :
  HttpPost url body headers ∈ (search arguments).2 →
  truthy (get arguments "searchText") = true
  ∧ (search arguments).2 = [AcquireToken; HttpPost url body headers]
  ∧ url = code_search_url
  ∧ (∃ token, token_provider = Return token
      ∧ headers = [("Authorization", "Bearer " +:+ token);
                   ("Content-Type", "application/json");
                   ("User-Agent", user_agent_provider)])
  ∧ ∃ items, body = PDict items
      ∧ OrgTenants.assoc "searchText" items
        = Some (get arguments "searchText")
      ∧ (OrgTenants.assoc "filters" items = None
         ↔ truthy (get_default arguments "project" (PList [])) = false
           ∧ truthy (get_default arguments "repository" (PList [])) = false
           ∧ truthy (get_default arguments "path" (PList [])) = false
           ∧ truthy (get_default arguments "branch" (PList [])) = false).
Proof.
  rewrite search_code_trace.
  destruct (truthy (get arguments "searchText")) eqn:Hst; cbn [negb].
  2: { intros H. by apply elem_of_nil in H. }
  destruct token_provider as [token|e].
  2: { intros H. apply list_elem_of_singleton in H. discriminate. }
  intros Hin.
  apply elem_of_cons in Hin as [Hin|Hin]; [discriminate|].
  apply list_elem_of_singleton in Hin. injection Hin as -> -> ->.
  split; [done|]. split; [done|]. split; [done|].
  split; [by exists token|].
  exists (request_body_of arguments). split; [done|].
  assert (Hnil : filters_of arguments = []
                 ↔ truthy (get_default arguments "project" (PList [])) = false
                   ∧ truthy (get_default arguments "repository" (PList []))
                     = false
                   ∧ truthy (get_default arguments "path" (PList [])) = false
                   ∧ truthy (get_default arguments "branch" (PList []))
                     = false).
  { unfold filters_of. rewrite !add_filter_nil. tauto. }
  unfold request_body_of. destruct (filters_of arguments) as [|f fs].
  - split; [reflexivity|]. split; [intros _; by apply Hnil|reflexivity].
  - split; [reflexivity|]. split; [discriminate|].
    intros H. apply Hnil in H. discriminate.
Qed.

End SearchCodeRequest.

Definition search_in_project : gmap string pyval :=
  list_to_map [("searchText", PStr "TODO"); ("project", PStr "Fabrikam")].

Definition search_in_project_run : list TextContent * list event :=
  search_code urlparse_samples "https://dev.azure.com/contoso/"
    (Return "pat") "AzureDevOps.MCP/2.2.1 (python)"
    (λ _ _ _, Return (mkResponse 200 (Return (PDict [])) "{}"))
    search_in_project.

Example search_in_project_trace :
  search_in_project_run.2
  = [AcquireToken;
     HttpPost
       ("https://almsearch.dev.azure.com/contoso/_apis/search/"
        +:+ "codesearchresults?api-version=6.0-preview.1")
       (PDict [("searchText", PStr "TODO"); ("includeFacets", PBool false);
               ("$skip", PInt 0); ("$top", PInt 5);
               ("filters", PDict [("Project", PList [PStr "Fabrikam"])])])
       [("Authorization", "Bearer pat");
        ("Content-Type", "application/json");
        ("User-Agent", "AzureDevOps.MCP/2.2.1 (python)")]].
Proof. vm_compute. reflexivity. Qed.

Lemma search_code_request_witness :
  ∃ url body headers,
    HttpPost url body headers ∈ search_in_project_run.2
    ∧ url = code_search_url urlparse_samples "https://dev.azure.com/contoso/"
    ∧ truthy (get search_in_project "searchText") = true.
Proof.
  eexists _, _, _.
  assert (Hin : HttpPost
       ("https://almsearch.dev.azure.com/contoso/_apis/search/"
        +:+ "codesearchresults?api-version=6.0-preview.1")
       (PDict [("searchText", PStr "TODO"); ("includeFacets", PBool false);
               ("$skip", PInt 0); ("$top", PInt 5);
               ("filters", PDict [("Project", PList [PStr "Fabrikam"])])])
       [("Authorization", "Bearer pat");
        ("Content-Type", "application/json");
        ("User-Agent", "AzureDevOps.MCP/2.2.1 (python)")]
     ∈ search_in_project_run.2).
  { rewrite search_in_project_trace.
    apply list_elem_of_further, list_elem_of_here. }
  destruct (search_code_request _ _ _ _ _ _ _ _ _ Hin) as (Ht & _ & Hu & _).
  split; [exact Hin|]. split; [exact Hu|exact Ht].
Defined.

End Search.

(** ** tools/core.py: the name filter of [core_list_projects] *)

Module Core.
Import Py.

(** A project dictionary: its items. *)
Definition project : Type := list (string * pyval).

(** [v.lower()]: raises on anything but a [str]. *)
Definition lower_of (v : pyval) : result string :=
  match v with
  | PStr s => Return (PyStr.lower s)
  | other => Raise (no_attribute other "lower")
  end.

(** [project.get("name", "")] *)
Definition name_of (p : project) : pyval :=
  default (PStr "") (OrgTenants.assoc "name" p).

(** The condition of the comprehension:
    [project.get("name", "").lower().find(lower_filter) >= 0]. *)
Definition name_matches (lower_filter : string) (p : project) : result bool :=
  bind (lower_of (name_of p))
       (λ lowered, Return (Search.contains lower_filter lowered)).

(** The comprehension: the projects are tested in order, and the first
    test that raises ends it. *)
Fixpoint keep_matching (lower_filter : string) (projects : list project)
  : result (list project) :=
  match projects with
  | [] => Return []
  | p :: rest =>
      bind (name_matches lower_filter p) (λ keep,
        bind (keep_matching lower_filter rest) (λ kept,
          Return (if keep then p :: kept else kept)))
  end.

(** [filter_projects_by_name(projects, project_name_filter)] *)
Definition filter_projects_by_name (projects : list project)
  (project_name_filter : pyval) : result (list project) :=
  bind (lower_of project_name_filter)
       (λ lower_filter, keep_matching lower_filter projects).

(** The step of [core_list_projects] that uses it:
    [if project_name_filter: projects_data = filter_projects_by_name(...)]. *)
Definition apply_name_filter (projects_data : list project)
  (project_name_filter : pyval) : result (list project) :=
  if truthy project_name_filter
  then filter_projects_by_name projects_data project_name_filter
  else Return projects_data.

Definition is_str (v : pyval) : bool :=
  match v with PStr _ => true | _ => false end.

(** The test on a project whose name is a string. *)
Definition selected (lower_filter : string) (p : project) : bool :=
  match name_of p with
  | PStr n => Search.contains lower_filter (PyStr.lower n)
  | _ => false
  end.

Example filter_projects_ex :
  filter_projects_by_name
    [[("id", PStr "1"); ("name", PStr "Fabrikam Web")];
     [("id", PStr "2"); ("name", PStr "Contoso")];
     [("id", PStr "3")];
     [("id", PStr "4"); ("name", PStr "webshop")]]
    (PStr "WEB")
  = Return [[("id", PStr "1"); ("name", PStr "Fabrikam Web")];
            [("id", PStr "4"); ("name", PStr "webshop")]].
Proof. reflexivity. Qed.

Lemma lower_of_return v s : lower_of v = Return s → is_str v = true.
Proof. destruct v; cbn; congruence. Qed.

Lemma name_matches_str lower_filter p :
  is_str (name_of p) = true →
  name_matches lower_filter p = Return (selected lower_filter p).
Proof.
  unfold name_matches, selected. by destruct (name_of p).
Qed.

Lemma name_matches_not_str lower_filter p :
  is_str (name_of p) = false →
  raises (name_matches lower_filter p) = true.
Proof.
  unfold name_matches. by destruct (name_of p).
Qed.

Lemma keep_matching_return lower_filter projects :
  Forall (λ p, is_str (name_of p) = true) projects →
  keep_matching lower_filter projects
  = Return (List.filter (selected lower_filter) projects).
Proof.
  induction 1 as [|p ps Hp _ IH]; [done|].
  cbn [keep_matching List.filter].
  rewrite (name_matches_str _ _ Hp), IH. reflexivity.
Qed.

Lemma keep_matching_inv lower_filter projects out :
  keep_matching lower_filter projects = Return out →
  Forall (λ p, is_str (name_of p) = true) projects.
Proof.
  revert out. induction projects as [|p ps IH]; intros out; [constructor|].
  cbn [keep_matching].
  destruct (is_str (name_of p)) eqn:Hp.
  - rewrite (name_matches_str _ _ Hp). cbn [bind].
    destruct (keep_matching lower_filter ps) as [kept|e]; [|discriminate].
    intros _. constructor; [done|]. by eapply IH.
  - pose proof (name_matches_not_str lower_filter p Hp) as Hr.
    destruct (name_matches lower_filter p); [discriminate|]. discriminate.
Qed.

Lemma filter_sublist {A} (f : A → bool) (l : list A) :
  sublist (List.filter f l) l.
Proof.
  induction l as [|x l IH]; [constructor|].
  cbn. destruct (f x); by constructor.
Qed.

Lemma filter_filter {A} (f : A → bool) (l : list A) :
  List.filter f (List.filter f l) = List.filter f l.
Proof.
  induction l as [|x l IH]; [done|].
  cbn. destruct (f x) eqn:Hx; [|done]. cbn. by rewrite Hx, IH.
Qed.

Lemma Forall_filter {A} (P : A → Prop) (f : A → bool) (l : list A) :
  Forall P l → Forall P (List.filter f l).
Proof.
  induction 1 as [|x l Hx _ IH]; [constructor|].
  cbn. destruct (f x); [by constructor|done].
Qed.

(** X24. What [filter_projects_by_name] returns is a selection of the
    projects in their order: a project is kept exactly when its name is a
    string that, lower-cased, contains the lower-cased filter; and
    filtering the result again changes nothing. *)
Theorem filter_projects_selects (projects out : list project)
  (project_name_filter : pyval) :
  filter_projects_by_name projects project_name_filter = Return out →
  ∃ name_filter,
    project_name_filter = PStr name_filter
    ∧ sublist out projects
    ∧ (∀ p, p ∈ out
            ↔ p ∈ projects
              ∧ ∃ n, name_of p = PStr n
                     ∧ Search.contains (PyStr.lower name_filter)
                                       (PyStr.lower n) = true)
    ∧ filter_projects_by_name out project_name_filter = Return out.
Proof.
  unfold filter_projects_by_name.
  destruct project_name_filter as [| | | |s| |]; cbn [lower_of bind];
    try discriminate.
  intros H. exists s. split; [done|].
  pose proof (keep_matching_inv _ _ _ H) as Hall.
  rewrite (keep_matching_return _ _ Hall) in H. injection H as <-.
  split; [apply filter_sublist|]. split.
  - intros p. rewrite !list_elem_of_In, filter_In. unfold selected.
    split.
    + intros [Hin Hsel]. split; [done|].
      destruct (name_of p) as [| | | |n| |]; try discriminate. by exists n.
    + intros [Hin (n & Hn & Hc)]. split; [done|]. by rewrite Hn.
  - rewrite keep_matching_return by by apply Forall_filter.
    by rewrite filter_filter.
Qed.

(** The filter is case-insensitive: two filters with the same
    lower-cased form have the same outcome on every list of projects. *)
Lemma filter_projects_case_insensitive (projects : list project)
  (f g : string) :
  PyStr.lower f = PyStr.lower g →
  filter_projects_by_name projects (PStr f)
  = filter_projects_by_name projects (PStr g).
Proof.
  intros H. unfold filter_projects_by_name. cbn [lower_of bind].
  by rewrite H.
Qed.

(** X25. [filter_projects_by_name] raises exactly when the filter is not
    a string or some project has a name that is not a string; one such
    project fails the whole list. *)
Theorem filter_projects_raises (projects : list project)
  (project_name_filter : pyval) :
  raises (filter_projects_by_name projects project_name_filter) = true
  ↔ is_str project_name_filter = false
    ∨ ∃ p, p ∈ projects ∧ is_str (name_of p) = false.
Proof.
  unfold filter_projects_by_name. split.
  - destruct project_name_filter as [| | | |s| |]; cbn [lower_of bind is_str];
      try (intros _; by left).
    intros Hr. right.
    induction projects as [|p ps IH]; [discriminate|].
    cbn [keep_matching] in Hr.
    destruct (is_str (name_of p)) eqn:Hp.
    + rewrite (name_matches_str _ _ Hp) in Hr. cbn [bind] in Hr.
      destruct (keep_matching (PyStr.lower s) ps) as [kept|e] eqn:Hk;
        [discriminate|].
      destruct (IH eq_refl) as (q & Hq & Hn).
      exists q. split; [by apply list_elem_of_further|done].
    + exists p. split; [apply list_elem_of_here|done].
  - intros [Hf|(p & Hin & Hp)].
    + by destruct project_name_filter.
    + destruct (lower_of project_name_filter) as [lf|e]; [|done].
      cbn [bind].
      destruct (keep_matching lf projects) as [out|e] eqn:Hk; [|done].
      pose proof (keep_matching_inv _ _ _ Hk) as Hall.
      rewrite Forall_forall in Hall. rewrite (Hall p Hin) in Hp.
      discriminate.
Qed.

Definition two_projects : list project :=
  [[("id", PStr "1"); ("name", PStr "Fabrikam Web")];
   [("id", PStr "2"); ("name", PStr "Contoso")]].

(** A run of X24. *)
Lemma filter_projects_selects_witness :
  ∃ name_filter,
    PStr "WEB" = PStr name_filter
    ∧ sublist [[("id", PStr "1"); ("name", PStr "Fabrikam Web")]] two_projects.
Proof.
  assert (H : filter_projects_by_name two_projects (PStr "WEB")
              = Return [[("id", PStr "1"); ("name", PStr "Fabrikam Web")]])
    by reflexivity.
  destruct (filter_projects_selects _ _ _ H) as (s & Hs & Hsub & _).
  exists s. split; [exact Hs|exact Hsub].
Defined.

End Core.

(** ** main.py: the PAT-gating ASGI application of [run_http_server] *)

Module Main.
Import Py.

(** *** Bytes and decoding

    Header names and values are [bytes] objects.  The [str] that
    [bytes.decode()] returns is held as its UTF-8 encoding, the very
    bytes that were decoded, so that decoding checks the bytes and keeps
    them; what [len] counts are the code points. *)

Definition byte (c : ascii) : N := N_of_ascii c.

Definition between (lo hi : N) (c : ascii) : bool :=
  ((lo <=? byte c) && (byte c <=? hi))%N.

Definition continuation (c : ascii) : bool := between 128 191 c.

(** The first two bytes of a three-byte and of a four-byte sequence:
    no overlong form, no surrogate, nothing above U+10FFFF. *)
Definition three_bytes (c0 c1 : ascii) : bool :=
  (between 224 224 c0 && between 160 191 c1)
  || (between 225 236 c0 && continuation c1)
  || (between 237 237 c0 && between 128 159 c1)
  || (between 238 239 c0 && continuation c1).

Definition four_bytes (c0 c1 : ascii) : bool :=
  (between 240 240 c0 && between 144 191 c1)
  || (between 241 243 c0 && continuation c1)
  || (between 244 244 c0 && between 128 143 c1).

(** Well-formed UTF-8, as the strict decoder accepts it. *)
Fixpoint valid_utf8 (b : string) : bool :=
  match b with
  | EmptyString => true
  | String c0 r0 =>
      if between 0 127 c0 then valid_utf8 r0
      else
        match r0 with
        | EmptyString => false
        | String c1 r1 =>
            if between 194 223 c0 then continuation c1 && valid_utf8 r1
            else
              match r1 with
              | EmptyString => false
              | String c2 r2 =>
                  if three_bytes c0 c1 then continuation c2 && valid_utf8 r2
                  else
                    match r2 with
                    | EmptyString => false
                    | String c3 r3 =>
                        four_bytes c0 c1 && continuation c2
                        && continuation c3 && valid_utf8 r3
                    end
              end
        end
  end.

(** [b.decode()]: the [str], or [None] for [UnicodeDecodeError]. *)
Definition decode (b : string) : option string :=
  if valid_utf8 b then Some b else None.

(** [len(s)] for a [str]: every byte but a continuation byte starts a
    code point. *)
Fixpoint len (s : string) : nat :=
  match s with
  | EmptyString => 0
  | String c rest => (if continuation c then 0 else 1) + len rest
  end.

Example decode_samples :
  decode "abc123pat" = Some "abc123pat"
  ∧ decode "ééééé" = Some "ééééé"
  ∧ len "ééééé" = 5 ∧ String.length "ééééé" = 10
  ∧ decode (String "255"%char "") = None
  ∧ decode (String "192"%char (String "128"%char "")) = None
  ∧ decode (String "237"%char (String "160"%char (String "128"%char "")))
    = None
  ∧ decode (String "195"%char "") = None.
Proof. vm_compute. repeat split. Qed.

(** [A]..[Z] moved up by 32, every other byte kept. *)
Definition lower_ascii_char (c : ascii) : ascii :=
  if between 65 90 c then ascii_of_N (byte c + 32) else c.

Fixpoint lower_ascii (s : string) : string :=
  match s with
  | EmptyString => EmptyString
  | String c rest => String (lower_ascii_char c) (lower_ascii rest)
  end.

Definition PAT_HEADER : string := "x-azure-devops-pat".

(** [key_str.lower() == "x-azure-devops-pat"].  The name is ASCII, and no
    character outside ASCII is lower-cased to one of its characters (the
    only ASCII letter such a character is lower-cased to is [k], from
    the Kelvin sign): the test holds exactly when the key, with [A]..[Z]
    lower-cased, is the name. *)
Definition is_pat_header (key_str : string) : bool :=
  String.eqb (lower_ascii key_str) PAT_HEADER.

(** *** The application *)

(** The connection scope, as far as [custom_app] reads it.  Header names
    and values are the [bytes] the server passes; an absent ["headers"]
    entry is the empty list, an absent ["path"] or ["method"] is
    [None]. *)
Record scope : Type := mkScope {
  type : string;
  headers : list (string * string);
  path : option string;
  method : option string
}.

(** The messages [custom_app] sends itself. *)
Inductive message : Type :=
  | http_response_start (status : Z) (headers : list (string * string))
  | http_response_body (body : string).

(** What one call of [custom_app] does: it answers itself, it hands the
    call to [base_app], or it raises [UnicodeDecodeError] (whose message,
    naming the byte and its position, is left out). *)
Inductive outcome : Type :=
  | Sent (messages : list message)
  | Forwarded
  | UnicodeDecodeError.

(** [d[k] = v] on a dict kept as the list of its items in insertion
    order. *)
Fixpoint dict_set (k v : string) (d : list (string * string))
  : list (string * string) :=
  match d with
  | [] => [(k, v)]
  | (k', v') :: rest =>
      if String.eqb k' k then (k', v) :: rest
      else (k', v') :: dict_set k v rest
  end.

(** [dict(pairs)] *)
Definition dict (pairs : list (string * string)) : list (string * string) :=
  fold_left (λ d kv, dict_set kv.1 kv.2 d) pairs [].

(** The loop over [headers.items()] with its [break]: [pat_token] at its
    end, or [None] when a [decode] has raised. *)
Fixpoint find_pat (items : list (string * string)) : option (option string) :=
  match items with
  | [] => Some None
  | (key, value) :: rest =>
      match decode key with
      | None => None
      | Some key_str =>
          if is_pat_header key_str then
            match decode value with
            | None => None
            | Some pat_token => Some (Some pat_token)
            end
          else find_pat rest
      end
  end.

Definition pat_token_of (s : scope) : option (option string) :=
  find_pat (dict (headers s)).

Definition quote : string := String "034"%char EmptyString.

Definition quoted (s : string) : string := quote +:+ s +:+ quote.

(** The body of the 401 answer. *)
Definition AUTH_REQUIRED_BODY : string :=
  "{" +:+ quoted "error" +:+ ": " +:+ quoted "Authentication required"
  +:+ ", " +:+ quoted "message" +:+ ": "
  +:+ quoted "Please provide PAT token in X-Azure-DevOps-PAT header" +:+ "}".

Definition unauthorized : list message :=
  [http_response_start 401 [("content-type", "application/json")];
   http_response_body AUTH_REQUIRED_BODY].

(** [custom_app(scope, receive, send)], with the variable
    [current_pat_token] of the enclosing function passed through: it is
    assigned after the loop, so not when the loop raises. *)
Definition custom_app (s : scope) (current_pat_token : option string)
  : outcome * option string :=
  if String.eqb (type s) "http" then
    match pat_token_of s with
    | None => (UnicodeDecodeError, current_pat_token)
    | Some pat_token =>
        if negb (Auth.opt_truthy pat_token)
           && negb (bool_decide (path s = Some "/"))
           && negb (bool_decide (method s = Some "GET"))
        then (Sent unauthorized, pat_token)
        else (Forwarded, pat_token)
    end
  else (Forwarded, current_pat_token).

(** A request carries the header when some header name is it, in any
    case. *)
Definition carries_pat_header (s : scope) : Prop :=
  ∃ k v, (k, v) ∈ headers s ∧ lower_ascii k = PAT_HEADER.

Definition post_mcp (hs : list (string * string)) : scope :=
  mkScope "http" hs (Some "/mcp") (Some "POST").

Definition get_mcp (hs : list (string * string)) : scope :=
  mkScope "http" hs (Some "/mcp") (Some "GET").

Example post_without_pat :
  custom_app (post_mcp [("content-type", "application/json")]) None
  = (Sent unauthorized, None).
Proof. reflexivity. Qed.

Example post_with_pat :
  custom_app (post_mcp [("content-type", "application/json");
                        ("X-Azure-DevOps-PAT", "abc123pat")]) None
  = (Forwarded, Some "abc123pat").
Proof. reflexivity. Qed.

Example get_root_without_pat :
  custom_app (mkScope "http" [] (Some "/") (Some "GET")) (Some "old")
  = (Forwarded, None).
Proof. reflexivity. Qed.

(** The header sent twice: the dict keeps the place of the first and the
    value of the second. *)
Example post_with_pat_twice :
  custom_app (post_mcp [("x-azure-devops-pat", "abc123pat");
                        ("content-type", "application/json");
                        ("x-azure-devops-pat", "")]) None
  = (Sent unauthorized, Some "").
Proof. reflexivity. Qed.

(** A value that is not UTF-8: the call raises, and the token of the
    request before stays. *)
Example post_with_undecodable_pat :
  custom_app (post_mcp [("x-azure-devops-pat", String "255"%char "")])
             (Some "old")
  = (UnicodeDecodeError, Some "old").
Proof. reflexivity. Qed.

(** *** The header lookup *)

(** A header the loop passes over: its name decodes and is not the
    name looked for. *)
Definition skipped (kv : string * string) : Prop :=
  lower_ascii kv.1 ≠ PAT_HEADER ∧ valid_utf8 kv.1 = true.

Definition is_ascii (s : string) : bool :=
  forallb (between 0 127) (list_ascii_of_string s).

Lemma lower_ascii_char_ascii c :
  between 0 127 (lower_ascii_char c) = between 0 127 c.
Proof. destruct c as [[] [] [] [] [] [] [] []]; reflexivity. Qed.

Lemma lower_ascii_is_ascii s : is_ascii (lower_ascii s) = is_ascii s.
Proof.
  unfold is_ascii. induction s as [|c s IH]; [done|].
  cbn. by rewrite lower_ascii_char_ascii, IH.
Qed.

Lemma is_ascii_valid s : is_ascii s = true → valid_utf8 s = true.
Proof.
  unfold is_ascii. induction s as [|c s IH]; [done|].
  cbn [list_ascii_of_string forallb valid_utf8].
  intros [Hc Hs]%andb_true_iff. rewrite Hc. by apply IH.
Qed.

(** A name that matches is ASCII, so it decodes. *)
Lemma pat_header_valid k : lower_ascii k = PAT_HEADER → valid_utf8 k = true.
Proof.
  intros Hk. apply is_ascii_valid. rewrite <- lower_ascii_is_ascii, Hk.
  reflexivity.
Qed.

Lemma find_pat_skip kv items :
  skipped kv → find_pat (kv :: items) = find_pat items.
Proof.
  destruct kv as [k v]. intros [Hne Hv]. cbn in Hne, Hv.
  cbn [find_pat]. unfold decode, is_pat_header. rewrite Hv.
  by destruct (String.eqb_spec (lower_ascii k) PAT_HEADER).
Qed.

Lemma find_pat_none items : Forall skipped items → find_pat items = Some None.
Proof.
  induction 1 as [|kv items Hkv _ IH]; [done|].
  by rewrite (find_pat_skip _ _ Hkv).
Qed.

Lemma find_pat_middle k v A B :
  lower_ascii k = PAT_HEADER → Forall skipped A →
  find_pat (A ++ (k, v) :: B) = option_map Some (decode v).
Proof.
  intros Hk. induction 1 as [|kv A Hkv _ IH].
  - cbn [app find_pat]. unfold decode at 1, is_pat_header.
    rewrite (pat_header_valid _ Hk), Hk, String.eqb_refl.
    by destruct (decode v).
  - cbn [app]. by rewrite (find_pat_skip _ _ Hkv).
Qed.

Lemma skipped_same_key k v v' : skipped (k, v) → skipped (k, v').
Proof. done. Qed.

Lemma dict_set_skipped k v d :
  skipped (k, v) → Forall skipped d → Forall skipped (dict_set k v d).
Proof.
  intros Hk. induction 1 as [|[k' v'] d Hkv Hd IH]; cbn.
  - constructor; [done|constructor].
  - destruct (String.eqb k' k); constructor; try done.
Qed.

Lemma fold_dict_set_skipped pairs d :
  Forall skipped pairs → Forall skipped d →
  Forall skipped (fold_left (λ d kv, dict_set kv.1 kv.2 d) pairs d).
Proof.
  intros Hp. revert d. induction Hp as [|[k v] pairs Hkv _ IH]; intros d Hd.
  - done.
  - cbn. apply IH. by apply dict_set_skipped.
Qed.

(** The dict while the headers are put in: either the name [k] has not
    come yet and every item is passed over, or [k] has its place, behind
    items that are passed over, with the value put in last. *)
Definition placed (k : string) (latest : option string)
  (d : list (string * string)) : Prop :=
  match latest with
  | None => Forall skipped d
  | Some v => ∃ A B, d = A ++ (k, v) :: B ∧ Forall skipped A
  end.

Lemma dict_set_other k v k' v' A B :
  k' ≠ k → Forall skipped A →
  ∃ A' B', dict_set k' v' (A ++ (k, v) :: B) = A' ++ (k, v) :: B'
           ∧ Forall skipped A'.
Proof.
  intros Hne HA.
  assert (Hkk : String.eqb k k' = false) by (by apply String.eqb_neq).
  induction HA as [|[a b] A Hab HA IH]; cbn.
  - rewrite Hkk. exists [], (dict_set k' v' B). split; [done|constructor].
  - destruct (String.eqb a k') eqn:Ha.
    + exists ((a, v') :: A), B. split; [done|]. by constructor.
    + destruct IH as (A' & B' & -> & HA').
      exists ((a, b) :: A'), B'. split; [done|]. by constructor.
Qed.

Lemma dict_set_same k v v' A B :
  lower_ascii k = PAT_HEADER → Forall skipped A →
  dict_set k v' (A ++ (k, v) :: B) = A ++ (k, v') :: B.
Proof.
  intros Hk. induction 1 as [|[a b] A [Hab _] _ IH]; cbn.
  - by rewrite String.eqb_refl.
  - cbn in Hab. destruct (String.eqb_spec a k) as [->|_]; [done|].
    by rewrite IH.
Qed.

Lemma dict_set_new k v d :
  lower_ascii k = PAT_HEADER → Forall skipped d →
  dict_set k v d = d ++ [(k, v)].
Proof.
  intros Hk. induction 1 as [|[a b] d [Hab _] _ IH]; [done|].
  cbn in *. destruct (String.eqb_spec a k) as [->|_]; [done|].
  by rewrite IH.
Qed.

Lemma placed_set k latest d v :
  lower_ascii k = PAT_HEADER → placed k latest d →
  placed k (Some v) (dict_set k v d).
Proof.
  intros Hk. destruct latest as [x|]; cbn.
  - intros (A & B & -> & HA). exists A, B.
    split; [by apply dict_set_same|done].
  - intros Hd. exists d, []. split; [by apply dict_set_new|done].
Qed.

Lemma placed_other k latest d k' v' :
  k' ≠ k → (latest = None → skipped (k', v')) → placed k latest d →
  placed k latest (dict_set k' v' d).
Proof.
  intros Hne Hsk. destruct latest as [x|]; cbn.
  - intros (A & B & -> & HA). by apply dict_set_other.
  - intros Hd. apply dict_set_skipped; [by apply Hsk|done].
Qed.

(** Once [k] has its place it keeps it, whatever is put in. *)
Lemma placed_later k x pairs d :
  lower_ascii k = PAT_HEADER → placed k (Some x) d →
  ∃ x', placed k (Some x')
          (fold_left (λ d kv, dict_set kv.1 kv.2 d) pairs d).
Proof.
  intros Hk. revert x d.
  induction pairs as [|[a b] pairs IH]; intros x d Hd; [by exists x|].
  cbn [fold_left fst snd].
  destruct (decide (a = k)) as [->|Hne].
  - apply (IH b). by eapply placed_set.
  - apply (IH x). by apply placed_other.
Qed.

(** The headers after the last one of the name [k]. *)
Lemma placed_after k v post d :
  Forall (λ kv, kv.1 ≠ k) post →
  placed k (Some v) d →
  placed k (Some v) (fold_left (λ d kv, dict_set kv.1 kv.2 d) post d).
Proof.
  intros Hpost. revert d.
  induction Hpost as [|[a b] post Hab _ IH]; intros d Hd; [done|].
  cbn [fold_left fst snd]. apply IH. by apply placed_other.
Qed.

(** The value that counts: the last one sent under the spelling of the
    name that comes first.  [before] are the headers up to the first of
    the name [k], [between] those from that first one up to the last one
    of the name, which is [(k, v)]. *)
Lemma deciding_value s before between k v after :
  headers s = before ++ between ++ (k, v) :: after →
  lower_ascii k = PAT_HEADER →
  Forall skipped before →
  (between = [] ∨ ∃ a rest, between = (k, a) :: rest) →
  Forall (λ kv, kv.1 ≠ k) after →
  pat_token_of s = option_map Some (decode v).
Proof.
  intros Hh Hk Hbefore Hbetween Hafter. unfold pat_token_of, dict.
  rewrite Hh, !fold_left_app. cbn [fold_left fst snd].
  pose proof (fold_dict_set_skipped before [] Hbefore (Forall_nil_2 skipped))
    as Hd.
  set (d := fold_left _ before []) in *.
  assert (Hl : ∃ latest,
             placed k latest
               (fold_left (λ d kv, dict_set kv.1 kv.2 d) between d)).
  { destruct Hbetween as [->|(a & rest & ->)].
    - by exists None.
    - cbn [fold_left fst snd].
      destruct (placed_later k a rest (dict_set k a d) Hk
                  (placed_set k None d a Hk Hd)) as [x Hx].
      by exists (Some x). }
  destruct Hl as [latest Hl].
  pose proof (placed_set k latest _ v Hk Hl) as Hv.
  destruct (placed_after k v after _ Hafter Hv) as (A & B & -> & HA).
  by apply find_pat_middle.
Qed.

Lemma no_header_no_token s :
  Forall (λ kv, valid_utf8 kv.1 = true) (headers s) →
  ¬ carries_pat_header s → pat_token_of s = Some None.
Proof.
  intros Hvalid Hno. unfold pat_token_of, dict.
  apply find_pat_none, fold_dict_set_skipped; [|constructor].
  rewrite Forall_forall in Hvalid. apply Forall_forall.
  intros [k v] Hin. split; [|by apply (Hvalid (k, v))].
  intros Heq. apply Hno. by exists k, v.
Qed.

(** C1, as amended. For an HTTP request whose path is not ["/"] and whose
    method is not [GET]: when every header name is valid UTF-8 and none
    is [X-Azure-DevOps-PAT] in any letter case, the answer is status 401
    with the JSON body naming the header.  When the header occurs, the
    value that counts is the last one sent under the spelling of the name
    that occurs first, the header names before that first occurrence
    being valid UTF-8: if that value is valid UTF-8 and not empty, the
    request is handed to the underlying application, whatever its path
    and method, and if it is empty the answer is the same 401. *)
Theorem C1_pat_gate (s : scope) (current_pat_token : option string) :
  type s = "http" →
  (path s ≠ Some "/" → method s ≠ Some "GET" →
   Forall (λ kv, valid_utf8 kv.1 = true) (headers s) →
   ¬ carries_pat_header s →
   (custom_app s current_pat_token).1
   = Sent [http_response_start 401 [("content-type", "application/json")];
           http_response_body AUTH_REQUIRED_BODY])
  ∧ (∀ before between k v after,
       headers s = before ++ between ++ (k, v) :: after →
       lower_ascii k = PAT_HEADER →
       Forall (λ kv, lower_ascii kv.1 ≠ PAT_HEADER
                     ∧ valid_utf8 kv.1 = true) before →
       (between = [] ∨ ∃ a rest, between = (k, a) :: rest) →
       Forall (λ kv, kv.1 ≠ k) after →
       valid_utf8 v = true →
       (v ≠ "" → custom_app s current_pat_token = (Forwarded, Some v))
       ∧ (v = "" → path s ≠ Some "/" → method s ≠ Some "GET" →
          (custom_app s current_pat_token).1
          = Sent [http_response_start 401
                    [("content-type", "application/json")];
                  http_response_body AUTH_REQUIRED_BODY])).
Proof.
  intros Ht.
  assert (Hrefuse : ∀ t, pat_token_of s = Some t →
            Auth.opt_truthy t = false →
            path s ≠ Some "/" → method s ≠ Some "GET" →
            (custom_app s current_pat_token).1 = Sent unauthorized).
  { intros t Hs Hf Hp Hm. unfold custom_app. rewrite Ht, Hs.
    change (("http" =? "http")%string) with true. cbn iota. rewrite Hf.
    rewrite (bool_decide_eq_false_2 _ Hp), (bool_decide_eq_false_2 _ Hm).
    reflexivity. }
  split.
  - intros Hp Hm Hvalid Hno.
    by apply (Hrefuse None (no_header_no_token _ Hvalid Hno)).
  - intros before between k v after Hh Hk Hbefore Hbetween Hafter Hv.
    pose proof (deciding_value _ _ _ _ _ _ Hh Hk Hbefore Hbetween Hafter)
      as Hs.
    unfold decode in Hs. rewrite Hv in Hs. cbn in Hs. split.
    + intros Hne. unfold custom_app. rewrite Ht, Hs.
      destruct v; [done|reflexivity].
    + intros -> Hp Hm. by apply (Hrefuse (Some "") Hs).
Qed.

(** A run of C1: a POST to [/mcp] first without the header, then with
    it: sent twice under the spelling that comes first, and once, in
    between, under another. *)
Definition with_pat_thrice : list (string * string) :=
  [("content-type", "application/json");
   ("X-Azure-DevOps-PAT", "");
   ("x-azure-devops-pat", "another");
   ("X-Azure-DevOps-PAT", "abc123pat");
   ("accept", "*/*")].

Example post_with_pat_thrice :
  dict with_pat_thrice
  = [("content-type", "application/json");
     ("X-Azure-DevOps-PAT", "abc123pat");
     ("x-azure-devops-pat", "another");
     ("accept", "*/*")].
Proof. reflexivity. Qed.

Lemma C1_pat_gate_witness :
  type (post_mcp []) = "http"
  ∧ path (post_mcp []) ≠ Some "/"
  ∧ method (post_mcp []) ≠ Some "GET"
  ∧ ¬ carries_pat_header (post_mcp [])
  ∧ (custom_app (post_mcp []) None).1 = Sent unauthorized
  ∧ custom_app (post_mcp with_pat_thrice) None
    = (Forwarded, Some "abc123pat").
Proof.
  assert (H1 : type (post_mcp []) = "http") by reflexivity.
  assert (H2 : path (post_mcp []) ≠ Some "/") by discriminate.
  assert (H3 : method (post_mcp []) ≠ Some "GET") by discriminate.
  assert (H4 : ¬ carries_pat_header (post_mcp [])).
  { intros (k & v & Hin & _). cbn in Hin. by apply elem_of_nil in Hin. }
  assert (H5 : Forall (λ kv : string * string, valid_utf8 kv.1 = true)
                 (headers (post_mcp []))) by constructor.
  assert (H6 : Forall (λ kv : string * string,
                         lower_ascii kv.1 ≠ PAT_HEADER
                         ∧ valid_utf8 kv.1 = true)
                 [("content-type", "application/json")]).
  { constructor; [|constructor]. split; [discriminate|reflexivity]. }
  assert (H7 : Forall (λ kv : string * string, kv.1 ≠ "X-Azure-DevOps-PAT")
                 [("accept", "*/*")]).
  { constructor; [discriminate|constructor]. }
  assert (H8 : "abc123pat" ≠ "") by discriminate.
  split; [exact H1|]. split; [exact H2|]. split; [exact H3|].
  split; [exact H4|]. split.
  - exact (proj1 (C1_pat_gate (post_mcp []) None H1) H2 H3 H5 H4).
  - exact (proj1 (proj2 (C1_pat_gate (post_mcp with_pat_thrice) None eq_refl)
                    [("content-type", "application/json")]
                    [("X-Azure-DevOps-PAT", "");
                     ("x-azure-devops-pat", "another")]
                    "X-Azure-DevOps-PAT" "abc123pat" [("accept", "*/*")]
                    eq_refl eq_refl H6
                    (or_intror (ex_intro _ "" (ex_intro _ _ eq_refl)))
                    H7 eq_refl) H8).
Defined.

(** C1 as stated fails on a GET: the path is not ["/"], there is no
    header, and the request is handed on instead of being answered 401.
    It also fails on a header with an empty value, which is answered 401
    instead of being handed on. *)
Lemma C1_get_counterexample :
  path (get_mcp []) ≠ Some "/"
  ∧ ¬ carries_pat_header (get_mcp [])
  ∧ custom_app (get_mcp []) None = (Forwarded, None)
  ∧ carries_pat_header (post_mcp [("x-azure-devops-pat", "")])
  ∧ custom_app (post_mcp [("x-azure-devops-pat", "")]) None
    = (Sent unauthorized, Some "").
Proof.
  split; [discriminate|]. split.
  { intros (k & v & Hin & _). cbn in Hin. by apply elem_of_nil in Hin. }
  split; [reflexivity|]. split; [|reflexivity].
  exists "x-azure-devops-pat", "". split; [apply list_elem_of_here|reflexivity].
Qed.

(** *** The gate from the other side, and the tools behind it *)

(** [test_connection()] of [run_http_server], reading the token that
    [custom_app] has stored. *)
Definition test_connection (organization : string)
  (current_pat_token : option string) : string :=
  if negb (Auth.opt_truthy current_pat_token) then
    "Error: PAT token not provided in X-Azure-DevOps-PAT header"
  else if negb (Auth.opt_truthy current_pat_token)
          || (len (default "" current_pat_token) <? 10) then
    "Error: Invalid PAT token format"
  else "Connected to Azure DevOps organization: " +:+ organization
       +:+ " (PAT authentication)".

(** [get_pat_authenticator()]: it raises, or returns the provider made by
    [create_authenticator("pat", None, current_pat_token)], given here by
    what one invocation of that provider does. *)
Definition get_pat_authenticator
  (credential_get_token :
     Auth.credential → list string → result (option string))
  (current_pat_token : option string)
  : result (result string * list Auth.event) :=
  if negb (Auth.opt_truthy current_pat_token) then
    Raise (Exception "PAT token not provided in X-Azure-DevOps-PAT header")
  else Return (Auth.create_authenticator credential_get_token "pat" None
                 current_pat_token).

Definition connected (organization : string) : string :=
  "Connected to Azure DevOps organization: " +:+ organization
  +:+ " (PAT authentication)".

(** Ten bytes, five code points. *)
Example test_connection_counts_code_points :
  test_connection "contoso"
    (custom_app (post_mcp [("x-azure-devops-pat", "ééééé")]) None).2
  = "Error: Invalid PAT token format".
Proof. reflexivity. Qed.

(** When the header loop raises: some item of the dict, behind items
    that are passed over, has a name that does not decode, or has the
    name looked for and a value that does not decode. *)
Lemma find_pat_raises items :
  find_pat items = None
  ↔ ∃ A k v B,
      items = A ++ (k, v) :: B ∧ Forall skipped A
      ∧ (valid_utf8 k = false
         ∨ (lower_ascii k = PAT_HEADER ∧ valid_utf8 v = false)).
Proof.
  split.
  - induction items as [|[k v] items IH]; [discriminate|].
    cbn [find_pat]. unfold decode, is_pat_header.
    destruct (valid_utf8 k) eqn:Hk.
    + destruct (String.eqb_spec (lower_ascii k) PAT_HEADER) as [Hp|Hp].
      * destruct (valid_utf8 v) eqn:Hv; [discriminate|]. intros _.
        exists [], k, v, items. split; [done|]. split; [constructor|].
        right. done.
      * intros H. destruct (IH H) as (A & k' & v' & B & -> & HA & Hbad).
        exists ((k, v) :: A), k', v', B. split; [done|].
        split; [by constructor|done].
    + intros _. exists [], k, v, items. split; [done|].
      split; [constructor|by left].
  - intros (A & k & v & B & -> & HA & Hbad).
    induction HA as [|kv A Hkv _ IH].
    + cbn [app find_pat]. unfold decode, is_pat_header.
      destruct Hbad as [Hk|[Hp Hv]].
      * by rewrite Hk.
      * rewrite (pat_header_valid _ Hp), Hp, String.eqb_refl. by rewrite Hv.
    + cbn [app]. by rewrite (find_pat_skip _ _ Hkv).
Qed.

(** X26. What [custom_app] does with a call, exactly.  It answers
    itself, with the 401 pair, when the call is an HTTP request for
    which the header loop ends with no token or an empty one, on a path
    other than ["/"] with a method other than [GET].  It raises
    [UnicodeDecodeError] when the call is an HTTP request and the loop
    meets, before it ends, a header name that is not UTF-8 or, under the
    name looked for, a value that is not.  Every other call is handed to
    the underlying application. *)
Theorem refused_exactly_when (s : scope) (current_pat_token : option string) :
  ((custom_app s current_pat_token).1 = Sent unauthorized
   ↔ type s = "http"
     ∧ (pat_token_of s = Some None ∨ pat_token_of s = Some (Some ""))
     ∧ path s ≠ Some "/"
     ∧ method s ≠ Some "GET")
  ∧ ((custom_app s current_pat_token).1 = UnicodeDecodeError
     ↔ type s = "http"
       ∧ ∃ A k v B,
           dict (headers s) = A ++ (k, v) :: B ∧ Forall skipped A
           ∧ (valid_utf8 k = false
              ∨ (lower_ascii k = PAT_HEADER ∧ valid_utf8 v = false)))
  ∧ ((custom_app s current_pat_token).1 = Forwarded
     ↔ type s ≠ "http"
       ∨ (∃ v, pat_token_of s = Some (Some v) ∧ v ≠ "")
       ∨ (pat_token_of s ≠ None
          ∧ (path s = Some "/" ∨ method s = Some "GET"))).
Proof.
  pose proof (find_pat_raises (dict (headers s))) as Hraise.
  fold (pat_token_of s) in Hraise.
  unfold custom_app.
  destruct (String.eqb_spec (type s) "http") as [Ht|Ht]; cbn [fst].
  2: { split; [|split].
       - split; [discriminate|]. by intros [? _].
       - split; [discriminate|]. by intros [? _].
       - split; [by left|done]. }
  destruct (pat_token_of s) as [t|] eqn:Hs; cbn [fst].
  2: { split; [|split].
       - split; [discriminate|]. intros (_ & [?|?] & _); discriminate.
       - split; [|done]. intros _. split; [done|]. by apply Hraise.
       - split; [discriminate|].
         intros [?|[(v & ? & _)|[? _]]]; done. }
  assert (Hnr : ¬ ∃ A k v B,
            dict (headers s) = A ++ (k, v) :: B ∧ Forall skipped A
            ∧ (valid_utf8 k = false
               ∨ (lower_ascii k = PAT_HEADER ∧ valid_utf8 v = false))).
  { intros H. apply Hraise in H. discriminate. }
  assert (Htok : Auth.opt_truthy t = false ↔ t = None ∨ t = Some "").
  { destruct t as [[|c v]|]; cbn; naive_solver. }
  destruct (Auth.opt_truthy t) eqn:Hv; cbn [negb andb fst].
  { split; [|split].
    - split; [discriminate|]. intros (_ & H & _).
      assert (Hf : t = None ∨ t = Some "") by (destruct H; naive_solver).
      apply Htok in Hf. discriminate.
    - split; [discriminate|]. by intros [_ ?].
    - split; [|done]. intros _. right. left.
      destruct t as [[|c v]|]; try discriminate. eexists. split; done. }
  destruct (decide (path s = Some "/")) as [Hp|Hp].
  { rewrite (bool_decide_eq_true_2 _ Hp). cbn. split; [|split].
    - split; [discriminate|]. by intros (_ & _ & ? & _).
    - split; [discriminate|]. by intros [_ ?].
    - split; [|done]. intros _. right. right. split; [done|by left]. }
  rewrite (bool_decide_eq_false_2 _ Hp). cbn [negb andb].
  destruct (decide (method s = Some "GET")) as [Hm|Hm].
  { rewrite (bool_decide_eq_true_2 _ Hm). cbn. split; [|split].
    - split; [discriminate|]. by intros (_ & _ & _ & ?).
    - split; [discriminate|]. by intros [_ ?].
    - split; [|done]. intros _. right. right. split; [done|by right]. }
  rewrite (bool_decide_eq_false_2 _ Hm). cbn. split; [|split].
  - split; [|done]. intros _. split; [done|]. split; [|done].
    destruct (proj1 Htok eq_refl) as [-> | ->]; [by left|by right].
  - split; [discriminate|]. by intros [_ ?].
  - split; [discriminate|].
    intros [?|[(v & [= ->] & Hne)|[_ [?|?]]]]; try done.
    destruct v; [done|discriminate].
Qed.

(** X27. What the tools see after an HTTP request whose headers the loop
    could decode is the token of that request alone: [test_connection]
    reports a connection exactly when the request carried a token of at
    least ten code points, whatever token an earlier request had left.
    A request on which [custom_app] raises, and a scope that is not HTTP,
    leave the stored token, and so the answer, as it was. *)
Theorem test_connection_after_gate (organization : string) (s : scope)
  (current_pat_token : option string) :
  (type s = "http" →
   ∀ pat_token, pat_token_of s = Some pat_token →
     (custom_app s current_pat_token).2 = pat_token
     ∧ (test_connection organization (custom_app s current_pat_token).2
        = connected organization
        ↔ ∃ v, pat_token = Some v ∧ 10 ≤ len v))
  ∧ (type s ≠ "http" ∨ pat_token_of s = None →
     (custom_app s current_pat_token).2 = current_pat_token
     ∧ test_connection organization (custom_app s current_pat_token).2
       = test_connection organization current_pat_token).
Proof.
  assert (Hdiff1 : ∀ o, connected o
    ≠ "Error: PAT token not provided in X-Azure-DevOps-PAT header")
    by (intros o; discriminate).
  assert (Hdiff2 : ∀ o, connected o ≠ "Error: Invalid PAT token format")
    by (intros o; discriminate).
  split.
  - intros Ht pat_token Hs.
    assert (Hst : (custom_app s current_pat_token).2 = pat_token).
    { unfold custom_app. rewrite Ht, Hs.
      change (("http" =? "http")%string) with true. cbn iota.
      by destruct (_ && _ && _). }
    rewrite Hst. split; [done|]. unfold test_connection.
    destruct pat_token as [v|]; cbn [Auth.opt_truthy].
    + destruct v as [|c v'].
      { cbn [PyStr.truthy negb]. split.
        - intros H. symmetry in H. by apply Hdiff1 in H.
        - intros (v & [= <-] & Hl). cbn in Hl. lia. }
      cbn [PyStr.truthy negb orb default from_option id].
      destruct (Nat.ltb_spec (len (String c v')) 10) as [Hl|Hl].
      * split.
        -- intros H. symmetry in H. by apply Hdiff2 in H.
        -- intros (v & [= <-] & Hl'). lia.
      * split; [|done]. intros _. by eexists.
    + cbn [negb]. split.
      * intros H. symmetry in H. by apply Hdiff1 in H.
      * by intros (v & [=] & _).
  - intros Hor.
    assert (Hst : (custom_app s current_pat_token).2 = current_pat_token).
    { unfold custom_app.
      destruct (String.eqb_spec (type s) "http") as [Ht|Ht]; [|done].
      destruct Hor as [Hn|Hs]; [done|]. by rewrite Hs. }
    by rewrite Hst.
Qed.

Lemma test_connection_after_gate_witness :
  type (post_mcp [("x-azure-devops-pat", "ééééé")]) = "http"
  ∧ pat_token_of (post_mcp [("x-azure-devops-pat", "ééééé")])
    = Some (Some "ééééé")
  ∧ (custom_app (post_mcp [("x-azure-devops-pat", "ééééé")])
       (Some "abc123pat-of-somebody-else")).2 = Some "ééééé"
  ∧ test_connection "contoso"
      (custom_app (post_mcp [("x-azure-devops-pat", "ééééé")])
         (Some "abc123pat-of-somebody-else")).2
    ≠ connected "contoso".
Proof.
  assert (H1 : type (post_mcp [("x-azure-devops-pat", "ééééé")]) = "http")
    by reflexivity.
  assert (H2 : pat_token_of (post_mcp [("x-azure-devops-pat", "ééééé")])
               = Some (Some "ééééé")) by reflexivity.
  destruct (proj1 (test_connection_after_gate "contoso"
                     (post_mcp [("x-azure-devops-pat", "ééééé")])
                     (Some "abc123pat-of-somebody-else")) H1 _ H2)
    as [Hst Hc].
  split; [exact H1|]. split; [exact H2|]. split; [exact Hst|].
  intros Hcon. apply Hc in Hcon as (v & [= <-] & Hl).
  vm_compute in Hl. lia.
Defined.

(** X28. A provider obtained from [get_pat_authenticator] returns exactly
    the stored token and asks no credential; with no token, or an empty
    one, stored, it is [get_pat_authenticator] itself that raises, naming
    the header, so the provider's own "PAT token is required" error is
    never seen on this path. *)
Theorem pat_authenticator_returns_header_token
  (credential_get_token :
     Auth.credential → list string → result (option string))
  (current_pat_token : option string) :
  (∀ v, current_pat_token = Some v → v ≠ "" →
        get_pat_authenticator credential_get_token current_pat_token
        = Return (Return v, []))
  ∧ (current_pat_token = None ∨ current_pat_token = Some "" →
     get_pat_authenticator credential_get_token current_pat_token
     = Raise (Exception "PAT token not provided in X-Azure-DevOps-PAT header"))
  ∧ (∀ e evs,
       get_pat_authenticator credential_get_token current_pat_token
       ≠ Return (Raise e, evs)).
Proof.
  unfold get_pat_authenticator. split; [|split].
  - intros v -> Hv. destruct v; [done|reflexivity].
  - by intros [->| ->].
  - intros e evs. destruct current_pat_token as [[|c v]|]; discriminate.
Qed.

Lemma pat_authenticator_returns_header_token_witness :
  Some "abc123pat" = Some "abc123pat"
  ∧ "abc123pat" ≠ ""
  ∧ get_pat_authenticator Auth.no_credential (Some "abc123pat")
    = Return (Return "abc123pat", []).
Proof.
  assert (H1 : Some "abc123pat" = Some "abc123pat") by reflexivity.
  assert (H2 : "abc123pat" ≠ "") by discriminate.
  split; [exact H1|]. split; [exact H2|].
  exact (proj1 (pat_authenticator_returns_header_token Auth.no_credential
                  (Some "abc123pat")) _ H1 H2).
Defined.

(** *** The command line *)

(** The parsed command line, as [click] hands it to [main]. *)
Record arguments : Type := mkArguments {
  organization : option string;
  domains : list string;
  authentication : string;
  tenant : option string;
  mode : string;
  host : string;
  port : Z
}.

(** Which server [run_server] starts. *)
Inductive server : Type :=
  | run_http_server (organization : string) (domains : list string)
      (authentication : string) (tenant : option string)
      (host : string) (port : Z)
  | run_stdio_server (organization : string) (domains : list string)
      (authentication : string) (tenant : option string).

(** How [main] ends: [sys.exit(code)] after a message on standard error,
    or a running server. *)
Inductive ending : Type :=
  | Exit (code : Z) (stderr : string)
  | Started (s : server).

Definition run_server (organization : string) (domains : list string)
  (authentication : string) (tenant : option string)
  (mode host : string) (port : Z) : server :=
  if String.eqb mode "http"
  then run_http_server organization domains authentication tenant host port
  else run_stdio_server organization domains authentication tenant.

(** [main], with [os.environ] as a map. *)
Definition main (environ : gmap string string) (a : arguments) : ending :=
  let org_name :=
    if Auth.opt_truthy (organization a) then organization a
    else environ !! "AZURE_DEVOPS_ORG" in
  if negb (Auth.opt_truthy org_name) then
    Exit 1 ("Error: Organization name is required. Provide it as an argument "
            +:+ "or set AZURE_DEVOPS_ORG environment variable.")
  else if String.eqb (authentication a) "pat"
          && negb (String.eqb (mode a) "http") then
    Exit 1 ("Error: PAT authentication is only supported in HTTP mode. "
            +:+ "Use --mode http with --authentication pat.")
  else Started (run_server (default "" org_name) (domains a)
                  (authentication a) (tenant a) (mode a) (host a) (port a)).

(** The organization a started server works for. *)
Definition organization_of (s : server) : string :=
  match s with
  | run_http_server o _ _ _ _ _ => o
  | run_stdio_server o _ _ _ => o
  end.

(** X29. [main] starts a server only for a non-empty organization name:
    the argument when it is given and not empty, otherwise the value of
    [AZURE_DEVOPS_ORG]; the stdio server is never started with ["pat"]
    authentication; and every other ending is exit code 1. *)
Theorem main_starts_only_valid (environ : gmap string string)
  (a : arguments) :
  (∀ s, main environ a = Started s →
     organization_of s ≠ ""
     ∧ (∀ o, organization a = Some o → o ≠ "" → organization_of s = o)
     ∧ (organization a = None ∨ organization a = Some "" →
        environ !! "AZURE_DEVOPS_ORG" = Some (organization_of s))
     ∧ (∀ o d au t, s = run_stdio_server o d au t → au ≠ "pat"))
  ∧ (∀ code msg, main environ a = Exit code msg → code = 1%Z).
Proof.
  unfold main. split.
  - intros s.
    set (org_name := if Auth.opt_truthy (organization a) then organization a
                     else environ !! "AZURE_DEVOPS_ORG").
    destruct (Auth.opt_truthy org_name) eqn:Ho; cbn [negb]; [|discriminate].
    destruct (String.eqb (authentication a) "pat"
              && negb (String.eqb (mode a) "http")) eqn:Hpat; [discriminate|].
    intros [= <-].
    assert (Horg : organization_of
              (run_server (default "" org_name) (domains a) (authentication a)
                 (tenant a) (mode a) (host a) (port a))
            = default "" org_name).
    { unfold run_server. by destruct (String.eqb (mode a) "http"). }
    rewrite Horg. split; [|split; [|split]].
    + destruct org_name as [[|c o]|]; cbn in *; done.
    + intros o Hoa Hne. subst org_name. rewrite Hoa in *.
      destruct o; [done|]. done.
    + intros Hoa. subst org_name.
      assert (Hf : Auth.opt_truthy (organization a) = false)
        by (destruct Hoa as [->| ->]; done).
      rewrite Hf in *.
      destruct (environ !! "AZURE_DEVOPS_ORG"); [done|discriminate].
    + intros o d au t. unfold run_server.
      destruct (String.eqb_spec (mode a) "http") as [Hm|Hm]; [discriminate|].
      intros [= _ _ <- _] Hau. rewrite Hau in Hpat. cbn in Hpat.
      discriminate.
  - intros code msg.
    destruct (negb _); [by intros [= <- _]|].
    destruct (_ && _); [by intros [= <- _]|discriminate].
Qed.

Definition pat_over_stdio : arguments :=
  mkArguments (Some "contoso") ["all"] "pat" None "stdio" "127.0.0.1" 8000.

Definition azcli_from_environ : arguments :=
  mkArguments None ["core"] "azcli" None "stdio" "127.0.0.1" 8000.

Example main_rejects_pat_over_stdio :
  main ∅ pat_over_stdio
  = Exit 1 ("Error: PAT authentication is only supported in HTTP mode. "
            +:+ "Use --mode http with --authentication pat.").
Proof. reflexivity. Qed.

Lemma main_starts_only_valid_witness :
  main {[ "AZURE_DEVOPS_ORG" := "fabrikam" ]} azcli_from_environ
  = Started (run_stdio_server "fabrikam" ["core"] "azcli" None)
  ∧ organization_of (run_stdio_server "fabrikam" ["core"] "azcli" None) ≠ "".
Proof.
  assert (H : main {[ "AZURE_DEVOPS_ORG" := "fabrikam" ]} azcli_from_environ
              = Started (run_stdio_server "fabrikam" ["core"] "azcli" None))
    by (vm_compute; reflexivity).
  split; [exact H|].
  exact (proj1 (proj1 (main_starts_only_valid _ _) _ H)).
Defined.

End Main.
